(** * Barber Empire dashboard: earnings aggregation and goal projection

    A shallow embedding of the computations of the dashboard component
    (the body of [Dashboard], [getStartOfPeriod], [getInitialData],
    [handleTransaction] and the grouping of [HistoryModal]) together with
    the parts of the ECMAScript platform they call: numbers, time values,
    the [Date] methods and JSON values.

    Conventions of the embedding.
    - A JavaScript number is an IEEE-754 double.  The model keeps every
      special value that the arithmetic of the dashboard can produce ([NaN],
      the two infinities and the negative zero) and has two arithmetics on
      the finite values.  That of [JSNum] takes a finite value as an exact
      rational, without rounding, overflow or underflow; it serves the
      facts that rounding does not touch.  That of [Binary64] rounds every
      result to the nearest double; [Figures] has the figures of the
      dashboard in it, for the facts about the whole numbers that the
      dashboard shows.
    - A [Date] is its time value (milliseconds since the epoch, UTC) or the
      invalid date; the operations on it are those of ECMA-262.  Local time
      is UTC plus a constant offset [tz]: daylight saving transitions are
      not modelled.
    - An exception is the value [None] of an option.
    - The parsers of the platform behind [new Date(string)] and
      [JSON.parse] are parameters of the functions that call them;
      [parseISO] and [parseJSON] are references for them on the texts that
      the dashboard writes.

    The definitions come first, the facts about them after. *)

From Stdlib Require Import ZArith QArith Qround Qminmax Qpower Qabs Lqa Lia.
From Stdlib Require Import List String Ascii Bool Sorted Permutation.
Import ListNotations.

(* ================================================================== *)
(** ** JavaScript numbers *)
(* ================================================================== *)

Module JSNum.

Open Scope Q_scope.

(** [Fin q] with [q == 0] is the positive zero. *)
Inductive number : Type :=
| Fin (q : Q)
| NegZero
| PosInf
| NegInf
| NaN.

Definition isNaN (a : number) : bool :=
  match a with NaN => true | _ => false end.

Definition isInf (a : number) : bool :=
  match a with PosInf | NegInf => true | _ => false end.

Definition isZero (a : number) : bool :=
  match a with
  | Fin q => Qeq_bool q 0
  | NegZero => true
  | _ => false
  end.

(** The sign bit. *)
Definition negative (a : number) : bool :=
  match a with
  | Fin q => match q ?= 0 with Lt => true | _ => false end
  | NegZero | NegInf => true
  | PosInf | NaN => false
  end.

(** The rational value of a finite number (0 elsewhere). *)
Definition value (a : number) : Q :=
  match a with Fin q => q | _ => 0 end.

(** The rational value of a number, when it is finite. *)
Definition toQ (a : number) : option Q :=
  match a with
  | Fin q => Some q
  | NegZero => Some 0
  | _ => None
  end.

Definition finite (a : number) : Prop :=
  match a with Fin _ | NegZero => True | _ => False end.

Definition zero (sign : bool) : number := if sign then NegZero else Fin 0.
Definition inf (sign : bool) : number := if sign then NegInf else PosInf.

(** A finite result [q] whose sign, should it be a zero, is [sign]. *)
Definition mkFin (sign : bool) (q : Q) : number :=
  if Qeq_bool q 0 then zero sign else Fin (Qred q).

Definition ofZ (z : Z) : number := Fin (inject_Z z).

Definition neg (a : number) : number :=
  match a with
  | Fin q => if Qeq_bool q 0 then NegZero else Fin (Qred (- q))
  | NegZero => Fin 0
  | PosInf => NegInf
  | NegInf => PosInf
  | NaN => NaN
  end.

(** [a + b] before its rounding, which [Binary64.add] applies *)
Definition add (a b : number) : number :=
  match a, b with
  | NaN, _ | _, NaN => NaN
  | PosInf, NegInf | NegInf, PosInf => NaN
  | PosInf, _ | _, PosInf => PosInf
  | NegInf, _ | _, NegInf => NegInf
  | NegZero, NegZero => NegZero
  | NegZero, Fin q | Fin q, NegZero => Fin (Qred q)
  | Fin p, Fin q => Fin (Qred (p + q))
  end.

(** [a - b] before its rounding, which [Binary64.sub] applies *)
Definition sub (a b : number) : number := add a (neg b).

(** [a * b] before its rounding, which [Binary64.mul] applies *)
Definition mul (a b : number) : number :=
  let s := xorb (negative a) (negative b) in
  if isNaN a || isNaN b then NaN
  else if (isInf a && isZero b) || (isZero a && isInf b) then NaN
  else if isInf a || isInf b then inf s
  else mkFin s (value a * value b).

(** [a / b] before its rounding, which [Binary64.div] applies *)
Definition div (a b : number) : number :=
  let s := xorb (negative a) (negative b) in
  if isNaN a || isNaN b then NaN
  else if (isInf a && isInf b) || (isZero a && isZero b) then NaN
  else if isInf a then inf s
  else if isInf b then zero s
  else if isZero b then inf s
  else mkFin s (value a / value b).

(** The comparison of two numbers, [None] when one of them is [NaN];
    the two zeros are equal. *)
Definition cmp (a b : number) : option comparison :=
  match a, b with
  | NaN, _ | _, NaN => None
  | PosInf, PosInf | NegInf, NegInf => Some Eq
  | PosInf, _ | _, NegInf => Some Gt
  | NegInf, _ | _, PosInf => Some Lt
  | _, _ => Some (value a ?= value b)
  end.

(** [a < b], [a <= b], [a > b], [a >= b] *)
Definition ltb (a b : number) : bool :=
  match cmp a b with Some Lt => true | _ => false end.
Definition leb (a b : number) : bool :=
  match cmp a b with Some Lt | Some Eq => true | _ => false end.
Definition gtb (a b : number) : bool := ltb b a.
Definition geb (a b : number) : bool := leb b a.

(** [Math.min(a, b)]: [NaN] when one argument is, and the negative zero is
    smaller than the positive one. *)
Definition min (a b : number) : number :=
  match cmp a b with
  | None => NaN
  | Some Lt => a
  | Some Gt => b
  | Some Eq => if negative a then a else b
  end.

(** [Math.max(a, b)] *)
Definition max (a b : number) : number :=
  match cmp a b with
  | None => NaN
  | Some Lt => b
  | Some Gt => a
  | Some Eq => if negative a then b else a
  end.

(** [Math.ceil(a)]: a negative number above -1 gives the negative zero. *)
Definition ceil (a : number) : number :=
  match a with
  | Fin q => let z := Qceiling q in
             if (z =? 0)%Z then zero (negative a) else ofZ z
  | _ => a
  end.

(** [Math.floor(a)] *)
Definition floor (a : number) : number :=
  match a with
  | Fin q => ofZ (Qfloor q)
  | _ => a
  end.

End JSNum.

Import JSNum.

(* ================================================================== *)
(** ** Time values and dates (ECMA-262, Date objects) *)
(* ================================================================== *)

Module ESDate.

Open Scope Z_scope.

Definition msPerSecond : Z := 1000.
Definition msPerMinute : Z := 60000.
Definition msPerHour : Z := 3600000.
Definition msPerDay : Z := 86400000.

(** The largest magnitude of a time value: 8.64e15 ms, 100,000,000 days. *)
Definition maxTime : Z := 8640000000000000.

(** A reading of the system clock: a time value at or after the epoch that
    lies more than a month before the end of the range of time values (in
    the year 275760). *)
Definition clockReading (now : Z) : Prop :=
  0 <= now /\ now + 32 * msPerDay <= maxTime.

Definition Day (t : Z) : Z := t / msPerDay.
Definition TimeWithinDay (t : Z) : Z := t mod msPerDay.

Definition isLeapYear (y : Z) : bool :=
  if negb (y mod 4 =? 0) then false
  else if negb (y mod 100 =? 0) then true
  else if negb (y mod 400 =? 0) then false
  else true.

Definition DaysInYear (y : Z) : Z := if isLeapYear y then 366 else 365.

(** 1 in a leap year and 0 otherwise. *)
Definition leapOf (y : Z) : Z := if DaysInYear y =? 366 then 1 else 0.

(** The day number of the first day of year [y]. *)
Definition DayFromYear (y : Z) : Z :=
  365 * (y - 1970) + (y - 1969) / 4 - (y - 1901) / 100 + (y - 1601) / 400.

(** The year of day number [d]: the largest [y] with [DayFromYear y <= d].
    The quotient by the mean length of a year is off by at most one. *)
Definition yearOfDay (d : Z) : Z :=
  let y := 1970 + (400 * d) / 146097 in
  if d <? DayFromYear y then y - 1
  else if DayFromYear (y + 1) <=? d then y + 1
  else y.

Definition YearFromTime (t : Z) : Z := yearOfDay (Day t).

Definition DayWithinYear (t : Z) : Z := Day t - DayFromYear (YearFromTime t).

Definition InLeapYear (t : Z) : Z := leapOf (YearFromTime t).

(** The day within the year on which month [m] (0 to 11) starts; [leap] is 1
    in a leap year and 0 otherwise.  Month 12 is the start of the next
    year. *)
Definition monthStart (leap m : Z) : Z :=
  match m with
  | 0 => 0
  | 1 => 31
  | 2 => 59 + leap
  | 3 => 90 + leap
  | 4 => 120 + leap
  | 5 => 151 + leap
  | 6 => 181 + leap
  | 7 => 212 + leap
  | 8 => 243 + leap
  | 9 => 273 + leap
  | 10 => 304 + leap
  | 11 => 334 + leap
  | _ => 365 + leap
  end.

Definition MonthFromTime (t : Z) : Z :=
  let leap := InLeapYear t in
  let d := DayWithinYear t in
  if d <? 31 then 0
  else if d <? 59 + leap then 1
  else if d <? 90 + leap then 2
  else if d <? 120 + leap then 3
  else if d <? 151 + leap then 4
  else if d <? 181 + leap then 5
  else if d <? 212 + leap then 6
  else if d <? 243 + leap then 7
  else if d <? 273 + leap then 8
  else if d <? 304 + leap then 9
  else if d <? 334 + leap then 10
  else 11.

(** The day of the month, 1 to 31. *)
Definition DateFromTime (t : Z) : Z :=
  DayWithinYear t - monthStart (InLeapYear t) (MonthFromTime t) + 1.

(** 0 is Sunday, 1 Monday, ..., 6 Saturday; day 0 (1 January 1970) was a
    Thursday. *)
Definition WeekDay (t : Z) : Z := (Day t + 4) mod 7.

Definition HourFromTime (t : Z) : Z := (t / msPerHour) mod 24.
Definition MinFromTime (t : Z) : Z := (t / msPerMinute) mod 60.
Definition SecFromTime (t : Z) : Z := (t / msPerSecond) mod 60.
Definition msFromTime (t : Z) : Z := t mod msPerSecond.

Definition MakeTime (hour min sec ms : Z) : Z :=
  hour * msPerHour + min * msPerMinute + sec * msPerSecond + ms.

(** [MakeDay(year, month, date)]: the month may lie outside 0..11 and the
    date outside the month; both carry over. *)
Definition MakeDay (year month date : Z) : Z :=
  let ym := year + month / 12 in
  let mn := month mod 12 in
  DayFromYear ym + monthStart (leapOf ym) mn + date - 1.

Definition MakeDate (day time : Z) : Z := day * msPerDay + time.

(** [TimeClip]: a time value beyond the range is the invalid one. *)
Definition TimeClip (t : Z) : option Z :=
  if Z.abs t <=? maxTime then Some t else None.

(** *** Decimal fields *)

Definition digitChar (n : Z) : ascii := ascii_of_N (48 + Z.to_N n).

Definition digitOfChar (c : ascii) : option Z :=
  let n := Z.of_N (N_of_ascii c) in
  if (48 <=? n) && (n <=? 57) then Some (n - 48) else None.

(** The [w] low decimal digits of [n], most significant first. *)
Fixpoint digits (w : nat) (n : Z) : string :=
  match w with
  | O => EmptyString
  | S w' => String (digitChar ((n / 10 ^ Z.of_nat w') mod 10)) (digits w' n)
  end.

Fixpoint widthFrom (fuel w : nat) (n : Z) : nat :=
  match fuel with
  | O => w
  | S fuel' => if n <? 10 ^ Z.of_nat w then w else widthFrom fuel' (S w) n
  end.

(** The number of decimal digits of [n >= 0] (1 for 0). *)
Definition decimalWidth (n : Z) : nat := widthFrom (Z.to_nat (Z.log2 n)) 1 n.

(** [ToZeroPaddedDecimalString(n, minLength)] *)
Definition ToZeroPaddedDecimalString (n : Z) (minLength : nat) : string :=
  digits (Nat.max minLength (decimalWidth n)) n.

(** Reads [w] decimal digits off the front of [s]: their value, starting
    from [acc], and the rest of [s]. *)
Fixpoint takeDigits (w : nat) (acc : Z) (s : string) : option (Z * string) :=
  match w with
  | O => Some (acc, s)
  | S w' =>
      match s with
      | String c r =>
          match digitOfChar c with
          | Some d => takeDigits w' (10 * acc + d) r
          | None => None
          end
      | EmptyString => None
      end
  end.

Definition expect (c : ascii) (s : string) : option string :=
  match s with
  | String x r => if Ascii.eqb x c then Some r else None
  | EmptyString => None
  end.

(** A [Date] object holds a time value, or [NaN] (the invalid date, [None]). *)
Definition Date : Type := option Z.

Definition bind {A B : Type} (o : option A) (f : A -> option B) : option B :=
  match o with Some a => f a | None => None end.

(** *** [Date.prototype.toISOString] and the ISO format of [Date.parse] *)

(** The year of the ISO format: four digits from 0 to 9999, otherwise a sign
    and six digits. *)
Definition isoYear (y : Z) : string :=
  if (0 <=? y) && (y <=? 9999) then digits 4 y
  else if y <? 0 then String "-" (digits 6 (- y))
  else String "+" (digits 6 y).

(** [YYYY-MM-DDTHH:mm:ss.sssZ], in UTC. *)
Definition isoString (tv : Z) : string :=
  (isoYear (YearFromTime tv) ++ "-" ++ digits 2 (MonthFromTime tv + 1)%Z ++ "-"
   ++ digits 2 (DateFromTime tv) ++ "T" ++ digits 2 (HourFromTime tv) ++ ":"
   ++ digits 2 (MinFromTime tv) ++ ":" ++ digits 2 (SecFromTime tv) ++ "."
   ++ digits 3 (msFromTime tv) ++ "Z")%string.

(** [d.toISOString()]: a [RangeError] ([None]) on the invalid date. *)
Definition toISOString (d : Date) : option string :=
  bind d (fun tv => Some (isoString tv)).

Definition DaysInMonth (y m : Z) : Z :=
  monthStart (leapOf y) (m + 1) - monthStart (leapOf y) m.

Definition parseYear (s : string) : option (Z * string) :=
  match s with
  | String "+" r => takeDigits 6 0 r
  | String "-" r =>
      bind (takeDigits 6 0 r) (fun '(y, r') =>
        if y =? 0 then None else Some (- y, r'))
  | _ => takeDigits 4 0 s
  end.

(** The date-time form of the ISO format, as [toISOString] writes it: the
    time value of [YYYY-MM-DDTHH:mm:ss.sssZ] (or with a signed six-digit
    year), [None] for any other string.  This is a reference for the
    strings the dashboard itself stores; the other forms that [Date.parse]
    accepts (date-only forms, offsets, implementation-defined formats) are
    outside it. *)
Definition parseISO (s : string) : Date :=
  bind (parseYear s) (fun '(y, s) =>
  bind (expect "-" s) (fun s =>
  bind (takeDigits 2 0 s) (fun '(mo, s) =>
  bind (expect "-" s) (fun s =>
  bind (takeDigits 2 0 s) (fun '(dt, s) =>
  bind (expect "T" s) (fun s =>
  bind (takeDigits 2 0 s) (fun '(h, s) =>
  bind (expect ":" s) (fun s =>
  bind (takeDigits 2 0 s) (fun '(mi, s) =>
  bind (expect ":" s) (fun s =>
  bind (takeDigits 2 0 s) (fun '(sec, s) =>
  bind (expect "." s) (fun s =>
  bind (takeDigits 3 0 s) (fun '(ms, s) =>
  bind (expect "Z" s) (fun s =>
    match s with
    | EmptyString =>
        if (1 <=? mo) && (mo <=? 12) && (1 <=? dt)
           && (dt <=? DaysInMonth y (mo - 1))
           && (h <=? 23) && (mi <=? 59) && (sec <=? 59)
        then TimeClip (MakeDate (MakeDay y (mo - 1) dt) (MakeTime h mi sec ms))
        else None
    | _ => None
    end)))))))))))))).

(** *** [Date.prototype.toDateString] *)

Definition weekDayName (d : Z) : string :=
  match d with
  | 0 => "Sun" | 1 => "Mon" | 2 => "Tue" | 3 => "Wed"
  | 4 => "Thu" | 5 => "Fri" | _ => "Sat"
  end.

Definition monthName (m : Z) : string :=
  match m with
  | 0 => "Jan" | 1 => "Feb" | 2 => "Mar" | 3 => "Apr" | 4 => "May"
  | 5 => "Jun" | 6 => "Jul" | 7 => "Aug" | 8 => "Sep" | 9 => "Oct"
  | 10 => "Nov" | _ => "Dec"
  end.

(** [DateString(t)] for a local time [t], as in [Tue Mar 05 2024]. *)
Definition DateString (t : Z) : string :=
  let yv := YearFromTime t in
  (weekDayName (WeekDay t) ++ " " ++ monthName (MonthFromTime t) ++ " "
   ++ ToZeroPaddedDecimalString (DateFromTime t) 2 ++ " "
   ++ (if (0 <=? yv)%Z then "" else "-")
   ++ ToZeroPaddedDecimalString (Z.abs yv) 4)%string.

Section LocalTime.

(** The offset of local time from UTC, in milliseconds. *)
Variable tz : Z.

Definition LocalTime (t : Z) : Z := t + tz.
Definition UTC (t : Z) : Z := t - tz.

(** [getFullYear()], [getMonth()], [getDate()], [getDay()]: [NaN] on the
    invalid date. *)
Definition getFullYear (d : Date) : option Z :=
  bind d (fun tv => Some (YearFromTime (LocalTime tv))).
Definition getMonth (d : Date) : option Z :=
  bind d (fun tv => Some (MonthFromTime (LocalTime tv))).
Definition getDate (d : Date) : option Z :=
  bind d (fun tv => Some (DateFromTime (LocalTime tv))).
Definition getDay (d : Date) : option Z :=
  bind d (fun tv => Some (WeekDay (LocalTime tv))).

(** [d.setHours(0, 0, 0, 0)]: the updated date (the call also returns its
    time value). *)
Definition setHours0 (d : Date) : Date :=
  bind d (fun tv =>
    let t := LocalTime tv in
    TimeClip (UTC (MakeDate (Day t) (MakeTime 0 0 0 0)))).

(** [d.setDate(dt)]; a [NaN] argument invalidates the date. *)
Definition setDate (d : Date) (dt : option Z) : Date :=
  bind d (fun tv =>
  bind dt (fun dt =>
    let t := LocalTime tv in
    let newDate :=
      MakeDate (MakeDay (YearFromTime t) (MonthFromTime t) dt)
               (TimeWithinDay t) in
    TimeClip (UTC newDate))).

(** [new Date(year, month, date)]: a year from 0 to 99 stands for
    1900 + year. *)
Definition newDateYMD (year month date : option Z) : Date :=
  bind year (fun y =>
  bind month (fun m =>
  bind date (fun dt =>
    let yr := if (0 <=? y) && (y <=? 99) then 1900 + y else y in
    TimeClip (UTC (MakeDate (MakeDay yr m dt) (MakeTime 0 0 0 0)))))).

(** [d.toDateString()] *)
Definition toDateString (d : Date) : string :=
  match d with
  | Some tv => DateString (LocalTime tv)
  | None => "Invalid Date"
  end.

(** [d.getTime()] as a number. *)
Definition timeNumber (d : Date) : number :=
  match d with
  | Some tv => ofZ tv
  | None => NaN
  end.

End LocalTime.

End ESDate.

Import ESDate.

(* ================================================================== *)
(** ** The data model of the dashboard *)
(* ================================================================== *)

Inductive PaymentType : Type := cash | card.
Inductive Category : Type := service | tip.

Module Frequency.
Inductive t : Type := daily | weekly.
End Frequency.

Module GoalType.
Inductive t : Type := weekly | monthly.
End GoalType.

(** [interface Transaction]; [id] is a reading of [Date.now()], an integer,
    [category] is optional and [date] an ISO string. *)
Module Transaction.
Record t : Type := mk {
  id : Z;
  amount : number;
  type : PaymentType;
  category : option Category;
  date : string
}.
End Transaction.

(** [interface Expense] *)
Module Expense.
Record t : Type := mk {
  id : Z;
  name : string;
  amount : number;
  frequency : Frequency.t
}.
End Expense.

(** [interface UserData] *)
Module UserData.
Record t : Type := mk {
  name : string;
  goalType : GoalType.t;
  goalAmount : number;
  simulatorValue : number
}.
End UserData.

(** [interface AppData] *)
Module AppData.
Record t : Type := mk {
  user : option UserData.t;
  transactions : list Transaction.t;
  expenses : list Expense.t
}.
End AppData.

(** [interface DaySummary]; [count] starts at 0 and grows by 1. *)
Module DaySummary.
Record t : Type := mk {
  dateStr : string;
  dateObj : Date;
  total : number;
  count : Z
}.
End DaySummary.

Definition AVG_CUT_PRICE : number := ofZ 35.

(* ================================================================== *)
(** ** The computations of the dashboard *)
(* ================================================================== *)

Module Engine.

(** [Array.prototype.sort(comparefn)]: [x] goes before [y] when
    [comparefn(x, y) < 0], after it when [comparefn(x, y) > 0], and elements
    that compare as equal keep their order (the sort is stable).  Here by
    insertion: the order of the result is that of every stable sort as long
    as the comparison is consistent. *)
Section Sort.
Context {A : Type} (comparefn : A -> A -> number).

Fixpoint insertSorted (x : A) (l : list A) : list A :=
  match l with
  | [] => [x]
  | y :: l' =>
      if gtb (comparefn x y) (ofZ 0) then y :: insertSorted x l'
      else x :: l
  end.

Fixpoint sort (l : list A) : list A :=
  match l with
  | [] => []
  | x :: l' => insertSorted x (sort l')
  end.

End Sort.

(** [list.reduce((sum, t) => sum + t.amount, 0)] *)
Definition sumAmounts (l : list Transaction.t) : number :=
  fold_left (fun sum t => add sum (Transaction.amount t)) l (ofZ 0).

(** [Math.min(100, (periodTotal / goalAmount) * 100)] *)
Definition goalProgress (periodTotal goalAmount : number) : number :=
  min (ofZ 100) (mul (div periodTotal goalAmount) (ofZ 100)).

(** [Math.max(0, goalAmount - periodTotal)] *)
Definition remainingGoal (periodTotal goalAmount : number) : number :=
  max (ofZ 0) (sub goalAmount periodTotal).

Definition cutsNeededTotal (periodTotal goalAmount : number) : number :=
  div (remainingGoal periodTotal goalAmount) AVG_CUT_PRICE.

(** [Math.ceil(cutsNeededTotal / daysLeft)] *)
Definition cutsPerDay (periodTotal goalAmount daysLeft : number) : number :=
  ceil (div (cutsNeededTotal periodTotal goalAmount) daysLeft).

(** The daily equivalent of the fixed expenses. *)
Definition dailyExpenses (expenses : list Expense.t) : number :=
  fold_left (fun sum exp =>
      match Expense.frequency exp with
      | Frequency.daily => add sum (Expense.amount exp)
      | _ => add sum (div (Expense.amount exp) (ofZ 7))
      end)
    expenses (ofZ 0).

Definition netToday (grossToday dailyExpenses : number) : number :=
  sub grossToday dailyExpenses.

(** The balance grid: [Math.ceil(dailyExpenses)] and [Math.floor(netToday)]. *)
Definition burnRateDisplay (dailyExpenses : number) : number :=
  ceil dailyExpenses.
Definition netTodayDisplay (netToday : number) : number := floor netToday.

(** The price raise simulator: [simValue * 5 * 260]. *)
Definition extraYearlyProfit (simValue : number) : number :=
  mul (mul simValue (ofZ 5)) (ofZ 260).

(** A number that is an integer or [NaN]. *)
Definition numberOf (z : option Z) : number :=
  match z with Some z => ofZ z | None => NaN end.

(** The values that a render of the dashboard derives. *)
Module Calc.
Record t : Type := mk {
  grossToday : number;
  tipsToday : number;
  dailyExpenses : number;
  netToday : number;
  periodTotal : number;
  goalProgress : number;
  daysLeft : number;
  remainingGoal : number;
  cutsNeededTotal : number;
  cutsPerDay : number
}.
End Calc.

Section Local.

(** The offset of local time from UTC and the platform's [Date.parse]
    behind [new Date(string)]. *)
Variable tz : Z.
Variable Date_parse : string -> Date.

Definition getStartOfPeriod (date : Date) (type : GoalType.t) : Date :=
  let d := date in
  let d := setHours0 tz d in
  match type with
  | GoalType.monthly => setDate tz d (Some 1)
  | GoalType.weekly =>
      let day := getDay tz d in
      let diff :=
        bind (getDate tz d) (fun dt =>
        bind day (fun day =>
          Some (dt - day + (if day =? 0 then -6 else 1))%Z)) in
      setDate tz d diff
  end.

(** [new Date(now.setHours(0,0,0,0)).toISOString()], where [now] is the
    clock reading [new Date()]; [None] is the [RangeError] of [toISOString]. *)
Definition startOfDayStr (now : Z) : option string :=
  toISOString (setHours0 tz (Some now)).

(** [t.date >= startOfDayStr]: a comparison of strings, by code units. *)
Definition transactionsToday (transactions : list Transaction.t)
    (startOfDayStr : string) : list Transaction.t :=
  filter (fun t => String.leb startOfDayStr (Transaction.date t)) transactions.

Definition grossToday (transactions : list Transaction.t)
    (startOfDayStr : string) : number :=
  sumAmounts (transactionsToday transactions startOfDayStr).

Definition isTip (t : Transaction.t) : bool :=
  match Transaction.category t with Some tip => true | _ => false end.

Definition tipsToday (transactions : list Transaction.t)
    (startOfDayStr : string) : number :=
  sumAmounts (filter isTip (transactionsToday transactions startOfDayStr)).

(** [new Date(t.date) >= startOfPeriod]: the two dates compare by their time
    values, and the comparison is false when one of them is invalid. *)
Definition transactionsPeriod (transactions : list Transaction.t)
    (startOfPeriod : Date) : list Transaction.t :=
  filter (fun t =>
      geb (timeNumber (Date_parse (Transaction.date t)))
          (timeNumber startOfPeriod))
    transactions.

Definition periodTotal (transactions : list Transaction.t)
    (startOfPeriod : Date) : number :=
  sumAmounts (transactionsPeriod transactions startOfPeriod).

(** The days left in the period, today included; [now] is the clock reading
    [new Date()] and [None] is [NaN]. *)
Definition daysLeft (type : GoalType.t) (now : Z) : option Z :=
  match type with
  | GoalType.weekly =>
      bind (getDay tz (Some now)) (fun day =>
        Some (7 - (if day =? 0 then 7 else day) + 1)%Z)
  | GoalType.monthly =>
      let nowObj := Some now in
      let lastDay :=
        newDateYMD tz (getFullYear tz nowObj)
          (bind (getMonth tz nowObj) (fun m => Some (m + 1)%Z)) (Some 0%Z) in
      bind (getDate tz lastDay) (fun l =>
      bind (getDate tz nowObj) (fun n => Some (l - n + 1)%Z))
  end.

(** The calculations of a render for the snapshot [data] of user [user];
    [now], [now1] and [now2] are the readings of the clock by the successive
    [new Date()] (for the day, for the period and for the days left).
    [None] is an exception. *)
Definition calculations (data : AppData.t) (user : UserData.t)
    (now now1 now2 : Z) : option Calc.t :=
  bind (startOfDayStr now) (fun startOfDayStr =>
    let grossToday := grossToday (AppData.transactions data) startOfDayStr in
    let tipsToday := tipsToday (AppData.transactions data) startOfDayStr in
    let dailyExpenses := dailyExpenses (AppData.expenses data) in
    let netToday := netToday grossToday dailyExpenses in
    let startOfPeriod :=
      getStartOfPeriod (Some now1) (UserData.goalType user) in
    let periodTotal :=
      periodTotal (AppData.transactions data) startOfPeriod in
    let goalProgress := goalProgress periodTotal (UserData.goalAmount user) in
    let daysLeft := numberOf (daysLeft (UserData.goalType user) now2) in
    let remainingGoal :=
      remainingGoal periodTotal (UserData.goalAmount user) in
    let cutsNeededTotal :=
      cutsNeededTotal periodTotal (UserData.goalAmount user) in
    let cutsPerDay :=
      cutsPerDay periodTotal (UserData.goalAmount user) daysLeft in
    Some (Calc.mk grossToday tipsToday dailyExpenses netToday periodTotal
            goalProgress daysLeft remainingGoal cutsNeededTotal cutsPerDay)).

(** *** The history of earnings ([HistoryModal]) *)

(** [grouped]: an object used as a map from the date string to the summary
    of the day; its keys are kept in the order of their creation, which is
    the order of [Object.values].  No date string is the name of a property
    that an object inherits. *)
Definition Grouped : Type := list (string * DaySummary.t).

Fixpoint lookup (key : string) (g : Grouped) : option DaySummary.t :=
  match g with
  | [] => None
  | (k, v) :: g' => if String.eqb k key then Some v else lookup key g'
  end.

Fixpoint update (key : string) (f : DaySummary.t -> DaySummary.t)
    (g : Grouped) : Grouped :=
  match g with
  | [] => []
  | (k, v) :: g' =>
      if String.eqb k key then (k, f v) :: g' else (k, v) :: update key f g'
  end.

(** The key of a transaction: the date string of its local calendar day. *)
Definition dayKey (t : Transaction.t) : string :=
  toDateString tz (Date_parse (Transaction.date t)).

(** The transactions of the day of key [key], in the order of the log. *)
Definition onDay (key : string) (transactions : list Transaction.t)
    : list Transaction.t :=
  filter (fun t => String.eqb (dayKey t) key) transactions.


(** The body of [transactions.forEach]. *)
Definition groupStep (grouped : Grouped) (t : Transaction.t) : Grouped :=
  let d := Date_parse (Transaction.date t) in
  let key := toDateString tz d in
  let grouped :=
    match lookup key grouped with
    | None => grouped ++ [(key, DaySummary.mk key d (ofZ 0) 0)]
    | Some _ => grouped
    end in
  update key (fun s =>
      DaySummary.mk (DaySummary.dateStr s) (DaySummary.dateObj s)
        (add (DaySummary.total s) (Transaction.amount t))
        (DaySummary.count s + 1))
    grouped.

Definition grouped (transactions : list Transaction.t) : Grouped :=
  fold_left groupStep transactions [].

(** What the summary of the day of key [key] holds once the transactions
    [l] are grouped: their number, the sum of their amounts in the order of
    the log, and the date of the first of them. *)
Definition summaryOf (key : string) (l : list Transaction.t)
    (s : DaySummary.t) : Prop :=
  DaySummary.dateStr s = key
  /\ DaySummary.count s = Z.of_nat (List.length (onDay key l))
  /\ DaySummary.total s = sumAmounts (onDay key l)
  /\ exists t0, find (fun t => String.eqb (dayKey t) key) l = Some t0
                /\ DaySummary.dateObj s = Date_parse (Transaction.date t0).

(** The map holds one summary for each day of [l], and no other. *)
Definition groupedFor (g : Grouped) (l : list Transaction.t) : Prop :=
  NoDup (map fst g)
  /\ (forall k, In k (map fst g) <-> exists t, In t l /\ dayKey t = k)
  /\ (forall k s, In (k, s) g -> summaryOf k l s).

(** [Object.values(grouped).sort((a, b) => b.dateObj.getTime() -
    a.dateObj.getTime())] *)
Definition historyList (transactions : list Transaction.t)
    : list DaySummary.t :=
  sort (fun a b => sub (timeNumber (DaySummary.dateObj b))
                       (timeNumber (DaySummary.dateObj a)))
       (map snd (grouped transactions)).

End Local.

(** *** State transitions *)

(** [handleTransaction(amount)]: [idClock] is the reading of [Date.now()]
    and [dateClock] that of [new Date()], [modalType] and [modalCategory]
    the state of the entry form. *)
Definition handleTransaction (idClock dateClock : Z) (modalType : PaymentType)
    (modalCategory : Category) (amount : number) (prev : AppData.t)
    : AppData.t :=
  let newTx :=
    Transaction.mk idClock amount modalType (Some modalCategory)
      (isoString dateClock) in
  AppData.mk (AppData.user prev)
    (AppData.transactions prev ++ [newTx])
    (AppData.expenses prev).

(** One confirmed entry of the form: the two clock readings, the state of
    the form and the amount entered. *)
Record Entry : Type := mkEntry {
  idClock : Z;
  dateClock : Z;
  modalType : PaymentType;
  modalCategory : Category;
  entered : number
}.

Definition addEntry (prev : AppData.t) (e : Entry) : AppData.t :=
  handleTransaction (idClock e) (dateClock e) (modalType e) (modalCategory e)
    (entered e) prev.

(** The snapshots reachable from [init] by appending transactions. *)
Inductive appended (init : AppData.t) : AppData.t -> Prop :=
| appended_init : appended init init
| appended_step (d : AppData.t) (e : Entry) :
    appended init d -> appended init (addEntry d e).

(** The snapshot after a run of entries. *)
Definition addEntries (init : AppData.t) (entries : list Entry) : AppData.t :=
  fold_left addEntry entries init.

(** The identifiers of the transactions, in the order of the log. *)
Definition ids (d : AppData.t) : list Z :=
  map Transaction.id (AppData.transactions d).

(** The snapshot of a first use: no user, no transactions, no expenses. *)
Definition emptyAppData : AppData.t := AppData.mk None [] [].

End Engine.

(* ================================================================== *)
(** ** The persisted record ([getInitialData]) *)
(* ================================================================== *)

Module Storage.

(** The values that [JSON.parse] returns, and [undefined]. *)
#[warnings="-register-all"]
Inductive JSValue : Type :=
| JUndefined
| JNull
| JBool (b : bool)
| JNumber (n : number)
| JString (s : string)
| JArray (l : list JSValue)
| JObject (fields : list (string * JSValue)).

Fixpoint field (key : string) (fields : list (string * JSValue)) : JSValue :=
  match fields with
  | [] => JUndefined
  | (k, v) :: fs => if String.eqb k key then v else field key fs
  end.

Fixpoint setField (key : string) (v : JSValue)
    (fields : list (string * JSValue)) : list (string * JSValue) :=
  match fields with
  | [] => [(key, v)]
  | (k, w) :: fs =>
      if String.eqb k key then (k, v) :: fs else (k, w) :: setField key v fs
  end.

(** [v.key] for a key that no prototype defines ([user],
    [simulatorValue]): a [TypeError] ([None]) on [null] and [undefined],
    [undefined] on a value without the key. *)
Definition getProp (v : JSValue) (key : string) : option JSValue :=
  match v with
  | JUndefined | JNull => None
  | JObject fs => Some (field key fs)
  | _ => Some JUndefined
  end.

(** [v.key = w] in strict code (the file is a module): a [TypeError]
    ([None]) when [v] is not an object.  A named property set on an array
    is not part of its elements. *)
Definition setProp (v : JSValue) (key : string) (w : JSValue)
    : option JSValue :=
  match v with
  | JObject fs => Some (JObject (setField key w fs))
  | JArray l => Some (JArray l)
  | _ => None
  end.

(** [ToBoolean] *)
Definition truthy (v : JSValue) : bool :=
  match v with
  | JUndefined | JNull => false
  | JBool b => b
  | JNumber n => negb (isNaN n || isZero n)
  | JString s => negb (String.eqb s "")
  | JArray _ | JObject _ => true
  end.

Definition isUndefined (v : JSValue) : bool :=
  match v with JUndefined => true | _ => false end.

(** [{ user: null, transactions: [], expenses: [] }] *)
Definition emptyData : JSValue :=
  JObject [("user"%string, JNull); ("transactions"%string, JArray []);
           ("expenses"%string, JArray [])].

(** *** A reference [JSON.parse]

    The JSON grammar over ASCII text: the escapes [\uXXXX] above [00FF] are
    not read.  An object keeps a repeated key once, with its last value. *)

Definition isWhitespace (c : ascii) : bool :=
  Ascii.eqb c " " || Ascii.eqb c "009" || Ascii.eqb c "010"
  || Ascii.eqb c "013".

Fixpoint skipWhitespace (s : string) : string :=
  match s with
  | String c r => if isWhitespace c then skipWhitespace r else s
  | EmptyString => s
  end.

(** The digits at the front of [s]: their number, their value and the
    rest of [s]. *)
Fixpoint readDigits (s : string) (count : nat) (acc : Z)
    : nat * Z * string :=
  match s with
  | String c r =>
      match digitOfChar c with
      | Some d => readDigits r (S count) (10 * acc + d)%Z
      | None => (count, acc, s)
      end
  | EmptyString => (count, acc, s)
  end.

Definition readExponent (s : string) : option (Z * string) :=
  match s with
  | String c r =>
      if Ascii.eqb c "e" || Ascii.eqb c "E" then
        let '(sign, r) :=
          match r with
          | String "+" r' => (1%Z, r')
          | String "-" r' => ((-1)%Z, r')
          | _ => (1%Z, r)
          end in
        let '(n, e, r) := readDigits r O 0%Z in
        match n with O => None | _ => Some ((sign * e)%Z, r) end
      else Some (0%Z, s)
  | EmptyString => Some (0%Z, s)
  end.

(** A JSON number: an optional minus, an integer without a leading zero, an
    optional fraction and an optional exponent. *)
Definition readNumber (s : string) : option (number * string) :=
  let '(negated, s) :=
    match s with String "-" r => (true, r) | _ => (false, s) end in
  let '(n, i, r) := readDigits s O 0%Z in
  let leadingZero :=
    match s with String "0" _ => Nat.ltb 1 n | _ => false end in
  match n with
  | O => None
  | _ =>
      if leadingZero then None
      else
        bind (match r with
              | String "." r' =>
                  let '(k, f, r'') := readDigits r' O 0%Z in
                  match k with
                  | O => None
                  | _ => Some (k, f, r'')
                  end
              | _ => Some (O, 0%Z, r)
              end) (fun '(k, f, r) =>
        bind (readExponent r) (fun '(e, r) =>
          let mantissa := (i * 10 ^ Z.of_nat k + f)%Z in
          let q := (inject_Z mantissa
                    * Qpower (inject_Z 10) (e - Z.of_nat k))%Q in
          Some (mkFin negated (if negated then - q else q)%Q, r)))
  end.

Definition hexDigit (c : ascii) : option Z :=
  let n := Z.of_N (N_of_ascii c) in
  if (48 <=? n)%Z && (n <=? 57)%Z then Some (n - 48)%Z
  else if (65 <=? n)%Z && (n <=? 70)%Z then Some (n - 55)%Z
  else if (97 <=? n)%Z && (n <=? 102)%Z then Some (n - 87)%Z
  else None.

(** The characters of a string up to its closing quote. *)
Fixpoint readString (fuel : nat) (s : string) : option (string * string) :=
  match fuel with
  | O => None
  | S fuel' =>
      match s with
      | String "034" r => Some (EmptyString, r)
      | String "\" (String c r) =>
          let plain (x : ascii) :=
            bind (readString fuel' r) (fun '(t, r') => Some (String x t, r')) in
          match c with
          | "034"%char => plain "034"%char
          | "\"%char => plain "\"%char
          | "/"%char => plain "/"%char
          | "b"%char => plain "008"%char
          | "f"%char => plain "012"%char
          | "n"%char => plain "010"%char
          | "r"%char => plain "013"%char
          | "t"%char => plain "009"%char
          | "u"%char =>
              match r with
              | String "0" (String "0" (String h (String l r'))) =>
                  bind (hexDigit h) (fun hv =>
                  bind (hexDigit l) (fun lv =>
                  bind (readString fuel' r') (fun '(t, r'') =>
                    Some (String (ascii_of_N (Z.to_N (16 * hv + lv))) t,
                          r''))))
              | _ => None
              end
          | _ => None
          end
      | String c r =>
          if (N_of_ascii c <? 32)%N then None
          else bind (readString fuel' r) (fun '(t, r') => Some (String c t, r'))
      | EmptyString => None
      end
  end.

Definition readLiteral (word : string) (v : JSValue) (s : string)
    : option (JSValue * string) :=
  if String.eqb (substring 0 (String.length word) s) word
  then Some (v, substring (String.length word)
                   (String.length s - String.length word) s)
  else None.

Section Values.

(** The reader of the values inside an array or an object. *)
Variable readValue : string -> option (JSValue * string).

Fixpoint readElements (fuel : nat) (s : string) (acc : list JSValue)
    : option (list JSValue * string) :=
  match fuel with
  | O => None
  | S fuel' =>
      bind (readValue s) (fun '(v, r) =>
        match skipWhitespace r with
        | String "," r' => readElements fuel' r' (acc ++ [v])
        | String "]" r' => Some (acc ++ [v], r')
        | _ => None
        end)
  end.

Fixpoint readMembers (fuel : nat) (s : string)
    (acc : list (string * JSValue))
    : option (list (string * JSValue) * string) :=
  match fuel with
  | O => None
  | S fuel' =>
      match skipWhitespace s with
      | String "034" r =>
          bind (readString (S (String.length r)) r) (fun '(k, r) =>
          match skipWhitespace r with
          | String ":" r =>
              bind (readValue r) (fun '(v, r) =>
                match skipWhitespace r with
                | String "," r' => readMembers fuel' r' (setField k v acc)
                | String "}" r' => Some (setField k v acc, r')
                | _ => None
                end)
          | _ => None
          end)
      | _ => None
      end
  end.

End Values.

Fixpoint readValue (fuel : nat) (s : string) : option (JSValue * string) :=
  match fuel with
  | O => None
  | S fuel' =>
      match skipWhitespace s with
      | String "[" r =>
          match skipWhitespace r with
          | String "]" r' => Some (JArray [], r')
          | r' =>
              bind (readElements (readValue fuel') fuel' r' [])
                (fun '(l, r'') => Some (JArray l, r''))
          end
      | String "{" r =>
          match skipWhitespace r with
          | String "}" r' => Some (JObject [], r')
          | r' =>
              bind (readMembers (readValue fuel') fuel' r' [])
                (fun '(l, r'') => Some (JObject l, r''))
          end
      | String "034" r =>
          bind (readString (S (String.length r)) r)
            (fun '(t, r') => Some (JString t, r'))
      | String "t" _ as w => readLiteral "true" (JBool true) w
      | String "f" _ as w => readLiteral "false" (JBool false) w
      | String "n" _ as w => readLiteral "null" JNull w
      | w =>
          bind (readNumber w) (fun '(n, r) => Some (JNumber n, r))
      end
  end.

(** [JSON.parse(text)]: [None] is the [SyntaxError]. *)
Definition parseJSON (text : string) : option JSValue :=
  bind (readValue (S (String.length text)) text) (fun '(v, r) =>
    match skipWhitespace r with
    | EmptyString => Some v
    | _ => None
    end).

(** *** [getInitialData] *)

Section Load.

(** The platform's [JSON.parse]; [None] is the [SyntaxError] it throws. *)
Variable JSON_parse : string -> option JSValue.

(** The body of the [try] block: [None] when it throws. *)
Definition tryParse (saved : string) : option JSValue :=
  bind (JSON_parse saved) (fun parsed =>
  bind (getProp parsed "user") (fun user =>
    if truthy user then
      bind (getProp user "simulatorValue") (fun sv =>
        if isUndefined sv then
          bind (setProp user "simulatorValue" (JNumber (ofZ 0))) (fun user' =>
            setProp parsed "user" user')
        else Some parsed)
    else Some parsed)).

(** [getInitialData()]: [hasWindow] tells whether [window] is defined and
    [saved] is [localStorage.getItem(STORAGE_KEY)], [None] for [null]. *)
Definition getInitialData (hasWindow : bool) (saved : option string)
    : JSValue :=
  if negb hasWindow then emptyData
  else
    match saved with
    | Some s =>
        if negb (String.eqb s "") then
          match tryParse s with
          | Some parsed => parsed
          | None => emptyData
          end
        else emptyData
    | None => emptyData
    end.

End Load.

(** *** The JSON form of a snapshot, as [JSON.stringify] and [JSON.parse]
    give it back *)








End Storage.

(* ================================================================== *)
(** ** The quantities of the specification *)
(* ================================================================== *)

Module Spec.

Open Scope Q_scope.

(** The lexicographic combination of two comparisons. *)
Definition lexc (c1 c2 : comparison) : comparison :=
  match c1 with Eq => c2 | _ => c1 end.

Definition sumQ (l : list Q) : Q := fold_right Qplus 0 l.

(** The contribution of an expense to the daily equivalent: its amount when
    it is daily, a seventh of it when it is weekly. *)
Definition dailyShare (e : Expense.t) : Q :=
  match Expense.frequency e with
  | Frequency.daily => value (Expense.amount e)
  | Frequency.weekly => value (Expense.amount e) / 7
  end.

(** The same contribution as the [reduce] of [dailyExpenses] adds it. *)
Definition share (e : Expense.t) : number :=
  match Expense.frequency e with
  | Frequency.daily => Expense.amount e
  | _ => div (Expense.amount e) (ofZ 7)
  end.


Definition finiteAmounts (l : list Transaction.t) : Prop :=
  Forall (fun t => finite (Transaction.amount t)) l.

(** [dailyEquivalent(expenses)]: the sum of the contributions. *)
Definition dailyEquivalent (expenses : list Expense.t) : Q :=
  sumQ (map dailyShare expenses).

(** The sum of the amounts of a list of transactions. *)
Definition total (l : list Transaction.t) : Q :=
  sumQ (map (fun t => value (Transaction.amount t)) l).

(** The weekday of the ISO week: Monday is 1 and Sunday is 7. *)
Definition isoWeekday (t : Z) : Z :=
  if (WeekDay t =? 0)%Z then 7%Z else WeekDay t.

(** The number of the last day of the month of [t]. *)
Definition lastDayOfMonth (t : Z) : Z :=
  DaysInMonth (YearFromTime t) (MonthFromTime t).

End Spec.

(* ================================================================== *)
(** ** Sample data *)
(* ================================================================== *)

Module Sample.

Definition chairRental : Expense.t :=
  Expense.mk 1 "Chair Rental" (ofZ 70) Frequency.weekly.
Definition supplies : Expense.t :=
  Expense.mk 2 "Supplies" (Fin (21 # 2)) Frequency.daily.

(** Noon of 5 March 2024 in a zone five hours behind UTC, a service of 200
    at 09:00 and a tip of 50 at 10:00 of that day, and a transaction
    stamped an hour and a half after that noon. *)
Definition zone : Z := -18000000.
Definition noon : Z := 1709658000000.
Definition haircut : Transaction.t :=
  Transaction.mk 1709647200000 (ofZ 200) cash (Some service)
    "2024-03-05T14:00:00.000Z".
Definition gratuity : Transaction.t :=
  Transaction.mk 1709650800000 (ofZ 50) cash (Some tip)
    "2024-03-05T15:00:00.000Z".
Definition late : Transaction.t :=
  Transaction.mk 1709663400000 (ofZ 75) card (Some service)
    "2024-03-05T18:30:00.000Z".

(** Transactions of Monday 4, Tuesday 5 and Wednesday 6 March 2024; the
    second one of the Monday is stamped on the Tuesday in UTC. *)
Definition monday1 : Transaction.t :=
  Transaction.mk 1709560800000 (ofZ 35) cash (Some service)
    "2024-03-04T14:00:00.000Z".
Definition tuesday1 : Transaction.t := haircut.
Definition monday2 : Transaction.t :=
  Transaction.mk 1709611200000 (ofZ 30) card None
    "2024-03-05T04:00:00.000Z".
Definition wednesday1 : Transaction.t :=
  Transaction.mk 1709737200000 (ofZ 40) cash (Some service)
    "2024-03-06T15:00:00.000Z".

End Sample.

(* ================================================================== *)
(** ** Periods *)
(* ================================================================== *)

Module Period.

(** The number of the day on which the period of the local time [t]
    starts: the Monday on or before the day of [t], or the first day of its
    month. *)
Definition startDay (type : GoalType.t) (t : Z) : Z :=
  match type with
  | GoalType.weekly => (Day t - (WeekDay t + 6) mod 7)%Z
  | GoalType.monthly => (Day t - DateFromTime t + 1)%Z
  end.

(** The number of days of the period of the local time [t]. *)
Definition length (type : GoalType.t) (t : Z) : Z :=
  match type with
  | GoalType.weekly => 7%Z
  | GoalType.monthly => DaysInMonth (YearFromTime t) (MonthFromTime t)
  end.

(** A time value from which a month can be stepped back inside the range of
    time values. *)
Definition inRange (now : Z) : Prop :=
  (- maxTime + 32 * msPerDay <= now <= maxTime)%Z.

End Period.

(* ================================================================== *)
(** ** Logs of transactions *)
(* ================================================================== *)

Module Log.

(** A transaction stamped by the clock at [ts], not after [now]: its date is
    the ISO string of [ts], with a four-digit year, and [Date_parse] reads
    it back. *)
Definition stampedAt (Date_parse : string -> Date) (now : Z)
    (t : Transaction.t) (ts : Z) : Prop :=
  Transaction.date t = isoString ts
  /\ (0 <= YearFromTime ts <= 9999)%Z
  /\ (ts <= now)%Z
  /\ Date_parse (Transaction.date t) = Some ts.

Definition stamped (Date_parse : string -> Date) (now : Z)
    (l : list Transaction.t) : Prop :=
  Forall (fun t => exists ts, stampedAt Date_parse now t ts) l.

(** A number that is finite and at least 0. *)
Definition nonnegative (a : number) : Prop :=
  exists q, toQ a = Some q /\ (0 <= q)%Q.

Definition nonnegativeAmounts (l : list Transaction.t) : Prop :=
  Forall (fun t => nonnegative (Transaction.amount t)) l.

End Log.

(* ================================================================== *)
(** ** What the dashboard shows *)
(* ================================================================== *)

Module Display.

(** [Math.round(a)]: the nearest integer, the one towards +Infinity of two
    equally near; a result of zero keeps the sign of [a]. *)
Definition round (a : number) : number :=
  match a with
  | Fin q => let z := Qfloor (q + (1 # 2)) in
             if (z =? 0)%Z then zero (negative a) else ofZ z
  | _ => a
  end.

(** [a || 0]: 0 when [a] is [NaN] or a zero. *)
Definition orZero (a : number) : number :=
  if isNaN a || isZero a then ofZ 0 else a.

(** [data.user.simulatorValue || 0] *)
Definition simValue (user : UserData.t) : number :=
  orZero (UserData.simulatorValue user).

(** The percentage beside the goal: [Math.round(goalProgress)]. *)
Definition percentDisplay (goalProgress : number) : number :=
  round goalProgress.

(** [cutsPerDay <= 0]: the dashboard says that the goal is crushed; otherwise
    it says how many cuts are needed today. *)
Definition goalCrushed (cutsPerDay : number) : bool :=
  leb cutsPerDay (ofZ 0).

(** [tipsToday > 0]: the line about the tips is shown. *)
Definition showTips (tipsToday : number) : bool := gtb tipsToday (ofZ 0).

(** [historyList.length === 0]: the history says that no day is recorded. *)
Definition noDaysRecorded (historyList : list DaySummary.t) : bool :=
  match historyList with [] => true | _ => false end.

(** The number of transactions that the entries of the history count. *)
Definition daysCounted (historyList : list DaySummary.t) : Z :=
  fold_right (fun s n => (DaySummary.count s + n)%Z) 0%Z historyList.

(** [isNaN(d.getTime())]: the date of the transaction was not read. *)
Definition isInvalid (d : Date) : bool :=
  match d with None => true | Some _ => false end.

End Display.

(* ================================================================== *)
(** ** Stored records *)
(* ================================================================== *)

Module Records.

Import Storage.

(** A boolean, a number or a string. *)
Definition primitive (v : JSValue) : bool :=
  match v with
  | JBool _ | JNumber _ | JString _ => true
  | _ => false
  end.

(** The record of a user without a simulator value, as older versions
    stored it: an object with the one member [user], an empty object. *)
Definition userWithoutSimulator : string :=
  ("{" ++ String "034" "user" ++ String "034" ":{}}")%string.

End Records.

(* ================================================================== *)
(** ** The handlers of the forms and buttons *)
(* ================================================================== *)

Module Handlers.

Import Engine.

(** [Partial<UserData>]: the fields that an update carries. *)
Module UserUpdates.
Record t : Type := mk {
  name : option string;
  goalType : option GoalType.t;
  goalAmount : option number;
  simulatorValue : option number
}.
End UserUpdates.

Definition orElse {A : Type} (o : option A) (a : A) : A :=
  match o with Some x => x | None => a end.

(** [{ ...user, ...updates }] *)
Definition mergeUser (user : UserData.t) (updates : UserUpdates.t)
    : UserData.t :=
  UserData.mk
    (orElse (UserUpdates.name updates) (UserData.name user))
    (orElse (UserUpdates.goalType updates) (UserData.goalType user))
    (orElse (UserUpdates.goalAmount updates) (UserData.goalAmount user))
    (orElse (UserUpdates.simulatorValue updates)
       (UserData.simulatorValue user)).

(** [handleUpdateUser(updates)].  The handler belongs to the dashboard,
    which is rendered only once [data.user] is not [null] ([prev.user!]);
    on [null] the record that the spread would build lacks fields of
    [UserData], which is [None] here. *)
Definition handleUpdateUser (updates : UserUpdates.t) (prev : AppData.t)
    : option AppData.t :=
  match AppData.user prev with
  | Some user =>
      Some (AppData.mk (Some (mergeUser user updates))
              (AppData.transactions prev) (AppData.expenses prev))
  | None => None
  end.

(** [handleSimulatorChange(val)]: [{ ...prev.user!, simulatorValue: val }] *)
Definition handleSimulatorChange (val : number) (prev : AppData.t)
    : option AppData.t :=
  handleUpdateUser (UserUpdates.mk None None None (Some val)) prev.

(** [removeExpense(id)] *)
Definition removeExpense (id : Z) (prev : AppData.t) : AppData.t :=
  AppData.mk (AppData.user prev) (AppData.transactions prev)
    (filter (fun e => negb (Expense.id e =? id)%Z) (AppData.expenses prev)).

(** [resetDay()]: [confirmed] is the answer to the dialog and [now] the
    reading of the clock; [None] is the [RangeError] of [toISOString]. *)
Definition resetDay (tz : Z) (confirmed : bool) (now : Z) (prev : AppData.t)
    : option AppData.t :=
  if confirmed then
    bind (toISOString (setHours0 tz (Some now))) (fun startOfDayIso =>
      Some (AppData.mk (AppData.user prev)
              (filter (fun t => String.ltb (Transaction.date t) startOfDayIso)
                 (AppData.transactions prev))
              (AppData.expenses prev)))
  else Some prev.

(** The state of the entry form of a transaction. *)
Module Modal.
Record t : Type := mk {
  modalOpen : bool;
  modalType : PaymentType;
  modalCategory : Category
}.
End Modal.

(** [openTransactionModal(type, category = 'service')] *)
Definition openTransactionModal (type : PaymentType)
    (category : option Category) : Modal.t :=
  Modal.mk true type (orElse category service).

(** The three buttons of the fast entry. *)
Definition cashButton : Modal.t := openTransactionModal cash None.
Definition digitalButton : Modal.t := openTransactionModal card None.
Definition tipButton : Modal.t := openTransactionModal cash (Some tip).

(** The state of the form of the fixed expenses. *)
Module ExpenseForm.
Record t : Type := mk {
  expName : string;
  expAmount : string;
  expFreq : Frequency.t;
  showExpenseForm : bool
}.
End ExpenseForm.

Definition isEmpty (s : string) : bool := String.eqb s "".

Section Forms.

(** The platform's [parseFloat]. *)
Variable parseFloat : string -> number.

(** [handleSubmit] of the onboarding followed by its [onComplete]: nothing
    happens while the name or the amount is empty. *)
Definition handleSubmit (name amount : string) (goalType : GoalType.t)
    (data : AppData.t) : AppData.t :=
  if isEmpty name || isEmpty amount then data
  else
    let user := UserData.mk name goalType (parseFloat amount) (ofZ 0) in
    AppData.mk (Some user) (AppData.transactions data)
      (AppData.expenses data).

(** The button of the settings: [onSave] and [onClose] when the name and the
    amount are not empty.  The result is the snapshot and whether the
    settings stay open. *)
Definition saveChanges (name amount : string) (goalType : GoalType.t)
    (prev : AppData.t) : option (AppData.t * bool) :=
  if negb (isEmpty name) && negb (isEmpty amount) then
    bind (handleUpdateUser
            (UserUpdates.mk (Some name) (Some goalType)
               (Some (parseFloat amount)) None) prev)
      (fun d => Some (d, false))
  else Some (prev, true).

(** The button of the entry form: [onSave(parseFloat(val))] and [onClose()]
    when the text is not empty. *)
Definition confirm (idClock dateClock : Z) (val : string) (m : Modal.t)
    (prev : AppData.t) : Modal.t * AppData.t :=
  if negb (isEmpty val) then
    (Modal.mk false (Modal.modalType m) (Modal.modalCategory m),
     handleTransaction idClock dateClock (Modal.modalType m)
       (Modal.modalCategory m) (parseFloat val) prev)
  else (m, prev).

(** [addExpense()]: [clock] is the reading of [Date.now()]. *)
Definition addExpense (clock : Z) (form : ExpenseForm.t) (prev : AppData.t)
    : ExpenseForm.t * AppData.t :=
  if isEmpty (ExpenseForm.expName form)
     || isEmpty (ExpenseForm.expAmount form)
  then (form, prev)
  else
    let newExp :=
      Expense.mk clock (ExpenseForm.expName form)
        (parseFloat (ExpenseForm.expAmount form))
        (ExpenseForm.expFreq form) in
    (ExpenseForm.mk "" "" (ExpenseForm.expFreq form) false,
     AppData.mk (AppData.user prev) (AppData.transactions prev)
       (AppData.expenses prev ++ [newExp])).

(** The actions on the snapshot of the dashboard once a user is set. *)
Inductive Action : Type :=
| Confirm (idClock dateClock : Z) (val : string) (m : Modal.t)
| AddExpense (clock : Z) (form : ExpenseForm.t)
| RemoveExpense (id : Z)
| ResetDay (tz : Z) (confirmed : bool) (now : Z)
| SaveChanges (name amount : string) (goalType : GoalType.t)
| SimulatorChange (val : number).

(** The snapshot after an action; [None] is an exception or a snapshot
    outside [AppData]. *)
Definition act (a : Action) (prev : AppData.t) : option AppData.t :=
  match a with
  | Confirm idClock dateClock val m =>
      Some (snd (confirm idClock dateClock val m prev))
  | AddExpense clock form => Some (snd (addExpense clock form prev))
  | RemoveExpense id => Some (removeExpense id prev)
  | ResetDay tz confirmed now => resetDay tz confirmed now prev
  | SaveChanges name amount goalType =>
      bind (saveChanges name amount goalType prev) (fun r => Some (fst r))
  | SimulatorChange val => handleSimulatorChange val prev
  end.

(** The snapshot after a run of actions. *)
Fixpoint run (actions : list Action) (prev : AppData.t) : option AppData.t :=
  match actions with
  | [] => Some prev
  | a :: rest => bind (act a prev) (run rest)
  end.

End Forms.

(** A reference for [parseFloat] on the unsigned whole numbers: the value of
    the decimal digits at the front of the text, [NaN] when there is none. *)
Fixpoint leadingDigits (acc : option Z) (s : string) : option Z :=
  match s with
  | String c r =>
      match digitOfChar c with
      | Some d => leadingDigits (Some (10 * orElse acc 0 + d)%Z) r
      | None => acc
      end
  | EmptyString => acc
  end.

Definition parseWhole (s : string) : number :=
  match leadingDigits None s with
  | Some z => ofZ z
  | None => NaN
  end.

(** The identifiers of the fixed expenses. *)
Definition expenseIds (d : AppData.t) : list Z :=
  map Expense.id (AppData.expenses d).

(** The clocks of the resets of a run are readings of a clock from which a
    day can be stepped back. *)
Definition resetsInRange (actions : list Action) : Prop :=
  Forall (fun a => match a with
                   | ResetDay _ _ now => Period.inRange now
                   | _ => True
                   end) actions.

(** A confirmed reset of the day. *)
Definition isReset (a : Action) : bool :=
  match a with
  | ResetDay _ confirmed _ => confirmed
  | _ => false
  end.

(** The entries that a run confirms with a text that is not empty. *)
Definition confirmsOf (actions : list Action) : list Action :=
  filter (fun a => match a with
                   | Confirm _ _ val _ => negb (isEmpty val)
                   | _ => false
                   end) actions.

End Handlers.

(** A shop on the morning of 5 March 2024. *)
Module Shop.

Import Handlers.

Definition waxForm : ExpenseForm.t :=
  ExpenseForm.mk "Wax" "12" Frequency.daily true.

Definition twoExpenses : AppData.t :=
  AppData.mk None [] [Sample.chairRental; Sample.supplies].

Definition ana : AppData.t :=
  AppData.mk (Some (UserData.mk "Ana" GoalType.weekly (ofZ 500) (ofZ 0)))
    [Sample.haircut] [Sample.chairRental].

Definition morning : list Action :=
  [Confirm 1709658000000 1709658000001 "35" cashButton;
   AddExpense 1709658000002 waxForm;
   Confirm 1709658000003 1709658000004 "" tipButton;
   SimulatorChange (ofZ 5);
   ResetDay Sample.zone false Sample.noon;
   SaveChanges "Ana" "650" GoalType.monthly].

End Shop.

(* ================================================================== *)
(** ** The arithmetic of the platform: IEEE 754 binary64 *)
(* ================================================================== *)

(** The sum, difference, product and quotient of two numbers are the exact
    results of [JSNum] rounded to the nearest double, ties to even
    (ECMA-262, Number::add and the like).  The comparisons, [Math.min],
    [Math.max], [Math.ceil], [Math.floor] and [Math.round] of doubles are
    exact, and are those of [JSNum]. *)
Module Binary64.

Open Scope Q_scope.

(** 2 to the power [z]. *)
Definition two (z : Z) : Q := 2 ^ z.

(** The integer part of the binary logarithm of [a > 0]. *)
Definition ilog2 (a : Q) : Z :=
  let k := (Z.log2 (Qnum a) - Z.log2 (Zpos (Qden a)))%Z in
  if Qle_bool (two k) a then k else (k - 1)%Z.

(** The exponent of the last bit of the 53-bit significand of [a > 0]; the
    subnormal numbers share the exponent -1074. *)
Definition exponent (a : Q) : Z := Z.max (ilog2 a - 52) (-1074).

(** The nearest integer, the even one of two equally near. *)
Definition rne (m : Q) : Z :=
  let f := Qfloor m in
  match Qcompare (m - inject_Z f) (1 # 2) with
  | Lt => f
  | Gt => (f + 1)%Z
  | Eq => if Z.even f then f else (f + 1)%Z
  end.

(** The multiple of [2 ^ exponent a] nearest to [a > 0]. *)
Definition roundPos (a : Q) : Q :=
  inject_Z (rne (a / two (exponent a))) * two (exponent a).

(** The rational [q] rounded to 53 bits, with an exponent that has no
    upper bound. *)
Definition rnd (q : Q) : Q :=
  match Qcompare q 0 with
  | Eq => 0
  | Gt => roundPos q
  | Lt => - roundPos (- q)
  end.

(** The Number value for a number with an exact finite value: the rounded
    value, an infinity when its magnitude reaches [2 ^ 1024], a zero of the
    same sign when it rounds to zero. *)
Definition round (a : number) : number :=
  match a with
  | Fin q =>
      let r := rnd q in
      if Qle_bool (two 1024) (Qabs r) then inf (negative a)
      else mkFin (negative a) r
  | _ => a
  end.

(** [a + b], [a - b], [a * b] and [a / b] *)
Definition add (a b : number) : number := round (JSNum.add a b).
Definition sub (a b : number) : number := round (JSNum.sub a b).
Definition mul (a b : number) : number := round (JSNum.mul a b).
Definition div (a b : number) : number := round (JSNum.div a b).

(** The Number value of a decimal literal or of a text that [parseFloat]
    reads, of exact value [q]. *)
Definition lit (q : Q) : number := round (Fin q).

End Binary64.

(* ================================================================== *)
(** ** The figures of the dashboard, in binary64 *)
(* ================================================================== *)

Module Figures.

Import Binary64.

Open Scope Q_scope.

(** [Math.min(100, (periodTotal / goalAmount) * 100)] *)
Definition goalProgress (periodTotal goalAmount : number) : number :=
  min (ofZ 100) (mul (div periodTotal goalAmount) (ofZ 100)).

(** [Math.round(goalProgress)] *)
Definition percentDisplay (goalProgress : number) : number :=
  Display.round goalProgress.

(** [Math.max(0, goalAmount - periodTotal)] *)
Definition remainingGoal (periodTotal goalAmount : number) : number :=
  max (ofZ 0) (sub goalAmount periodTotal).

(** [remainingGoal / AVG_CUT_PRICE] *)
Definition cutsNeededTotal (periodTotal goalAmount : number) : number :=
  div (remainingGoal periodTotal goalAmount) AVG_CUT_PRICE.

(** [Math.ceil(cutsNeededTotal / daysLeft)] *)
Definition cutsPerDay (periodTotal goalAmount daysLeft : number) : number :=
  ceil (div (cutsNeededTotal periodTotal goalAmount) daysLeft).

(** [cutsPerDay <= 0] *)
Definition goalCrushed (cutsPerDay : number) : bool :=
  leb cutsPerDay (ofZ 0).

(** The [reduce] over the expenses. *)
Definition dailyExpenses (expenses : list Expense.t) : number :=
  fold_left (fun sum exp =>
      match Expense.frequency exp with
      | Frequency.daily => add sum (Expense.amount exp)
      | _ => add sum (div (Expense.amount exp) (ofZ 7))
      end)
    expenses (ofZ 0).

(** [grossToday - dailyExpenses] *)
Definition netToday (grossToday dailyExpenses : number) : number :=
  sub grossToday dailyExpenses.

(** [Math.ceil(dailyExpenses)] and [Math.floor(netToday)] *)
Definition burnRateDisplay (dailyExpenses : number) : number :=
  ceil dailyExpenses.
Definition netTodayDisplay (netToday : number) : number := floor netToday.

(** The contribution of an expense to the daily equivalent: its amount when
    it is daily, a seventh of it when it is weekly. *)
Definition share (e : Expense.t) : number :=
  match Expense.frequency e with
  | Frequency.daily => Expense.amount e
  | Frequency.weekly => div (Expense.amount e) (ofZ 7)
  end.

(** [dailyEquivalent(expenses)]: the sum of the contributions, added in the
    order of the list. *)
Definition dailyEquivalent (expenses : list Expense.t) : number :=
  fold_left add (map share expenses) (ofZ 0).

(** Expenses with amounts from 0 to [A]. *)
Definition amountsWithin (A : Q) (expenses : list Expense.t) : Prop :=
  Forall (fun e => exists a, toQ (Expense.amount e) = Some a /\ 0 <= a <= A)
    expenses.

(** The progress computed for a total of [j] hundredths of the goal. *)
Definition progressAt (j : Z) : Q := rnd (rnd (inject_Z j / 100) * 100).

(** Three weekly expenses of 29, 31 and 31. *)
Definition threeWeekly : list Expense.t :=
  [Expense.mk 1 "Chair" (ofZ 29) Frequency.weekly;
   Expense.mk 2 "Towels" (ofZ 31) Frequency.weekly;
   Expense.mk 3 "Blades" (ofZ 31) Frequency.weekly].

End Figures.

(* ================================================================== *)
(** ** Facts about numbers *)
(* ================================================================== *)

Module JSNumFacts.

Open Scope Q_scope.

#[local] Arguments Qred : simpl never.

Lemma Qeq_bool_spec (p q : Q) : reflect (p == q) (Qeq_bool p q).
Proof.
  destruct (Qeq_bool p q) eqn:E; constructor.
  - now apply Qeq_bool_eq.
  - now apply Qeq_bool_neq.
Qed.

(** Case analysis on the tests of the arithmetic: the sign test and the
    zero test of a rational. *)
Ltac qcases :=
  repeat match goal with
  | |- context [Qeq_bool ?p ?q] => destruct (Qeq_bool_spec p q)
  | |- context [?p ?= ?q] => destruct (Qcompare_spec p q)
  | H : context [Qeq_bool ?p ?q] |- _ => destruct (Qeq_bool_spec p q)
  | H : context [?p ?= ?q] |- _ => destruct (Qcompare_spec p q)
  end.

Lemma toQ_finite (a : number) : finite a <-> exists q, toQ a = Some q.
Proof.
  destruct a; simpl; split; intros H; try (now eauto); try contradiction;
    destruct H as [q H]; discriminate.
Qed.

Lemma toQ_mkFin (s : bool) (q : Q) :
  exists r, toQ (mkFin s q) = Some r /\ r == q.
Proof.
  unfold mkFin, zero. qcases.
  - destruct s; simpl; eexists; split; try reflexivity; lra.
  - simpl. eexists; split; [reflexivity | apply Qred_correct].
Qed.

Lemma toQ_value (a : number) (p : Q) : toQ a = Some p -> value a == p.
Proof. destruct a; simpl; intros H; inversion H; reflexivity. Qed.

Lemma toQ_isZero (a : number) (p : Q) :
  toQ a = Some p -> isZero a = Qeq_bool p 0.
Proof. destruct a; simpl; intros H; inversion H; reflexivity. Qed.

Lemma toQ_not_special (a : number) (p : Q) :
  toQ a = Some p -> isNaN a = false /\ isInf a = false.
Proof. destruct a; simpl; intros H; inversion H; auto. Qed.

Lemma add_finite (a b : number) (p q : Q) :
  toQ a = Some p -> toQ b = Some q ->
  exists r, toQ (add a b) = Some r /\ r == p + q.
Proof.
  destruct a, b; simpl; intros Ha Hb; inversion Ha; inversion Hb; subst;
    eexists; (split; [reflexivity |]); rewrite ?Qred_correct; lra.
Qed.

Lemma neg_finite (a : number) (p : Q) :
  toQ a = Some p -> exists r, toQ (neg a) = Some r /\ r == - p.
Proof.
  destruct a; simpl; intros Ha; inversion Ha; subst.
  - qcases; simpl; eexists; (split; [reflexivity |]);
      rewrite ?Qred_correct; lra.
  - eexists; split; [reflexivity | lra].
Qed.

Lemma sub_finite (a b : number) (p q : Q) :
  toQ a = Some p -> toQ b = Some q ->
  exists r, toQ (sub a b) = Some r /\ r == p - q.
Proof.
  intros Ha Hb. destruct (neg_finite b q Hb) as (n & Hn & En).
  destruct (add_finite a (neg b) p n Ha Hn) as (r & Hr & Er).
  exists r. split; [exact Hr | lra].
Qed.

Lemma mul_finite (a b : number) (p q : Q) :
  toQ a = Some p -> toQ b = Some q ->
  exists r, toQ (mul a b) = Some r /\ r == p * q.
Proof.
  intros Ha Hb. unfold mul.
  destruct (toQ_not_special a p Ha) as [-> ->].
  destruct (toQ_not_special b q Hb) as [-> ->].
  rewrite !andb_false_r, !andb_false_l. simpl.
  destruct (toQ_mkFin (xorb (negative a) (negative b)) (value a * value b))
    as (r & Hr & Er).
  exists r. split; [exact Hr |].
  rewrite Er, (toQ_value a p Ha), (toQ_value b q Hb). reflexivity.
Qed.

Lemma div_finite (a b : number) (p q : Q) :
  toQ a = Some p -> toQ b = Some q -> ~ q == 0 ->
  exists r, toQ (div a b) = Some r /\ r == p / q.
Proof.
  intros Ha Hb Hq. unfold div.
  destruct (toQ_not_special a p Ha) as [-> ->].
  destruct (toQ_not_special b q Hb) as [-> ->].
  rewrite (toQ_isZero b q Hb).
  destruct (Qeq_bool_spec q 0) as [E | _]; [contradiction |].
  rewrite !andb_false_r. simpl.
  destruct (toQ_mkFin (xorb (negative a) (negative b)) (value a / value b))
    as (r & Hr & Er).
  exists r. split; [exact Hr |].
  rewrite Er, (toQ_value a p Ha), (toQ_value b q Hb). reflexivity.
Qed.

Lemma cmp_finite (a b : number) (p q : Q) :
  toQ a = Some p -> toQ b = Some q -> cmp a b = Some (p ?= q).
Proof.
  destruct a, b; simpl; intros Ha Hb; inversion Ha; inversion Hb; reflexivity.
Qed.

Lemma min_finite (a b : number) (p q : Q) :
  toQ a = Some p -> toQ b = Some q ->
  exists r, toQ (min a b) = Some r /\ r == Qmin p q.
Proof.
  intros Ha Hb. unfold min. rewrite (cmp_finite a b p q Ha Hb).
  destruct (Qcompare_spec p q) as [E | L | G].
  - destruct (negative a); [exists p | exists q]; split; auto;
      destruct (Q.min_spec p q) as [[? ->] | [? ->]]; lra.
  - exists p; split; auto. destruct (Q.min_spec p q) as [[? ->] | [? ->]]; lra.
  - exists q; split; auto. destruct (Q.min_spec p q) as [[? ->] | [? ->]]; lra.
Qed.

Lemma max_finite (a b : number) (p q : Q) :
  toQ a = Some p -> toQ b = Some q ->
  exists r, toQ (max a b) = Some r /\ r == Qmax p q.
Proof.
  intros Ha Hb. unfold max. rewrite (cmp_finite a b p q Ha Hb).
  destruct (Qcompare_spec p q) as [E | L | G].
  - destruct (negative a); [exists q | exists p]; split; auto;
      destruct (Q.max_spec p q) as [[? ->] | [? ->]]; lra.
  - exists q; split; auto. destruct (Q.max_spec p q) as [[? ->] | [? ->]]; lra.
  - exists p; split; auto. destruct (Q.max_spec p q) as [[? ->] | [? ->]]; lra.
Qed.

Lemma ceil_finite (a : number) (p : Q) :
  toQ a = Some p -> toQ (ceil a) = Some (inject_Z (Qceiling p)).
Proof.
  destruct a; simpl; intros Ha; inversion Ha; subst; try reflexivity.
  destruct (Z.eqb_spec (Qceiling p) 0) as [E | E].
  - rewrite E. unfold zero. destruct (p ?= 0); reflexivity.
  - reflexivity.
Qed.

Lemma floor_finite (a : number) (p : Q) :
  toQ a = Some p -> toQ (floor a) = Some (inject_Z (Qfloor p)).
Proof.
  destruct a; simpl; intros Ha; inversion Ha; subst; reflexivity.
Qed.

End JSNumFacts.

(* ================================================================== *)
(** ** Goal progress and projection *)
(* ================================================================== *)

Module GoalFacts.

Import JSNumFacts Engine.
Open Scope Q_scope.

#[local] Arguments Qred : simpl never.

Lemma toQ_ofZ (z : Z) : toQ (ofZ z) = Some (inject_Z z).
Proof. reflexivity. Qed.








(** The remaining amount, the cuts it takes and the cuts per day. *)
Lemma remainingGoal_finite (periodTotal goalAmount : number) (p g : Q) :
  toQ periodTotal = Some p -> toQ goalAmount = Some g ->
  exists r, toQ (remainingGoal periodTotal goalAmount) = Some r
            /\ r == Qmax 0 (g - p).
Proof.
  intros Hp Hg. unfold remainingGoal.
  destruct (sub_finite _ _ g p Hg Hp) as (d & Hd & Ed).
  destruct (max_finite _ _ (inject_Z 0) d (toQ_ofZ 0) Hd) as (r & Hr & Er).
  exists r. split; [exact Hr |]. rewrite Er, Ed. reflexivity.
Qed.

Lemma remainingGoal_zero (periodTotal goalAmount : number) (p g : Q) :
  toQ periodTotal = Some p -> toQ goalAmount = Some g ->
  Qmax 0 (g - p) == 0 ->
  remainingGoal periodTotal goalAmount = ofZ 0.
Proof.
  intros Hp Hg Z0. unfold remainingGoal.
  destruct (sub_finite _ _ g p Hg Hp) as (d & Hd & Ed).
  unfold max. rewrite (cmp_finite _ _ (inject_Z 0) d (toQ_ofZ 0) Hd).
  destruct (Qcompare_spec (inject_Z 0) d) as [E | L | G]; try reflexivity.
  exfalso. change (inject_Z 0) with 0 in L.
  destruct (Q.max_spec 0 (g - p)) as [[? E] | [? E]]; lra.
Qed.

(** Nothing remaining takes no cuts, whatever the days left. *)
Lemma cutsPerDay_zero (periodTotal goalAmount : number) (days : Z) :
  (1 <= days)%Z ->
  remainingGoal periodTotal goalAmount = ofZ 0 ->
  cutsPerDay periodTotal goalAmount (ofZ days) = ofZ 0.
Proof.
  intros Hd Hr. unfold cutsPerDay, cutsNeededTotal. rewrite Hr.
  change (div (ofZ 0) AVG_CUT_PRICE) with (Fin 0).
  assert (Pd : 0 < inject_Z days).
  { unfold inject_Z, Qlt; simpl; lia. }
  unfold div. simpl isNaN. simpl isInf. simpl isZero. simpl negative.
  destruct (Qeq_bool_spec (inject_Z days) 0) as [E | _]; [lra |].
  destruct (Qcompare_spec (inject_Z days) 0) as [E | L | G]; try lra.
  simpl. unfold mkFin.
  destruct (Qeq_bool_spec (0 / inject_Z days) 0) as [_ | N].
  - reflexivity.
  - exfalso. apply N. unfold Qdiv. lra.
Qed.

(** A raise of 10 is worth 13000 a year, at 5 cuts a day over 260 days. *)
Example extraYearlyProfit_ten : extraYearlyProfit (ofZ 10) = ofZ 13000.
Proof. reflexivity. Qed.

End GoalFacts.

(* ================================================================== *)
(** ** The calendar *)
(* ================================================================== *)

Module DateFacts.

Open Scope Z_scope.

(** Linear arithmetic with the quotients and remainders by constants. *)
Ltac zdiv := Z.div_mod_to_equations; lia.

Lemma Day_MakeDate (d t : Z) :
  0 <= t < msPerDay -> Day (MakeDate d t) = d.
Proof. unfold Day, MakeDate, msPerDay. intros H. zdiv. Qed.

Lemma TimeWithinDay_MakeDate (d t : Z) :
  0 <= t < msPerDay -> TimeWithinDay (MakeDate d t) = t.
Proof. unfold TimeWithinDay, MakeDate, msPerDay. intros H. zdiv. Qed.

Lemma TimeWithinDay_range (t : Z) : 0 <= TimeWithinDay t < msPerDay.
Proof. unfold TimeWithinDay, msPerDay. zdiv. Qed.

Lemma Day_TimeWithinDay (t : Z) : t = MakeDate (Day t) (TimeWithinDay t).
Proof. unfold MakeDate, Day, TimeWithinDay, msPerDay. zdiv. Qed.

Lemma WeekDay_range (t : Z) : 0 <= WeekDay t <= 6.
Proof. unfold WeekDay. zdiv. Qed.

(** *** Years *)

Lemma DaysInYear_cases (y : Z) : DaysInYear y = 365 \/ DaysInYear y = 366.
Proof. unfold DaysInYear. destruct (isLeapYear y); auto. Qed.

Lemma DayFromYear_succ (y : Z) :
  DayFromYear (y + 1) = DayFromYear y + DaysInYear y.
Proof.
  unfold DayFromYear, DaysInYear, isLeapYear.
  destruct (Z.eqb_spec (y mod 4) 0), (Z.eqb_spec (y mod 100) 0),
    (Z.eqb_spec (y mod 400) 0); cbn [negb]; zdiv.
Qed.

Lemma DayFromYear_lt (y y' : Z) : y < y' -> DayFromYear y < DayFromYear y'.
Proof. unfold DayFromYear. intros H. zdiv. Qed.

Lemma DayFromYear_le (y y' : Z) : y <= y' -> DayFromYear y <= DayFromYear y'.
Proof. unfold DayFromYear. intros H. zdiv. Qed.

(** The year of a day is the one whose days contain it. *)
Lemma yearOfDay_spec (d : Z) :
  DayFromYear (yearOfDay d) <= d < DayFromYear (yearOfDay d + 1).
Proof.
  unfold yearOfDay.
  destruct (Z.ltb_spec d (DayFromYear (1970 + 400 * d / 146097))).
  - unfold DayFromYear in *. zdiv.
  - destruct (Z.leb_spec (DayFromYear (1970 + 400 * d / 146097 + 1)) d).
    + unfold DayFromYear in *. zdiv.
    + lia.
Qed.

Lemma yearOfDay_unique (d y : Z) :
  DayFromYear y <= d < DayFromYear (y + 1) -> yearOfDay d = y.
Proof.
  intros H. pose proof (yearOfDay_spec d) as S.
  destruct (Z.lt_trichotomy (yearOfDay d) y) as [L | [E | G]]; auto.
  - pose proof (DayFromYear_le (yearOfDay d + 1) y). lia.
  - pose proof (DayFromYear_le (y + 1) (yearOfDay d)). lia.
Qed.

Lemma DayWithinYear_range (t : Z) :
  0 <= DayWithinYear t < DaysInYear (YearFromTime t).
Proof.
  unfold DayWithinYear, YearFromTime.
  pose proof (yearOfDay_spec (Day t)) as S.
  rewrite DayFromYear_succ in S. lia.
Qed.

Lemma InLeapYear_cases (t : Z) :
  (InLeapYear t = 0 /\ DaysInYear (YearFromTime t) = 365)
  \/ (InLeapYear t = 1 /\ DaysInYear (YearFromTime t) = 366).
Proof.
  unfold InLeapYear, leapOf.
  destruct (DaysInYear_cases (YearFromTime t)) as [E | E]; rewrite E; auto.
Qed.

(** *** Months *)

Lemma MonthFromTime_range (t : Z) : 0 <= MonthFromTime t <= 11.
Proof.
  unfold MonthFromTime.
  repeat match goal with
         | |- context [?a <? ?b] => destruct (Z.ltb_spec a b)
         end; lia.
Qed.

(** The month of a day is the one whose days contain it. *)
Lemma MonthFromTime_spec (t : Z) :
  monthStart (InLeapYear t) (MonthFromTime t) <= DayWithinYear t
  < monthStart (InLeapYear t) (MonthFromTime t + 1).
Proof.
  pose proof (DayWithinYear_range t) as R.
  unfold MonthFromTime.
  destruct (InLeapYear_cases t) as [[-> E] | [-> E]]; rewrite E in R;
    repeat match goal with
           | |- context [?a <? ?b] => destruct (Z.ltb_spec a b)
           end; simpl; lia.
Qed.

Lemma monthStart_unique (leap m d : Z) :
  0 <= leap <= 1 -> 0 <= m <= 11 ->
  monthStart leap m <= d < monthStart leap (m + 1) ->
  (if d <? 31 then 0
   else if d <? 59 + leap then 1
   else if d <? 90 + leap then 2
   else if d <? 120 + leap then 3
   else if d <? 151 + leap then 4
   else if d <? 181 + leap then 5
   else if d <? 212 + leap then 6
   else if d <? 243 + leap then 7
   else if d <? 273 + leap then 8
   else if d <? 304 + leap then 9
   else if d <? 334 + leap then 10
   else 11) = m.
Proof.
  intros Hl Hm H.
  assert (C : m = 0 \/ m = 1 \/ m = 2 \/ m = 3 \/ m = 4 \/ m = 5 \/ m = 6
              \/ m = 7 \/ m = 8 \/ m = 9 \/ m = 10 \/ m = 11) by lia.
  assert (L : leap = 0 \/ leap = 1) by lia.
  destruct L as [-> | ->];
    repeat (destruct C as [-> | C]); try subst m; simpl in H;
    repeat match goal with
           | |- context [?a <? ?b] => destruct (Z.ltb_spec a b)
           end; lia.
Qed.

Lemma DateFromTime_range (t : Z) : 1 <= DateFromTime t <= 31.
Proof.
  unfold DateFromTime.
  pose proof (MonthFromTime_spec t) as S.
  pose proof (MonthFromTime_range t) as R.
  destruct (InLeapYear_cases t) as [[L _] | [L _]]; rewrite L in *;
  assert (C : MonthFromTime t = 0 \/ MonthFromTime t = 1 \/ MonthFromTime t = 2
              \/ MonthFromTime t = 3 \/ MonthFromTime t = 4
              \/ MonthFromTime t = 5 \/ MonthFromTime t = 6
              \/ MonthFromTime t = 7 \/ MonthFromTime t = 8
              \/ MonthFromTime t = 9 \/ MonthFromTime t = 10
              \/ MonthFromTime t = 11) by lia;
  repeat (destruct C as [C | C]); rewrite C in *; simpl in *; lia.
Qed.

(** [MakeDay] of the year and month of [t]: the days of [t] counted from
    the first of its month. *)
Lemma MakeDay_of_time (t dt : Z) :
  MakeDay (YearFromTime t) (MonthFromTime t) dt
  = Day t - DateFromTime t + dt.
Proof.
  unfold MakeDay, DateFromTime, DayWithinYear.
  pose proof (MonthFromTime_range t) as R.
  replace (MonthFromTime t / 12) with 0 by zdiv.
  replace (MonthFromTime t mod 12) with (MonthFromTime t) by zdiv.
  rewrite Z.add_0_r. fold (InLeapYear t). lia.
Qed.

End DateFacts.

(* ================================================================== *)
(** ** The period of the goal *)
(* ================================================================== *)

Module PeriodFacts.

Import DateFacts Engine.
Open Scope Z_scope.

Lemma leapOf_cases (y : Z) :
  (leapOf y = 0 /\ DaysInYear y = 365) \/ (leapOf y = 1 /\ DaysInYear y = 366).
Proof.
  unfold leapOf. destruct (DaysInYear_cases y) as [E | E]; rewrite E; auto.
Qed.

Lemma monthStart_bounds (leap m : Z) :
  0 <= leap <= 1 -> 0 <= m <= 11 ->
  0 <= monthStart leap m
  /\ monthStart leap m + 28 <= monthStart leap (m + 1)
  /\ monthStart leap (m + 1) <= monthStart leap m + 31
  /\ monthStart leap (m + 1) <= 365 + leap.
Proof.
  intros Hl Hm.
  assert (L : leap = 0 \/ leap = 1) by lia.
  assert (C : m = 0 \/ m = 1 \/ m = 2 \/ m = 3 \/ m = 4 \/ m = 5 \/ m = 6
              \/ m = 7 \/ m = 8 \/ m = 9 \/ m = 10 \/ m = 11) by lia.
  destruct L as [-> | ->];
    repeat (destruct C as [-> | C]); try subst m; simpl; lia.
Qed.

(** The year, month and date of the [k]-th day of year [y]. *)
Lemma civil_of_day (y m k t : Z) :
  0 <= m <= 11 ->
  monthStart (leapOf y) m <= k < monthStart (leapOf y) (m + 1) ->
  Day t = DayFromYear y + k ->
  YearFromTime t = y /\ MonthFromTime t = m
  /\ DateFromTime t = k - monthStart (leapOf y) m + 1.
Proof.
  intros Hm Hk Hd.
  assert (Hl : 0 <= leapOf y <= 1) by (destruct (leapOf_cases y); lia).
  pose proof (monthStart_bounds (leapOf y) m Hl Hm) as B.
  assert (Hy : YearFromTime t = y).
  { unfold YearFromTime. apply yearOfDay_unique.
    rewrite DayFromYear_succ, Hd. destruct (leapOf_cases y); lia. }
  assert (Hw : DayWithinYear t = k).
  { unfold DayWithinYear. rewrite Hy, Hd. lia. }
  assert (Hi : InLeapYear t = leapOf y).
  { unfold InLeapYear, leapOf. now rewrite Hy. }
  assert (Hmo : MonthFromTime t = m).
  { unfold MonthFromTime. rewrite Hw, Hi.
    now apply monthStart_unique. }
  repeat split; auto.
  unfold DateFromTime. rewrite Hw, Hi, Hmo. lia.
Qed.

(** Day 0 of the month after [m] is the last day of [m]. *)
Lemma MakeDay_next_month (y m : Z) :
  0 <= m <= 11 ->
  MakeDay y (m + 1) 0 = DayFromYear y + (monthStart (leapOf y) (m + 1) - 1).
Proof.
  intros Hm. unfold MakeDay. fold (leapOf (y + (m + 1) / 12)).
  destruct (Z.eq_dec m 11) as [-> | N].
  - change ((11 + 1) / 12) with 1. change ((11 + 1) mod 12) with 0.
    rewrite DayFromYear_succ.
    change (monthStart (leapOf (y + 1)) 0) with 0.
    change (monthStart (leapOf y) (11 + 1)) with (365 + leapOf y).
    destruct (leapOf_cases y) as [[-> ->] | [-> ->]]; lia.
  - replace ((m + 1) / 12) with 0 by zdiv.
    replace ((m + 1) mod 12) with (m + 1) by zdiv.
    rewrite !Z.add_0_r. lia.
Qed.

Lemma TimeClip_in_range (t : Z) :
  - maxTime <= t <= maxTime -> TimeClip t = Some t.
Proof.
  intros H. unfold TimeClip.
  destruct (Z.leb_spec (Z.abs t) maxTime); auto. lia.
Qed.

Section Period.

Variable tz : Z.

Lemma LocalTime_UTC (t : Z) : LocalTime tz (UTC tz t) = t.
Proof. unfold LocalTime, UTC. lia. Qed.

(** Local midnight of the day of [now]. *)
Lemma setHours0_spec (now : Z) :
  clockReading now ->
  exists d, setHours0 tz (Some now) = Some d
            /\ LocalTime tz d = MakeDate (Day (LocalTime tz now)) 0
            /\ now - msPerDay < d <= now.
Proof.
  intros [H0 H1]. unfold setHours0. cbn [bind].
  change (MakeTime 0 0 0 0) with 0.
  set (d := UTC tz (MakeDate (Day (LocalTime tz now)) 0)).
  assert (R : now - msPerDay < d <= now).
  { subst d. unfold UTC, MakeDate, Day, LocalTime, msPerDay. zdiv. }
  exists d. split; [| split]; auto.
  - apply TimeClip_in_range. unfold maxTime, msPerDay in *. lia.
  - subst d. apply LocalTime_UTC.
Qed.

(** [setDate] on a date at local midnight moves it by whole days. *)
Lemma setDate_spec (d dt : Z) :
  - maxTime <= d + (dt - DateFromTime (LocalTime tz d)) * msPerDay <= maxTime ->
  exists r, setDate tz (Some d) (Some dt) = Some r
            /\ r = d + (dt - DateFromTime (LocalTime tz d)) * msPerDay
            /\ Day (LocalTime tz r)
               = Day (LocalTime tz d) - DateFromTime (LocalTime tz d) + dt
            /\ TimeWithinDay (LocalTime tz r) = TimeWithinDay (LocalTime tz d).
Proof.
  intros R. unfold setDate. cbn [bind].
  rewrite MakeDay_of_time.
  set (t := LocalTime tz d) in *.
  set (r := UTC tz (MakeDate (Day t - DateFromTime t + dt) (TimeWithinDay t))).
  assert (E : r = d + (dt - DateFromTime t) * msPerDay).
  { subst r. unfold UTC. pose proof (Day_TimeWithinDay t) as D.
    unfold MakeDate in *. subst t. unfold LocalTime in *. lia. }
  exists r. split; [| split; [| split]]; auto.
  - apply TimeClip_in_range. rewrite E. exact R.
  - subst r. rewrite LocalTime_UTC.
    apply Day_MakeDate, TimeWithinDay_range.
  - subst r. rewrite LocalTime_UTC.
    apply TimeWithinDay_MakeDate, TimeWithinDay_range.
Qed.


(** A clock reading falls, in local time, in a year after 99. *)
Lemma clockReading_year (now : Z) :
  clockReading now -> Z.abs tz < msPerDay ->
  100 <= YearFromTime (LocalTime tz now).
Proof.
  intros [C0 C1] Htz. unfold YearFromTime.
  pose proof (yearOfDay_spec (Day (LocalTime tz now))) as S.
  destruct (Z.le_gt_cases 100 (yearOfDay (Day (LocalTime tz now))))
    as [L | G]; auto.
  exfalso.
  pose proof (DayFromYear_le (yearOfDay (Day (LocalTime tz now)) + 1) 100).
  assert (-1 <= Day (LocalTime tz now)).
  { unfold Day, LocalTime, msPerDay in *. zdiv. }
  assert (DayFromYear 100 < -1) by reflexivity. lia.
Qed.

(** The day before the first of the next month is the last of this one. *)
Lemma lastDay_spec (now : Z) :
  clockReading now -> Z.abs tz < msPerDay ->
  let t := LocalTime tz now in
  exists l,
    newDateYMD tz (Some (YearFromTime t)) (Some (MonthFromTime t + 1)) (Some 0)
    = Some l
    /\ DateFromTime (LocalTime tz l) = Spec.lastDayOfMonth t.
Proof.
  intros C Htz t.
  pose proof (clockReading_year now C Htz) as Y100. fold t in Y100.
  destruct C as [C0 C1].
  unfold newDateYMD. cbn [bind].
  destruct (Z.leb_spec 0 (YearFromTime t)) as [_ | ?]; [| lia].
  destruct (Z.leb_spec (YearFromTime t) 99) as [? | _]; [lia |].
  cbn [andb]. change (MakeTime 0 0 0 0) with 0.
  set (y := YearFromTime t) in *. set (m := MonthFromTime t).
  pose proof (MonthFromTime_range t) as MR. fold m in MR.
  pose proof (MonthFromTime_spec t) as MS. fold m in MS.
  assert (IL : InLeapYear t = leapOf y) by reflexivity.
  rewrite IL in MS.
  assert (Hl : 0 <= leapOf y <= 1) by (destruct (leapOf_cases y); lia).
  pose proof (monthStart_bounds _ _ Hl MR) as B.
  pose proof (MakeDay_next_month y m MR) as E.
  rewrite E.
  set (L := DayFromYear y + (monthStart (leapOf y) (m + 1) - 1)).
  assert (DW : DayWithinYear t = Day t - DayFromYear y) by reflexivity.
  assert (RL : Day t <= L < Day t + 31) by (subst L; lia).
  exists (UTC tz (MakeDate L 0)). split.
  - apply TimeClip_in_range.
    assert (Day t * msPerDay <= t < Day t * msPerDay + msPerDay).
    { unfold Day, msPerDay. zdiv. }
    unfold UTC, MakeDate. subst t. unfold LocalTime in *.
    unfold maxTime, msPerDay in *. lia.
  - rewrite LocalTime_UTC.
    destruct (civil_of_day y m (monthStart (leapOf y) (m + 1) - 1)
                (MakeDate L 0)) as (_ & _ & D); auto.
    + lia.
    + rewrite Day_MakeDate; [reflexivity | unfold msPerDay; lia].
    + rewrite D. unfold Spec.lastDayOfMonth, DaysInMonth.
      fold y m (leapOf y). lia.
Qed.

Lemma daysLeft_weekly (now : Z) :
  let t := LocalTime tz now in
  exists n, daysLeft tz GoalType.weekly now = Some n
            /\ n = 7 - Spec.isoWeekday t + 1
            /\ 1 <= n <= 7.
Proof.
  intros t. unfold daysLeft. cbn [getDay bind]. fold t.
  pose proof (WeekDay_range t) as RW.
  eexists. split; [reflexivity |]. unfold Spec.isoWeekday.
  destruct (Z.eqb_spec (WeekDay t) 0); lia.
Qed.

Lemma daysLeft_monthly (now : Z) :
  clockReading now -> Z.abs tz < msPerDay ->
  let t := LocalTime tz now in
  exists n, daysLeft tz GoalType.monthly now = Some n
            /\ n = Spec.lastDayOfMonth t - DateFromTime t + 1
            /\ 1 <= n <= 31.
Proof.
  intros C Htz t.
  destruct (lastDay_spec now C Htz) as (l & Hl & Dl). fold t in Hl, Dl.
  unfold daysLeft. cbn [getFullYear getMonth getDate bind]. fold t.
  rewrite Hl. cbn [getDate bind]. rewrite Dl.
  eexists. split; [reflexivity |]. split; [reflexivity |].
  (* the date of [now] is at most the last day of its month *)
  pose proof (MonthFromTime_spec t) as MS.
  pose proof (MonthFromTime_range t) as MR.
  pose proof (DateFromTime_range t) as RD.
  assert (IL : InLeapYear t = leapOf (YearFromTime t)) by reflexivity.
  rewrite IL in MS.
  assert (Hle : 0 <= leapOf (YearFromTime t) <= 1)
    by (destruct (leapOf_cases (YearFromTime t)); lia).
  pose proof (monthStart_bounds _ _ Hle MR) as B.
  unfold Spec.lastDayOfMonth, DaysInMonth.
  unfold DateFromTime in *. rewrite IL in *. lia.
Qed.

(** C4: the days left are an integer of at least 1: 7 - isoWeekday + 1 for
    a weekly goal, Sunday being the weekday 7, and
    lastDayOfMonth - dayOfMonth + 1 for a monthly one. *)
Theorem daysLeft_spec (now : Z) :
  clockReading now -> Z.abs tz < msPerDay ->
  let t := LocalTime tz now in
  (exists n, daysLeft tz GoalType.weekly now = Some n
             /\ n = 7 - Spec.isoWeekday t + 1
             /\ 1 <= n <= 7)
  /\ (exists n, daysLeft tz GoalType.monthly now = Some n
                /\ n = Spec.lastDayOfMonth t - DateFromTime t + 1
                /\ 1 <= n <= 31).
Proof.
  intros C Htz t. split.
  - apply daysLeft_weekly.
  - now apply daysLeft_monthly.
Qed.

End Period.


(** Before the year 100 the constructor takes the year of [lastDay] for
    1900 + year.  On 29 February of the year 0, a leap year when 1900 was
    not, this leaves no day; the clock readings are far from there. *)
Remark daysLeft_year_zero :
  isoString (-62162121600000) = "0000-02-29T00:00:00.000Z"%string
  /\ daysLeft 0 GoalType.monthly (-62162121600000) = Some 0.
Proof. split; reflexivity. Qed.

Lemma daysLeft_spec_witness :
  exists n, daysLeft 3600000 GoalType.monthly 1709164800000 = Some n
            /\ 1 <= n <= 31.
Proof.
  destruct (daysLeft_spec 3600000 1709164800000) as [_ (n & H1 & _ & H3)].
  - unfold clockReading, maxTime, msPerDay. lia.
  - unfold msPerDay. simpl. lia.
  - exists n. auto.
Defined.


End PeriodFacts.

(* ================================================================== *)
(** ** Sums of amounts: today's totals and the burn rate *)
(* ================================================================== *)

Module SumFacts.

Import JSNumFacts Engine Spec Sample.
Open Scope Q_scope.

#[local] Arguments Qred : simpl never.

Lemma finite_value (a : number) : finite a -> toQ a = Some (value a).
Proof. destruct a; simpl; intros H; try contradiction; reflexivity. Qed.

(** A [reduce] that adds finite amounts to a finite sum. *)
Lemma fold_add_finite {A : Type} (f : A -> number) (l : list A) :
  Forall (fun x => finite (f x)) l ->
  forall (acc : number) (a : Q), toQ acc = Some a ->
  exists r, toQ (fold_left (fun sum x => add sum (f x)) l acc) = Some r
            /\ r == a + sumQ (map (fun x => value (f x)) l).
Proof.
  induction 1 as [| x l Hx Hl IH]; intros acc a Ha; simpl.
  - exists a. split; [exact Ha | lra].
  - destruct (add_finite acc (f x) a (value (f x)) Ha (finite_value _ Hx))
      as (s & Hs & Es).
    destruct (IH _ s Hs) as (r & Hr & Er).
    exists r. split; [exact Hr |]. rewrite Er, Es. lra.
Qed.

Lemma sumAmounts_finite (l : list Transaction.t) :
  finiteAmounts l ->
  exists r, toQ (sumAmounts l) = Some r /\ r == total l.
Proof.
  intros H. unfold sumAmounts, total.
  destruct (fold_add_finite Transaction.amount l H (ofZ 0) 0 eq_refl)
    as (r & Hr & Er).
  exists r. split; [exact Hr |]. rewrite Er. lra.
Qed.

Lemma finiteAmounts_filter (f : Transaction.t -> bool)
    (l : list Transaction.t) :
  finiteAmounts l -> finiteAmounts (filter f l).
Proof.
  unfold finiteAmounts. rewrite !Forall_forall. intros H t Ht.
  apply filter_In in Ht. now apply H.
Qed.




(** A weekly 70 and a daily 10.5 burn 20.5 a day, shown as 21; with 250
    earned the net is 229.5, shown as 229. *)
Example dailyExpenses_example :
  dailyExpenses [chairRental; supplies] = Fin (41 # 2)
  /\ burnRateDisplay (dailyExpenses [chairRental; supplies]) = ofZ 21
  /\ netToday (ofZ 250) (dailyExpenses [chairRental; supplies])
     = Fin (459 # 2)
  /\ netTodayDisplay
       (netToday (ofZ 250) (dailyExpenses [chairRental; supplies]))
     = ofZ 229.
Proof. repeat split. Qed.

End SumFacts.

(* ================================================================== *)
(** ** Decimal fields and the order of strings *)
(* ================================================================== *)

Module StringFacts.

Import DateFacts Spec.
Open Scope Z_scope.

Lemma digit_cases (k : Z) :
  0 <= k <= 9 ->
  k = 0 \/ k = 1 \/ k = 2 \/ k = 3 \/ k = 4 \/ k = 5 \/ k = 6 \/ k = 7
  \/ k = 8 \/ k = 9.
Proof. lia. Qed.

Ltac digit_split k H :=
  let C := fresh "C" in
  pose proof (digit_cases k H) as C;
  repeat (destruct C as [C | C]); subst k.

Lemma digitOfChar_digitChar (k : Z) :
  0 <= k <= 9 -> digitOfChar (digitChar k) = Some k.
Proof. intros H. digit_split k H; reflexivity. Qed.

Lemma compare_digitChar (a b : Z) :
  0 <= a <= 9 -> 0 <= b <= 9 ->
  Ascii.compare (digitChar a) (digitChar b) = (a ?= b).
Proof. intros Ha Hb. digit_split a Ha; digit_split b Hb; reflexivity. Qed.

Lemma digitChar_not (c : ascii) (k : Z) :
  0 <= k <= 9 -> digitOfChar c = None -> digitChar k <> c.
Proof.
  intros Hk Hc E. subst c. rewrite digitOfChar_digitChar in Hc by exact Hk.
  discriminate.
Qed.

Lemma length_digits (w : nat) (n : Z) : String.length (digits w n) = w.
Proof. induction w as [| w IH]; simpl; auto. Qed.

Lemma pow10_pos (w : nat) : 0 < 10 ^ Z.of_nat w.
Proof. apply Z.pow_pos_nonneg; lia. Qed.

Lemma pow10_succ (w : nat) : 10 ^ Z.of_nat (S w) = 10 * 10 ^ Z.of_nat w.
Proof. rewrite Nat2Z.inj_succ, Z.pow_succ_r by lia. reflexivity. Qed.

(** The leading digit and the rest of a number below [10 * b]. *)
Lemma split_digit (n b : Z) :
  0 < b ->
  0 <= (n / b) mod 10 <= 9
  /\ n mod (10 * b) = (n / b) mod 10 * b + n mod b
  /\ 0 <= n mod b < b.
Proof.
  intros Hb.
  assert (H1 : 0 <= (n / b) mod 10 < 10) by (apply Z.mod_pos_bound; lia).
  assert (H2 : 0 <= n mod b < b) by (apply Z.mod_pos_bound; lia).
  repeat split; try lia.
  rewrite (Z.mul_comm 10 b), Z.rem_mul_r by lia. lia.
Qed.

(** Strings with prefixes of the same length compare by the prefixes, then
    by the rests. *)
Lemma compare_app (a b x y : string) :
  String.length a = String.length b ->
  String.compare (a ++ x) (b ++ y)
  = lexc (String.compare a b) (String.compare x y).
Proof.
  revert b. induction a as [| c a IH]; intros [| d b] H; simpl in *;
    try discriminate; auto.
  destruct (Ascii.compare c d); simpl; auto.
Qed.

Lemma compare_refl (s : string) : String.compare s s = Eq.
Proof.
  induction s as [| c s IH]; simpl; auto.
  unfold Ascii.compare. now rewrite N.compare_refl.
Qed.

(** Fields of the same width compare as the numbers they show. *)
Lemma compare_digits (w : nat) (n m : Z) :
  String.compare (digits w n) (digits w m)
  = (n mod 10 ^ Z.of_nat w ?= m mod 10 ^ Z.of_nat w).
Proof.
  induction w as [| w IH].
  - simpl. now rewrite !Z.mod_1_r.
  - cbn [digits String.compare].
    pose proof (pow10_pos w) as Hb. set (b := 10 ^ Z.of_nat w) in *.
    rewrite pow10_succ. fold b.
    destruct (split_digit n b Hb) as (Dn & En & Rn).
    destruct (split_digit m b Hb) as (Dm & Em & Rm).
    rewrite compare_digitChar, IH, En, Em by assumption.
    set (dn := (n / b) mod 10) in *. set (dm := (m / b) mod 10) in *.
    destruct (Z.compare_spec dn dm) as [E | L | G].
    + rewrite E.
      destruct (Z.compare_spec (n mod b) (m mod b));
        symmetry; [apply Z.compare_eq_iff | apply Z.compare_lt_iff
                  | apply Z.compare_gt_iff]; nia.
    + symmetry. apply Z.compare_lt_iff. nia.
    + symmetry. apply Z.compare_gt_iff. nia.
Qed.

Lemma compare_digits_small (w : nat) (n m : Z) :
  0 <= n < 10 ^ Z.of_nat w -> 0 <= m < 10 ^ Z.of_nat w ->
  String.compare (digits w n) (digits w m) = (n ?= m).
Proof.
  intros Hn Hm. rewrite compare_digits, !Z.mod_small by assumption.
  reflexivity.
Qed.

Lemma digits_inj (w : nat) (n m : Z) :
  0 <= n < 10 ^ Z.of_nat w -> 0 <= m < 10 ^ Z.of_nat w ->
  digits w n = digits w m -> n = m.
Proof.
  intros Hn Hm E. apply Z.compare_eq_iff.
  rewrite <- (compare_digits_small w n m Hn Hm), E. apply compare_refl.
Qed.

(** Reading back the digits of a field. *)
Lemma takeDigits_digits (w : nat) (n acc : Z) (rest : string) :
  takeDigits w acc (digits w n ++ rest)
  = Some (acc * 10 ^ Z.of_nat w + n mod 10 ^ Z.of_nat w, rest).
Proof.
  revert acc. induction w as [| w IH]; intros acc.
  - simpl. rewrite Z.mod_1_r. f_equal. f_equal. lia.
  - cbn [digits append takeDigits].
    pose proof (pow10_pos w) as Hb.
    destruct (split_digit n (10 ^ Z.of_nat w) Hb) as (Dn & En & Rn).
    rewrite digitOfChar_digitChar, IH, pow10_succ, En by assumption.
    f_equal. f_equal. lia.
Qed.

End StringFacts.

(* ================================================================== *)
(** ** The order of ISO strings *)
(* ================================================================== *)

Module IsoFacts.

Import DateFacts PeriodFacts StringFacts Spec.
Open Scope Z_scope.

Lemma lexc_assoc (a b c : comparison) :
  lexc a (lexc b c) = lexc (lexc a b) c.
Proof. destruct a; reflexivity. Qed.

Lemma monthStart_mono (leap m m' : Z) :
  0 <= leap <= 1 -> 0 <= m -> m <= m' -> m' <= 12 ->
  monthStart leap m <= monthStart leap m'.
Proof.
  intros Hl H0 H1 H2.
  assert (L : leap = 0 \/ leap = 1) by lia.
  assert (C : m = 0 \/ m = 1 \/ m = 2 \/ m = 3 \/ m = 4 \/ m = 5 \/ m = 6
              \/ m = 7 \/ m = 8 \/ m = 9 \/ m = 10 \/ m = 11 \/ m = 12) by lia.
  assert (C' : m' = 0 \/ m' = 1 \/ m' = 2 \/ m' = 3 \/ m' = 4 \/ m' = 5
               \/ m' = 6 \/ m' = 7 \/ m' = 8 \/ m' = 9 \/ m' = 10
               \/ m' = 11 \/ m' = 12) by lia.
  destruct L as [-> | ->];
    repeat (destruct C as [-> | C]); try subst m;
    repeat (destruct C' as [-> | C']); try subst m';
    simpl; lia.
Qed.

(** The days of two times compare as their years, then their months, then
    their dates. *)
Lemma compare_Day (s t : Z) :
  (Day s ?= Day t)
  = lexc (YearFromTime s ?= YearFromTime t)
      (lexc (MonthFromTime s ?= MonthFromTime t)
            (DateFromTime s ?= DateFromTime t)).
Proof.
  pose proof (yearOfDay_spec (Day s)) as Ys.
  pose proof (yearOfDay_spec (Day t)) as Yt.
  pose proof (MonthFromTime_spec s) as Ms.
  pose proof (MonthFromTime_spec t) as Mt.
  pose proof (MonthFromTime_range s) as Rs.
  pose proof (MonthFromTime_range t) as Rt.
  fold (YearFromTime s) in Ys. fold (YearFromTime t) in Yt.
  unfold DateFromTime. unfold DayWithinYear in *. unfold InLeapYear in *.
  set (ys := YearFromTime s) in *. set (yt := YearFromTime t) in *.
  set (ms := MonthFromTime s) in *. set (mt := MonthFromTime t) in *.
  assert (Ls : 0 <= leapOf ys <= 1) by (destruct (leapOf_cases ys); lia).
  assert (Lt : 0 <= leapOf yt <= 1) by (destruct (leapOf_cases yt); lia).
  destruct (Z.compare_spec ys yt) as [Ey | Ly | Gy]; cbn [lexc].
  - rewrite Ey in *.
    destruct (Z.compare_spec ms mt) as [Em | Lm | Gm]; cbn [lexc].
    + rewrite Em in *.
      destruct (Z.compare_spec (Day s) (Day t)); symmetry;
        [apply Z.compare_eq_iff | apply Z.compare_lt_iff
        | apply Z.compare_gt_iff]; lia.
    + pose proof (monthStart_mono (leapOf yt) (ms + 1) mt Lt).
      apply Z.compare_lt_iff. lia.
    + pose proof (monthStart_mono (leapOf yt) (mt + 1) ms Lt).
      apply Z.compare_gt_iff. lia.
  - pose proof (DayFromYear_le (ys + 1) yt).
    apply Z.compare_lt_iff. lia.
  - pose proof (DayFromYear_le (yt + 1) ys).
    apply Z.compare_gt_iff. lia.
Qed.

Lemma time_fields_range (t : Z) :
  0 <= HourFromTime t <= 23 /\ 0 <= MinFromTime t <= 59
  /\ 0 <= SecFromTime t <= 59 /\ 0 <= msFromTime t <= 999.
Proof.
  unfold HourFromTime, MinFromTime, SecFromTime, msFromTime, msPerHour,
    msPerMinute, msPerSecond. zdiv.
Qed.

(** A time value, from its day and the fields of its time of day. *)
Lemma time_fields (t : Z) :
  t = MakeDate (Day t)
        (MakeTime (HourFromTime t) (MinFromTime t) (SecFromTime t)
           (msFromTime t)).
Proof.
  unfold MakeDate, MakeTime, Day, HourFromTime, MinFromTime, SecFromTime,
    msFromTime, msPerDay, msPerHour, msPerMinute, msPerSecond. zdiv.
Qed.

(** Two times compare as their days, then the fields of their times of
    day. *)
Lemma compare_time (s t : Z) :
  (s ?= t)
  = lexc (Day s ?= Day t)
      (lexc (HourFromTime s ?= HourFromTime t)
         (lexc (MinFromTime s ?= MinFromTime t)
            (lexc (SecFromTime s ?= SecFromTime t)
                  (msFromTime s ?= msFromTime t)))).
Proof.
  pose proof (time_fields s) as Fs. pose proof (time_fields t) as Ft.
  pose proof (time_fields_range s) as (Hs & Is & Ss & Ms).
  pose proof (time_fields_range t) as (Ht & It & St & Mt).
  unfold MakeDate, MakeTime, msPerDay, msPerHour, msPerMinute, msPerSecond
    in Fs, Ft.
  set (ds := Day s) in *. set (dt := Day t) in *.
  set (hs := HourFromTime s) in *. set (ht := HourFromTime t) in *.
  set (ns := MinFromTime s) in *. set (nt := MinFromTime t) in *.
  set (ss := SecFromTime s) in *. set (st := SecFromTime t) in *.
  set (ms := msFromTime s) in *. set (mt := msFromTime t) in *.
  clearbody ds dt hs ht ns nt ss st ms mt.
  destruct (Z.compare_spec ds dt); cbn [lexc];
    [| apply Z.compare_lt_iff; lia | apply Z.compare_gt_iff; lia].
  destruct (Z.compare_spec hs ht); cbn [lexc];
    [| apply Z.compare_lt_iff; lia | apply Z.compare_gt_iff; lia].
  destruct (Z.compare_spec ns nt); cbn [lexc];
    [| apply Z.compare_lt_iff; lia | apply Z.compare_gt_iff; lia].
  destruct (Z.compare_spec ss st); cbn [lexc];
    [| apply Z.compare_lt_iff; lia | apply Z.compare_gt_iff; lia].
  destruct (Z.compare_spec ms mt);
    [apply Z.compare_eq_iff | apply Z.compare_lt_iff
    | apply Z.compare_gt_iff]; lia.
Qed.

Lemma compare_add1 (a b : Z) : (a + 1 ?= b + 1) = (a ?= b).
Proof.
  destruct (Z.compare_spec a b);
    [apply Z.compare_eq_iff | apply Z.compare_lt_iff
    | apply Z.compare_gt_iff]; lia.
Qed.

Lemma isoYear_digits (y : Z) : 0 <= y <= 9999 -> isoYear y = digits 4 y.
Proof.
  intros H. unfold isoYear.
  destruct (Z.leb_spec 0 y); [| lia].
  destruct (Z.leb_spec y 9999); [| lia]. reflexivity.
Qed.

(** ISO strings with four-digit years are ordered as their time values. *)
Lemma compare_isoString (s t : Z) :
  0 <= YearFromTime s <= 9999 -> 0 <= YearFromTime t <= 9999 ->
  String.compare (isoString s) (isoString t) = (s ?= t).
Proof.
  intros Ys Yt.
  pose proof (time_fields_range s) as (Hs & Is & Ss & Ms).
  pose proof (time_fields_range t) as (Ht & It & St & Mt).
  pose proof (MonthFromTime_range s) as Rs.
  pose proof (MonthFromTime_range t) as Rt.
  pose proof (DateFromTime_range s) as Ds.
  pose proof (DateFromTime_range t) as Dt.
  unfold isoString. rewrite !isoYear_digits by assumption.
  repeat (rewrite compare_app by (rewrite ?length_digits; reflexivity);
          rewrite ?compare_digits_small
            by (change (10 ^ Z.of_nat 4) with 10000;
                change (10 ^ Z.of_nat 3) with 1000;
                change (10 ^ Z.of_nat 2) with 100; lia);
          rewrite ?compare_refl; cbn [lexc]).
  rewrite (compare_time s t), (compare_Day s t), compare_add1.
  rewrite <- !lexc_assoc.
  repeat f_equal.
  destruct (msFromTime s ?= msFromTime t); reflexivity.
Qed.

Lemma leb_isoString (s t : Z) :
  0 <= YearFromTime s <= 9999 -> 0 <= YearFromTime t <= 9999 ->
  String.leb (isoString s) (isoString t) = true <-> s <= t.
Proof.
  intros Ys Yt. unfold String.leb. rewrite compare_isoString by assumption.
  destruct (Z.compare_spec s t); split; intros; try lia; try discriminate;
    reflexivity.
Qed.

End IsoFacts.

(* ================================================================== *)
(** ** Reading back the dates that are written *)
(* ================================================================== *)

Module ParseFacts.

Import DateFacts PeriodFacts StringFacts IsoFacts.
Open Scope Z_scope.

Lemma expect_cons (c : ascii) (s : string) : expect c (String c s) = Some s.
Proof. unfold expect. now rewrite Ascii.eqb_refl. Qed.

(** The years of the valid time values have at most six digits. *)
Lemma YearFromTime_valid (tv : Z) :
  - maxTime <= tv <= maxTime -> -271821 <= YearFromTime tv <= 275760.
Proof.
  intros H. unfold YearFromTime.
  pose proof (yearOfDay_spec (Day tv)) as S.
  assert (D : -100000000 <= Day tv <= 100000000).
  { unfold Day, maxTime, msPerDay in *. zdiv. }
  split.
  - destruct (Z.le_gt_cases (-271821) (yearOfDay (Day tv))); auto.
    pose proof (DayFromYear_le (yearOfDay (Day tv) + 1) (-271821)).
    assert (DayFromYear (-271821) < -100000000) by reflexivity. lia.
  - destruct (Z.le_gt_cases (yearOfDay (Day tv)) 275760); auto.
    pose proof (DayFromYear_le 275761 (yearOfDay (Day tv))).
    assert (100000000 < DayFromYear 275761) by reflexivity. lia.
Qed.

Lemma parseYear_isoYear (y : Z) (rest : string) :
  -271821 <= y <= 275760 ->
  parseYear (isoYear y ++ rest) = Some (y, rest).
Proof.
  intros H. unfold isoYear.
  destruct (Z.leb_spec 0 y) as [P | N]; cbn [andb].
  - destruct (Z.leb_spec y 9999) as [L | G].
    + assert (E : parseYear (digits 4 y ++ rest)
                  = takeDigits 4 0 (digits 4 y ++ rest)).
      { cbn [digits append].
        pose proof (Z.mod_pos_bound (y / 10 ^ Z.of_nat 3) 10 ltac:(lia)) as B.
        set (k := (y / 10 ^ Z.of_nat 3) mod 10) in *. clearbody k.
        assert (B' : 0 <= k <= 9) by lia.
        digit_split k B'; reflexivity. }
      rewrite E, takeDigits_digits.
      change (10 ^ Z.of_nat 4) with 10000. rewrite Z.mod_small by lia.
      reflexivity.
    + destruct (Z.ltb_spec y 0); [lia |].
      cbn [append parseYear]. rewrite takeDigits_digits.
      change (10 ^ Z.of_nat 6) with 1000000. rewrite Z.mod_small by lia.
      reflexivity.
  - destruct (Z.ltb_spec y 0); [| lia].
    cbn [append parseYear]. rewrite takeDigits_digits.
    change (10 ^ Z.of_nat 6) with 1000000. rewrite Z.mod_small by lia.
    cbn [bind]. destruct (Z.eqb_spec (0 * 1000000 + - y) 0); [lia |].
    f_equal. f_equal. lia.
Qed.

(** [Date.parse] reads back what [toISOString] writes. *)
Lemma parseISO_isoString (tv : Z) :
  - maxTime <= tv <= maxTime -> parseISO (isoString tv) = Some tv.
Proof.
  intros V.
  pose proof (YearFromTime_valid tv V) as Y.
  pose proof (MonthFromTime_range tv) as M.
  pose proof (DateFromTime_range tv) as D.
  pose proof (time_fields_range tv) as (H & I & S & F).
  unfold parseISO, isoString.
  rewrite parseYear_isoYear by assumption. cbn [bind].
  repeat (cbn [append]; rewrite ?expect_cons; cbn [bind];
          rewrite ?takeDigits_digits; cbn [bind]).
  change (10 ^ Z.of_nat 2) with 100. change (10 ^ Z.of_nat 3) with 1000.
  rewrite !Z.mod_small by lia. cbn [Z.mul Z.add].
  replace (MonthFromTime tv + 1 - 1) with (MonthFromTime tv) by lia.
  (* the date is within its month *)
  assert (DM : DateFromTime tv
               <= DaysInMonth (YearFromTime tv) (MonthFromTime tv)).
  { pose proof (MonthFromTime_spec tv) as MS.
    unfold DaysInMonth, DateFromTime, InLeapYear in *. lia. }
  destruct (Z.leb_spec 1 (MonthFromTime tv + 1)); [| lia].
  destruct (Z.leb_spec (MonthFromTime tv + 1) 12); [| lia].
  destruct (Z.leb_spec 1 (DateFromTime tv)); [| lia].
  destruct (Z.leb_spec (DateFromTime tv)
              (DaysInMonth (YearFromTime tv) (MonthFromTime tv))); [| lia].
  destruct (Z.leb_spec (HourFromTime tv) 23); [| lia].
  destruct (Z.leb_spec (MinFromTime tv) 59); [| lia].
  destruct (Z.leb_spec (SecFromTime tv) 59); [| lia].
  cbn [andb].
  rewrite MakeDay_of_time.
  replace (Day tv - DateFromTime tv + DateFromTime tv) with (Day tv) by lia.
  rewrite <- time_fields. now apply TimeClip_in_range.
Qed.

(** The dates of the transactions that [handleTransaction] appends to a log
    are read back: they are those of the clock. *)
Lemma addEntries_dates (entries : list Engine.Entry) (init : AppData.t) :
  Forall (fun e => - maxTime <= Engine.dateClock e <= maxTime) entries ->
  map (fun t => parseISO (Transaction.date t))
      (AppData.transactions (Engine.addEntries init entries))
  = map (fun t => parseISO (Transaction.date t)) (AppData.transactions init)
    ++ map (fun e => Some (Engine.dateClock e)) entries.
Proof.
  unfold Engine.addEntries. intros H. revert init.
  induction H as [| e l He Hl IH]; intros init; simpl.
  - now rewrite app_nil_r.
  - rewrite IH. unfold Engine.addEntry, Engine.handleTransaction.
    cbn [AppData.transactions]. rewrite map_app, <- app_assoc.
    cbn [map Transaction.date app]. now rewrite parseISO_isoString.
Qed.

(** Every date of a log written from the first use on is a valid one. *)
Lemma addEntries_dates_valid (entries : list Engine.Entry)
    (t : Transaction.t) :
  Forall (fun e => - maxTime <= Engine.dateClock e <= maxTime) entries ->
  In t (AppData.transactions
          (Engine.addEntries Engine.emptyAppData entries)) ->
  parseISO (Transaction.date t) <> None.
Proof.
  intros H Hin.
  apply (in_map (fun t => parseISO (Transaction.date t))) in Hin.
  rewrite (addEntries_dates entries Engine.emptyAppData H) in Hin.
  cbn [Engine.emptyAppData AppData.transactions map app] in Hin.
  apply in_map_iff in Hin. destruct Hin as (e & <- & _). discriminate.
Qed.

End ParseFacts.

(* ================================================================== *)
(** ** The totals of today *)
(* ================================================================== *)

Module TodayFacts.

Import JSNumFacts DateFacts PeriodFacts IsoFacts SumFacts Engine Spec Sample.
Open Scope Z_scope.

Lemma YearFromTime_mono (s t : Z) :
  s <= t -> YearFromTime s <= YearFromTime t.
Proof.
  intros H. unfold YearFromTime.
  pose proof (yearOfDay_spec (Day s)) as Ss.
  pose proof (yearOfDay_spec (Day t)) as St.
  assert (Day s <= Day t) by (unfold Day, msPerDay; zdiv).
  destruct (Z.le_gt_cases (yearOfDay (Day s)) (yearOfDay (Day t)))
    as [L | G]; auto.
  pose proof (DayFromYear_le (yearOfDay (Day t) + 1) (yearOfDay (Day s))).
  lia.
Qed.

Lemma YearFromTime_epoch (t : Z) : - msPerDay <= t -> 1969 <= YearFromTime t.
Proof.
  intros H. change 1969 with (YearFromTime (- msPerDay)).
  now apply YearFromTime_mono.
Qed.

Section Today.

Variable tz : Z.

Lemma transactionsToday_In (transactions : list Transaction.t)
    (start : string) (t : Transaction.t) :
  In t (transactionsToday transactions start)
  <-> In t transactions /\ String.leb start (Transaction.date t) = true.
Proof. unfold transactionsToday. apply filter_In. Qed.

(** C5, as the code has it: a transaction counts for today when its
    timestamp is at or after the local midnight of [now], whatever the
    timestamp is compared to [now] itself (the window has no end); the tips
    of today are those of them whose category is [tip].  On a service of 200
    and a tip of 50 of today the gross is 250 and the tips are 50. *)
Theorem today_window (now : Z) (transactions : list Transaction.t) :
  clockReading now -> YearFromTime now <= 9999 ->
  exists (start : string) (midnight : Z),
    startOfDayStr tz now = Some start
    /\ start = isoString midnight
    /\ LocalTime tz midnight = MakeDate (Day (LocalTime tz now)) 0
    /\ (forall (t : Transaction.t) (ts : Z),
          Transaction.date t = isoString ts ->
          0 <= YearFromTime ts <= 9999 ->
          (In t (transactionsToday transactions start)
           <-> In t transactions /\ midnight <= ts))
    /\ (forall t : Transaction.t,
          In t (filter isTip (transactionsToday transactions start))
          <-> In t (transactionsToday transactions start)
              /\ Transaction.category t = Some tip)
    /\ (finiteAmounts transactions ->
        exists g tp : Q,
          toQ (grossToday transactions start) = Some g
          /\ (g == total (transactionsToday transactions start))%Q
          /\ toQ (tipsToday transactions start) = Some tp
          /\ (tp == total (filter isTip
                             (transactionsToday transactions start)))%Q)
    /\ (grossToday [haircut; gratuity] "2024-03-05T05:00:00.000Z" = ofZ 250
        /\ tipsToday [haircut; gratuity] "2024-03-05T05:00:00.000Z" = ofZ 50).
Proof.
  intros C Y.
  destruct (setHours0_spec tz now C) as (d & Hd & Ld & Rd).
  assert (Yd : 0 <= YearFromTime d <= 9999).
  { destruct C as [C0 C1]. split.
    - pose proof (YearFromTime_epoch d). lia.
    - pose proof (YearFromTime_mono d now). lia. }
  exists (isoString d), d. unfold startOfDayStr. rewrite Hd.
  split; [reflexivity |]. split; [reflexivity |]. split; [exact Ld |].
  split; [| split; [| split]].
  - intros t ts Et Yt. rewrite transactionsToday_In, Et.
    now rewrite leb_isoString.
  - intros t. rewrite filter_In. unfold isTip.
    destruct (Transaction.category t) as [[|] |]; intuition congruence.
  - intros F.
    pose proof (finiteAmounts_filter
                  (fun t => String.leb (isoString d) (Transaction.date t))
                  transactions F) as F1.
    fold (transactionsToday transactions (isoString d)) in F1.
    pose proof (finiteAmounts_filter isTip _ F1) as F2.
    destruct (sumAmounts_finite _ F1) as (g & Hg & Eg).
    destruct (sumAmounts_finite _ F2) as (tp & Htp & Etp).
    exists g, tp. unfold grossToday, tipsToday. auto.
  - split; reflexivity.
Qed.

End Today.

Lemma today_window_witness :
  exists (start : string) (midnight : Z),
    startOfDayStr zone noon = Some start
    /\ start = isoString midnight
    /\ LocalTime zone midnight = MakeDate (Day (LocalTime zone noon)) 0.
Proof.
  destruct (today_window zone noon [haircut; gratuity])
    as (start & midnight & H1 & H2 & H3 & _).
  - unfold clockReading, noon, maxTime, msPerDay. lia.
  - vm_compute. discriminate.
  - exists start, midnight. auto.
Defined.

(** A transaction stamped after [now] counts for today. *)
Lemma today_counts_later :
  startOfDayStr zone noon = Some "2024-03-05T05:00:00.000Z"%string
  /\ parseISO (Transaction.date late) = Some 1709663400000
  /\ noon < 1709663400000
  /\ transactionsToday [late] "2024-03-05T05:00:00.000Z" = [late]
  /\ grossToday [late] "2024-03-05T05:00:00.000Z" = ofZ 75.
Proof. repeat split. Qed.

End TodayFacts.

(* ================================================================== *)
(** ** A render of the dashboard *)
(* ================================================================== *)

Module RenderFacts.

Import JSNumFacts GoalFacts PeriodFacts Engine.
Open Scope Z_scope.

Section Render.

Variable tz : Z.
Variable Date_parse : string -> Date.

(** The calculations of a render raise no exception. *)
Lemma calculations_defined (data : AppData.t) (user : UserData.t)
    (now now1 now2 : Z) :
  clockReading now ->
  exists c, calculations tz Date_parse data user now now1 now2 = Some c.
Proof.
  intros C. destruct (setHours0_spec tz now C) as (d & Hd & _).
  unfold calculations, startOfDayStr. rewrite Hd. cbn [toISOString bind].
  eexists. reflexivity.
Qed.

(** There is at least one day left, and when the goal is met the cuts per
    day are 0. *)
Lemma calculations_cutsPerDay (data : AppData.t) (user : UserData.t)
    (now now1 now2 : Z) (c : Calc.t) (p g : Q) :
  clockReading now2 -> Z.abs tz < msPerDay ->
  calculations tz Date_parse data user now now1 now2 = Some c ->
  toQ (Calc.periodTotal c) = Some p ->
  toQ (UserData.goalAmount user) = Some g ->
  (exists n, 1 <= n <= 31 /\ Calc.daysLeft c = ofZ n)
  /\ ((g <= p)%Q -> Calc.cutsPerDay c = ofZ 0).
Proof.
  intros C Htz H Hp Hg. unfold calculations in H.
  destruct (startOfDayStr tz now) as [start |]; [| discriminate].
  cbn [bind] in H. inversion H as [E]. clear H. subst c.
  cbn [Calc.periodTotal Calc.daysLeft Calc.cutsPerDay] in *.
  assert (D : exists n, 1 <= n <= 31
                        /\ daysLeft tz (UserData.goalType user) now2 = Some n).
  { destruct (UserData.goalType user).
    - destruct (daysLeft_weekly tz now2) as (n & Hn & _ & R).
      exists n. split; [lia | exact Hn].
    - destruct (daysLeft_monthly tz now2 C Htz) as (n & Hn & _ & R).
      exists n. split; [lia | exact Hn]. }
  destruct D as (n & Rn & Hn). rewrite Hn. cbn [numberOf]. split.
  - exists n. auto.
  - intros L. apply cutsPerDay_zero; [lia |].
    apply (remainingGoal_zero _ _ p g Hp Hg).
    destruct (Q.max_spec 0 (g - p)) as [[? ->] | [? ->]]; lra.
Qed.

End Render.

End RenderFacts.

(* ================================================================== *)
(** ** Date strings *)
(* ================================================================== *)

Module DateStringFacts.

Import DateFacts PeriodFacts StringFacts.
Open Scope Z_scope.

Lemma pow10_le (w w' : nat) :
  (w <= w')%nat -> 10 ^ Z.of_nat w <= 10 ^ Z.of_nat w'.
Proof. intros H. apply Z.pow_le_mono_r; lia. Qed.

Lemma widthFrom_spec (fuel w : nat) (n : Z) :
  n < 10 ^ Z.of_nat (w + fuel) -> n < 10 ^ Z.of_nat (widthFrom fuel w n).
Proof.
  revert w. induction fuel as [| fuel IH]; intros w H; simpl.
  - now rewrite Nat.add_0_r in H.
  - destruct (Z.ltb_spec n (10 ^ Z.of_nat w)); auto.
    apply IH. now rewrite Nat.add_succ_r in H.
Qed.

Lemma widthFrom_min (fuel w : nat) (n : Z) :
  (0 < w)%nat -> 10 ^ Z.of_nat (w - 1) <= n \/ w = 1%nat ->
  10 ^ Z.of_nat (widthFrom fuel w n - 1) <= n \/ widthFrom fuel w n = 1%nat.
Proof.
  revert w. induction fuel as [| fuel IH]; intros w Hw H; simpl; auto.
  destruct (Z.ltb_spec n (10 ^ Z.of_nat w)); auto.
  apply IH; [lia |]. left. replace (S w - 1)%nat with w by lia. assumption.
Qed.

(** A number has as many digits as its width says. *)
Lemma decimalWidth_spec (n : Z) :
  0 <= n ->
  n < 10 ^ Z.of_nat (decimalWidth n)
  /\ (10 ^ Z.of_nat (decimalWidth n - 1) <= n \/ decimalWidth n = 1%nat).
Proof.
  intros Hn. unfold decimalWidth. split.
  - apply widthFrom_spec.
    destruct (Z.eq_dec n 0) as [-> | N]; [reflexivity |].
    pose proof (Z.log2_spec n ltac:(lia)) as [_ L].
    rewrite Nat2Z.inj_add, Z2Nat.id by apply Z.log2_nonneg.
    change (Z.of_nat 1) with 1. rewrite Z.add_comm.
    eapply Z.lt_le_trans; [exact L |].
    unfold Z.succ. apply Z.pow_le_mono_l.
    pose proof (Z.log2_nonneg n). lia.
  - apply widthFrom_min; auto.
Qed.

Lemma padded_small (n : Z) (w : nat) :
  0 <= n < 10 ^ Z.of_nat w -> (0 < w)%nat ->
  ToZeroPaddedDecimalString n w = digits w n.
Proof.
  intros Hn Hw. unfold ToZeroPaddedDecimalString.
  destruct (decimalWidth_spec n) as [_ [L | E]]; [lia | |].
  - replace (Nat.max w (decimalWidth n)) with w; auto.
    destruct (Nat.le_gt_cases (decimalWidth n) w) as [H | H]; [lia |].
    pose proof (pow10_le w (decimalWidth n - 1)). lia.
  - rewrite E. replace (Nat.max w 1) with w by lia. reflexivity.
Qed.

Lemma padded_inj (n m : Z) (w : nat) :
  0 <= n -> 0 <= m ->
  ToZeroPaddedDecimalString n w = ToZeroPaddedDecimalString m w -> n = m.
Proof.
  intros Hn Hm E. unfold ToZeroPaddedDecimalString in E.
  assert (L : Nat.max w (decimalWidth n) = Nat.max w (decimalWidth m)).
  { apply (f_equal String.length) in E. now rewrite !length_digits in E. }
  rewrite <- L in E.
  destruct (decimalWidth_spec n Hn) as [Bn _].
  destruct (decimalWidth_spec m Hm) as [Bm _].
  apply (digits_inj (Nat.max w (decimalWidth n))); auto.
  - pose proof (pow10_le (decimalWidth n) (Nat.max w (decimalWidth n))). lia.
  - pose proof (pow10_le (decimalWidth m) (Nat.max w (decimalWidth n))). lia.
Qed.

Lemma padded_first (n : Z) (w : nat) :
  (0 < w)%nat ->
  exists (k : Z) (r : string),
    0 <= k <= 9 /\ ToZeroPaddedDecimalString n w = String (digitChar k) r.
Proof.
  intros Hw. unfold ToZeroPaddedDecimalString.
  destruct (Nat.max w (decimalWidth n)) as [| v] eqn:E; [lia |].
  cbn [digits]. do 2 eexists. split; [| reflexivity].
  pose proof (Z.mod_pos_bound (n / 10 ^ Z.of_nat v) 10). lia.
Qed.

(** Strings with prefixes of the same length are equal part by part. *)
Lemma app_inj_length (a b x y : string) :
  String.length a = String.length b ->
  (a ++ x = b ++ y)%string -> a = b /\ x = y.
Proof.
  revert b. induction a as [| c a IH]; intros [| d b] H E; simpl in *;
    try discriminate; auto.
  inversion E. subst. destruct (IH b) as [-> ->]; auto.
Qed.

Lemma length_weekDayName (d : Z) : String.length (weekDayName d) = 3%nat.
Proof. destruct d as [| [[[|[]|]|[[]|[]|]|]|[[]|[]|]|] |]; reflexivity. Qed.

Lemma length_monthName (m : Z) : String.length (monthName m) = 3%nat.
Proof.
  assert (C : m = 0 \/ m = 1 \/ m = 2 \/ m = 3 \/ m = 4 \/ m = 5 \/ m = 6
              \/ m = 7 \/ m = 8 \/ m = 9 \/ m = 10 \/ (m < 0 \/ 10 < m))
    by lia.
  repeat (destruct C as [-> | C]); try reflexivity.
  destruct m as [| p | p]; try reflexivity; try lia.
  do 4 (destruct p as [p | p |]; try reflexivity).
Qed.

Lemma monthName_inj (m m' : Z) :
  0 <= m <= 11 -> 0 <= m' <= 11 -> monthName m = monthName m' -> m = m'.
Proof.
  intros H H' E.
  assert (C : m = 0 \/ m = 1 \/ m = 2 \/ m = 3 \/ m = 4 \/ m = 5 \/ m = 6
              \/ m = 7 \/ m = 8 \/ m = 9 \/ m = 10 \/ m = 11) by lia.
  assert (C' : m' = 0 \/ m' = 1 \/ m' = 2 \/ m' = 3 \/ m' = 4 \/ m' = 5
               \/ m' = 6 \/ m' = 7 \/ m' = 8 \/ m' = 9 \/ m' = 10
               \/ m' = 11) by lia.
  repeat (destruct C as [-> | C]); try subst m;
    repeat (destruct C' as [-> | C']); try subst m';
    try reflexivity; discriminate.
Qed.

(** The day of a time, from its year, month and date. *)
Lemma Day_civil (t : Z) :
  Day t = DayFromYear (YearFromTime t)
          + monthStart (leapOf (YearFromTime t)) (MonthFromTime t)
          + DateFromTime t - 1.
Proof. unfold DateFromTime, DayWithinYear, InLeapYear. lia. Qed.

(** The date string is that of the day. *)
Lemma DateString_Day (s t : Z) : Day s = Day t -> DateString s = DateString t.
Proof.
  intros E.
  assert (Y : YearFromTime s = YearFromTime t)
    by (unfold YearFromTime; now rewrite E).
  assert (W : DayWithinYear s = DayWithinYear t)
    by (unfold DayWithinYear; now rewrite E, Y).
  assert (I : InLeapYear s = InLeapYear t)
    by (unfold InLeapYear; now rewrite Y).
  assert (M : MonthFromTime s = MonthFromTime t)
    by (unfold MonthFromTime; now rewrite W, I).
  unfold DateString, DateFromTime, WeekDay. now rewrite E, Y, W, I, M.
Qed.

(** Two days with the same date string are the same day. *)
Lemma DateString_inj (s t : Z) : DateString s = DateString t -> Day s = Day t.
Proof.
  unfold DateString. intros E.
  apply app_inj_length in E;
    [| now rewrite !length_weekDayName]. destruct E as [_ E].
  apply app_inj_length in E; [| reflexivity]. destruct E as [_ E].
  apply app_inj_length in E;
    [| now rewrite !length_monthName]. destruct E as [EM E].
  apply app_inj_length in E; [| reflexivity]. destruct E as [_ E].
  pose proof (DateFromTime_range s) as Ds.
  pose proof (DateFromTime_range t) as Dt.
  rewrite !(padded_small _ 2) in E
    by (try (change (10 ^ Z.of_nat 2) with 100); lia).
  apply app_inj_length in E; [| now rewrite !length_digits].
  destruct E as [ED E].
  apply app_inj_length in E; [| reflexivity]. destruct E as [_ E].
  apply monthName_inj in EM; try apply MonthFromTime_range.
  apply digits_inj in ED; try (change (10 ^ Z.of_nat 2) with 100; lia).
  assert (EY : YearFromTime s = YearFromTime t).
  { destruct (padded_first (Z.abs (YearFromTime s)) 4) as (k & r & Hk & Pk);
      [lia |].
    destruct (padded_first (Z.abs (YearFromTime t)) 4) as (k' & r' & Hk' & Pk');
      [lia |].
    destruct (Z.leb_spec 0 (YearFromTime s)) as [Ps | Ns],
             (Z.leb_spec 0 (YearFromTime t)) as [Pt | Nt]; cbn [append] in E.
    - apply padded_inj in E; lia.
    - exfalso. rewrite Pk in E. inversion E as [[E1 E2]].
      revert E1. apply digitChar_not; auto.
    - exfalso. rewrite Pk' in E. inversion E as [[E1 E2]].
      symmetry in E1. revert E1. apply digitChar_not; auto.
    - inversion E as [E']. apply padded_inj in E'; lia. }
  rewrite (Day_civil s), (Day_civil t), EY, EM, ED. reflexivity.
Qed.

End DateStringFacts.

(* ================================================================== *)
(** ** The history of earnings *)
(* ================================================================== *)

Module HistoryFacts.

Import JSNumFacts DateFacts PeriodFacts StringFacts DateStringFacts Engine
  Spec Sample.
Open Scope Z_scope.

(** *** The sort *)

Section SortFacts.
Context {A : Type} (comparefn : A -> A -> number).

Lemma insertSorted_perm (x : A) (l : list A) :
  Permutation (insertSorted comparefn x l) (x :: l).
Proof.
  induction l as [| y l IH]; simpl; auto.
  destruct (gtb (comparefn x y) (ofZ 0)); auto.
  rewrite IH. apply perm_swap.
Qed.

Lemma sort_perm (l : list A) : Permutation (sort comparefn l) l.
Proof.
  induction l as [| x l IH]; simpl; auto.
  rewrite insertSorted_perm. now constructor.
Qed.

(** When the comparison is that of a key, larger keys first, the result is
    in the order of the keys. *)
Variable key : A -> Z.



End SortFacts.

(** *** The map from keys to summaries *)

Lemma lookup_None (key : string) (g : Grouped) :
  lookup key g = None <-> ~ In key (map fst g).
Proof.
  induction g as [| [k v] g IH]; simpl.
  - tauto.
  - destruct (String.eqb_spec k key) as [E | N].
    + split; [discriminate | intros H; exfalso; apply H; now left].
    + rewrite IH. tauto.
Qed.

Lemma lookup_Some (key : string) (g : Grouped) (v : DaySummary.t) :
  lookup key g = Some v -> In (key, v) g.
Proof.
  induction g as [| [k w] g IH]; simpl; [discriminate |].
  destruct (String.eqb_spec k key) as [E | N].
  - intros H. inversion H. subst. now left.
  - intros H. right. now apply IH.
Qed.

Lemma update_keys (key : string) (f : DaySummary.t -> DaySummary.t)
    (g : Grouped) :
  map fst (update key f g) = map fst g.
Proof.
  induction g as [| [k v] g IH]; simpl; auto.
  destruct (String.eqb k key); simpl; congruence.
Qed.

Lemma update_In (key : string) (f : DaySummary.t -> DaySummary.t)
    (g : Grouped) (k : string) (v : DaySummary.t) :
  NoDup (map fst g) ->
  In (k, v) (update key f g)
  <-> (k <> key /\ In (k, v) g)
      \/ (k = key /\ exists w, In (key, w) g /\ v = f w).
Proof.
  induction g as [| [k0 v0] g IH]; simpl; intros ND.
  - split; [tauto | intros [[_ []] | [_ (w & [] & _)]]].
  - inversion ND as [| ? ? Hnot ND']. subst.
    destruct (String.eqb_spec k0 key) as [E | N]; simpl.
    + subst k0. split.
      * intros [H | H].
        -- inversion H. subst. right. split; auto. exists v0. auto.
        -- left. split; auto. intros ->. apply Hnot.
           change key with (fst (key, v)). now apply in_map.
      * intros [[Hk [H | H]] | [Hk (w & [H | H] & Hv)]].
        -- inversion H. congruence.
        -- now right.
        -- inversion H. subst. now left.
        -- exfalso. apply Hnot. change key with (fst (key, w)).
           now apply in_map.
    + rewrite (IH ND'). split.
      * intros [H | [[Hk H] | [Hk (w & H & Hv)]]].
        -- inversion H. subst. left. split; auto.
        -- left. auto.
        -- right. split; auto. exists w. auto.
      * intros [[Hk [H | H]] | [Hk (w & [H | H] & Hv)]].
        -- now left.
        -- right. left. auto.
        -- inversion H. congruence.
        -- right. right. split; auto. exists w. auto.
Qed.

(** *** The grouping *)

Lemma sumAmounts_snoc (l : list Transaction.t) (t : Transaction.t) :
  sumAmounts (l ++ [t]) = add (sumAmounts l) (Transaction.amount t).
Proof. unfold sumAmounts. now rewrite fold_left_app. Qed.

Lemma find_snoc {A : Type} (f : A -> bool) (l : list A) (x : A) :
  find f (l ++ [x])
  = match find f l with
    | Some y => Some y
    | None => if f x then Some x else None
    end.
Proof.
  induction l as [| y l IH]; simpl; auto.
  destruct (f y); auto.
Qed.

Section Grouping.

Variable tz : Z.
Variable Date_parse : string -> Date.

#[local] Abbreviation dayKey := (dayKey tz Date_parse).
#[local] Abbreviation onDay := (onDay tz Date_parse).
#[local] Abbreviation groupStep := (groupStep tz Date_parse).
#[local] Abbreviation grouped := (grouped tz Date_parse).
#[local] Abbreviation summaryOf := (summaryOf tz Date_parse).
#[local] Abbreviation groupedFor := (groupedFor tz Date_parse).
#[local] Abbreviation historyList := (historyList tz Date_parse).

Lemma onDay_snoc (k : string) (l : list Transaction.t) (t : Transaction.t) :
  onDay k (l ++ [t])
  = onDay k l ++ (if String.eqb (dayKey t) k then [t] else []).
Proof. unfold Engine.onDay. rewrite filter_app. reflexivity. Qed.

Lemma onDay_none (k : string) (l : list Transaction.t) :
  (forall t, In t l -> dayKey t <> k) ->
  onDay k l = [] /\ find (fun t => String.eqb (dayKey t) k) l = None.
Proof.
  induction l as [| t l IH]; simpl; intros H; auto.
  destruct (String.eqb_spec (dayKey t) k) as [E | N].
  - exfalso. apply (H t); auto.
  - apply IH. intros t' Ht'. apply H. now right.
Qed.

(** A summary of another day is not touched by a transaction. *)
Lemma summaryOf_other (k : string) (l : list Transaction.t)
    (t : Transaction.t) (s : DaySummary.t) :
  dayKey t <> k -> summaryOf k l s -> summaryOf k (l ++ [t]) s.
Proof.
  intros N (H1 & H2 & H3 & t0 & H4 & H5). unfold Engine.summaryOf.
  rewrite onDay_snoc, find_snoc, H4.
  destruct (String.eqb_spec (dayKey t) k) as [E | _]; [contradiction |].
  rewrite app_nil_r. repeat split; auto. exists t0. auto.
Qed.

(** The summary of the day of a transaction counts it. *)
Lemma summaryOf_same (l : list Transaction.t) (t : Transaction.t)
    (s : DaySummary.t) :
  summaryOf (dayKey t) l s ->
  summaryOf (dayKey t) (l ++ [t])
    (DaySummary.mk (DaySummary.dateStr s) (DaySummary.dateObj s)
       (add (DaySummary.total s) (Transaction.amount t))
       (DaySummary.count s + 1)).
Proof.
  intros (H1 & H2 & H3 & t0 & H4 & H5). unfold Engine.summaryOf.
  rewrite onDay_snoc, find_snoc, H4, String.eqb_refl. cbn.
  rewrite sumAmounts_snoc, length_app, H2, H3. cbn.
  repeat split; auto; [lia |]. exists t0. auto.
Qed.

(** The first summary of a day. *)
Lemma summaryOf_first (l : list Transaction.t) (t : Transaction.t) :
  (forall t', In t' l -> dayKey t' <> dayKey t) ->
  summaryOf (dayKey t) (l ++ [t])
    (DaySummary.mk (dayKey t) (Date_parse (Transaction.date t))
       (add (ofZ 0) (Transaction.amount t)) (0 + 1)).
Proof.
  intros H. destruct (onDay_none (dayKey t) l H) as [E1 E2].
  unfold Engine.summaryOf.
  rewrite onDay_snoc, find_snoc, E1, E2, String.eqb_refl. cbn.
  repeat split; auto. exists t. auto.
Qed.

Lemma groupStep_groupedFor (g : Grouped) (l : list Transaction.t)
    (t : Transaction.t) :
  groupedFor g l -> groupedFor (groupStep g t) (l ++ [t]).
Proof.
  intros (ND & HK & HS). unfold Engine.groupedFor, Engine.groupStep.
  fold (dayKey t).
  set (key := dayKey t).
  set (f := fun s : DaySummary.t =>
              DaySummary.mk (DaySummary.dateStr s) (DaySummary.dateObj s)
                (add (DaySummary.total s) (Transaction.amount t))
                (DaySummary.count s + 1)).
  assert (HK' : forall k, (exists t', In t' (l ++ [t]) /\ dayKey t' = k)
                          <-> In k (map fst g) \/ k = key).
  { intros k. rewrite HK. split.
    - intros (t' & Hin & Ek). apply in_app_or in Hin.
      destruct Hin as [Hin | [<- | []]]; [left; eauto | right; auto].
    - intros [(t' & Hin & Ek) | ->].
      + exists t'. split; auto. apply in_or_app. now left.
      + exists t. split; auto. apply in_or_app. right. now left. }
  destruct (lookup key g) as [v |] eqn:L.
  - (* the day has a summary *)
    assert (Hkey : In key (map fst g)).
    { apply lookup_Some in L. change key with (fst (key, v)).
      now apply in_map. }
    split; [| split].
    + now rewrite update_keys.
    + intros k. rewrite update_keys, HK'. split; [tauto |].
      intros [H | ->]; auto.
    + intros k s Hin. apply update_In in Hin; auto.
      destruct Hin as [[Nk Hin] | [-> (w & Hin & ->)]].
      * apply summaryOf_other; auto.
      * apply summaryOf_same. now apply HS.
  - (* the first transaction of the day *)
    assert (Hkey : ~ In key (map fst g)) by now apply lookup_None.
    assert (ND1 : NoDup (map fst (g ++ [(key, DaySummary.mk key
                   (Date_parse (Transaction.date t)) (ofZ 0) 0)]))).
    { rewrite map_app. cbn. apply NoDup_app; auto.
      - repeat constructor. intros [].
      - intros x Hx [<- | []]. contradiction. }
    split; [| split].
    + now rewrite update_keys.
    + intros k. rewrite update_keys, map_app, HK', in_app_iff. cbn.
      intuition congruence.
    + intros k s Hin. apply update_In in Hin; auto.
      destruct Hin as [[Nk Hin] | [-> (w & Hin & ->)]].
      * apply in_app_or in Hin. destruct Hin as [Hin | [E | []]].
        -- apply summaryOf_other; auto.
        -- inversion E. congruence.
      * apply in_app_or in Hin. destruct Hin as [Hin | [E | []]].
        -- exfalso. apply Hkey. change key with (fst (key, w)).
           now apply in_map.
        -- inversion E. subst w. apply summaryOf_first.
           intros t' Ht' Ek. apply Hkey. apply HK. eauto.
Qed.

Lemma grouped_groupedFor (l : list Transaction.t) : groupedFor (grouped l) l.
Proof.
  induction l as [| t l IH] using rev_ind.
  - unfold Engine.groupedFor. split; [constructor | split].
    + intros k. split; [intros [] | intros (t & [] & _)].
    + intros k s [].
  - unfold Engine.grouped in *. rewrite fold_left_app. cbn.
    now apply groupStep_groupedFor.
Qed.

(** The entries of the history are the summaries of the map. *)
Lemma historyList_In (l : list Transaction.t) (e : DaySummary.t) :
  In e (historyList l) <-> exists k, In (k, e) (grouped l).
Proof.
  unfold Engine.historyList. split.
  - intros H. apply (Permutation_in _ (sort_perm _ _)) in H.
    apply in_map_iff in H. destruct H as ([k e'] & <- & H). eauto.
  - intros (k & H).
    apply (Permutation_in _ (Permutation_sym (sort_perm _ _))).
    change e with (snd (k, e)). now apply in_map.
Qed.



End Grouping.



Section History.

Variable tz : Z.
Variable Date_parse : string -> Date.

#[local] Abbreviation dayKey := (dayKey tz Date_parse).
#[local] Abbreviation onDay := (onDay tz Date_parse).
#[local] Abbreviation grouped := (grouped tz Date_parse).
#[local] Abbreviation historyList := (historyList tz Date_parse).


End History.

(** Four transactions over three days in the sample zone: the history has
    three entries, the most recent day first. *)
Example historyList_three_days :
  historyList zone parseISO [monday1; tuesday1; monday2; wednesday1]
  = [DaySummary.mk "Wed Mar 06 2024" (Some 1709737200000) (ofZ 40) 1;
     DaySummary.mk "Tue Mar 05 2024" (Some 1709647200000) (ofZ 200) 1;
     DaySummary.mk "Mon Mar 04 2024" (Some 1709560800000) (ofZ 65) 2].
Proof. vm_compute. reflexivity. Qed.


End HistoryFacts.

(* ================================================================== *)
(** ** Loading the persisted record *)
(* ================================================================== *)

Module StorageFacts.

Import Storage.


Section Load.

Variable JSON_parse : string -> option JSValue.



End Load.



End StorageFacts.

(* ================================================================== *)
(** ** Identifiers of transactions *)
(* ================================================================== *)

Module IdFacts.

Import Engine.
Open Scope Z_scope.

Lemma ids_addEntry (d : AppData.t) (e : Entry) :
  ids (addEntry d e) = ids d ++ [idClock e].
Proof. unfold ids, addEntry, handleTransaction. simpl. now rewrite map_app. Qed.

(** The identifiers after a run are those before it, followed by the
    readings of [Date.now()] of the run. *)
Lemma ids_addEntries (entries : list Entry) (init : AppData.t) :
  ids (addEntries init entries) = ids init ++ map idClock entries.
Proof.
  unfold addEntries. revert init.
  induction entries as [| e l IH]; intros init; simpl.
  - now rewrite app_nil_r.
  - rewrite IH, ids_addEntry, <- app_assoc. reflexivity.
Qed.

Lemma appended_addEntries (init : AppData.t) (entries : list Entry) :
  appended init (addEntries init entries).
Proof.
  induction entries as [| e l IH] using rev_ind.
  - constructor.
  - unfold addEntries in *. rewrite fold_left_app. simpl.
    now apply appended_step.
Qed.

Lemma StronglySorted_lt_NoDup (l : list Z) :
  StronglySorted Z.lt l -> NoDup l.
Proof.
  induction 1 as [| a l Hs IH Ha]; constructor; auto.
  intros Hin. rewrite Forall_forall in Ha. specialize (Ha a Hin). lia.
Qed.

(** C10, as the code has it: the identifier of a transaction is the reading
    of [Date.now()] at its creation.  When the readings of a run of entries
    increase strictly, the identifiers of the transactions appended to an
    empty log increase strictly in the order of creation, and no two are
    equal. *)
Theorem ids_creation_ordered (entries : list Entry) (init : AppData.t) :
  AppData.transactions init = [] ->
  StronglySorted Z.lt (map idClock entries) ->
  let d := addEntries init entries in
  appended init d
  /\ ids d = map idClock entries
  /\ StronglySorted Z.lt (ids d)
  /\ NoDup (ids d).
Proof.
  intros Hinit Hs d. subst d.
  assert (E : ids (addEntries init entries) = map idClock entries).
  { rewrite ids_addEntries. unfold ids. now rewrite Hinit. }
  split; [apply appended_addEntries |]. split; [exact E |].
  rewrite E. split; [exact Hs | now apply StronglySorted_lt_NoDup].
Qed.

Lemma ids_creation_ordered_witness :
  ids (addEntries emptyAppData
         [mkEntry 1709640000000 1709640000000 cash service (ofZ 35);
          mkEntry 1709640060000 1709640060001 card service (ofZ 20)])
  = [1709640000000; 1709640060000].
Proof.
  apply (ids_creation_ordered
           [mkEntry 1709640000000 1709640000000 cash service (ofZ 35);
            mkEntry 1709640060000 1709640060001 card service (ofZ 20)]
           emptyAppData).
  - reflexivity.
  - repeat constructor.
Defined.

(** Two entries confirmed within the same millisecond give two transactions
    with the same identifier. *)
Lemma ids_collide :
  let d := addEntries emptyAppData
             [mkEntry 1709640000000 1709640000000 cash service (ofZ 35);
              mkEntry 1709640000000 1709640000000 cash tip (ofZ 5)] in
  appended emptyAppData d
  /\ exists t1 t2,
       AppData.transactions d = [t1; t2]
       /\ t1 <> t2
       /\ Transaction.id t1 = Transaction.id t2
       /\ ~ Transaction.id t1 < Transaction.id t2.
Proof.
  split; [apply appended_addEntries |].
  do 2 eexists. split; [reflexivity |].
  split; [discriminate |]. split; [reflexivity |]. simpl. lia.
Qed.

End IdFacts.

(* ================================================================== *)
(** ** More on the period of the goal *)
(* ================================================================== *)

Module PeriodMore.

Import DateFacts PeriodFacts DateStringFacts Engine.
Open Scope Z_scope.

Lemma clockReading_inRange (now : Z) : clockReading now -> Period.inRange now.
Proof.
  unfold clockReading, Period.inRange, maxTime, msPerDay. lia.
Qed.

Section Period.

Variable tz : Z.

Lemma setHours0_value (now : Z) :
  Period.inRange now ->
  setHours0 tz (Some now)
  = Some (UTC tz (MakeDate (Day (LocalTime tz now)) 0)).
Proof.
  intros [H0 H1]. unfold setHours0. cbn [bind].
  change (MakeTime 0 0 0 0) with 0.
  apply TimeClip_in_range.
  assert (now - msPerDay < UTC tz (MakeDate (Day (LocalTime tz now)) 0)
          <= now).
  { unfold UTC, MakeDate, Day, LocalTime, msPerDay. zdiv. }
  unfold maxTime, msPerDay in *. lia.
Qed.

Lemma startDay_bounds (type : GoalType.t) (t : Z) :
  Day t - 30 <= Period.startDay type t <= Day t.
Proof.
  pose proof (DateFromTime_range t). pose proof (WeekDay_range t).
  destruct type; unfold Period.startDay; [zdiv | lia].
Qed.

(** The start of the period as a time value: the local midnight of the
    first day of the period. *)
Lemma getStartOfPeriod_value (now : Z) (type : GoalType.t) :
  Period.inRange now ->
  getStartOfPeriod tz (Some now) type
  = Some (UTC tz (MakeDate (Period.startDay type (LocalTime tz now)) 0)).
Proof.
  intros R. pose proof R as [R0 R1].
  unfold getStartOfPeriod. rewrite (setHours0_value now R).
  set (t := LocalTime tz now).
  set (d := UTC tz (MakeDate (Day t) 0)).
  assert (Ld : LocalTime tz d = MakeDate (Day t) 0)
    by apply LocalTime_UTC.
  assert (Dd : Day (LocalTime tz d) = Day t).
  { rewrite Ld. apply Day_MakeDate. unfold msPerDay. lia. }
  assert (Td : TimeWithinDay (LocalTime tz d) = 0).
  { rewrite Ld. apply TimeWithinDay_MakeDate. unfold msPerDay. lia. }
  assert (Yd : YearFromTime (LocalTime tz d) = YearFromTime t).
  { unfold YearFromTime. now rewrite Dd. }
  assert (Wd : DayWithinYear (LocalTime tz d) = DayWithinYear t).
  { unfold DayWithinYear. now rewrite Yd, Dd. }
  assert (Id : InLeapYear (LocalTime tz d) = InLeapYear t).
  { unfold InLeapYear. now rewrite Yd. }
  assert (Md : MonthFromTime (LocalTime tz d) = MonthFromTime t).
  { unfold MonthFromTime. now rewrite Wd, Id. }
  assert (DTd : DateFromTime (LocalTime tz d) = DateFromTime t).
  { unfold DateFromTime. now rewrite Wd, Id, Md. }
  assert (WDd : WeekDay (LocalTime tz d) = WeekDay t).
  { unfold WeekDay. now rewrite Dd. }
  assert (Rd : now - msPerDay < d <= now).
  { subst d t. unfold UTC, MakeDate, Day, LocalTime, msPerDay. zdiv. }
  pose proof (DateFromTime_range t) as RD.
  pose proof (WeekDay_range t) as RW.
  assert (V : forall dt, DateFromTime t - 31 <= dt <= DateFromTime t ->
            setDate tz (Some d) (Some dt)
            = Some (UTC tz (MakeDate (Day t - DateFromTime t + dt) 0))).
  { intros dt Hdt.
    destruct (setDate_spec tz d dt) as (r & Hr & Er & Dr & Tr).
    - rewrite DTd. unfold maxTime, msPerDay in *. lia.
    - rewrite Hr. f_equal. rewrite Er, DTd. subst d.
      unfold UTC, MakeDate. lia. }
  destruct type; cbn [Period.startDay getDay getDate bind].
  - rewrite WDd, DTd, V.
    + f_equal. f_equal. f_equal. unfold WeekDay in *.
      destruct (Z.eqb_spec ((Day t + 4) mod 7) 0); zdiv.
    + destruct (Z.eqb_spec (WeekDay t) 0); lia.
  - rewrite V by lia. reflexivity.
Qed.


(** X1: the period of the goal contains [now]: its start is not after the
    local midnight of today, and [now] falls less than the length of the
    period (7 days, or the days of the month) after it. *)
Theorem period_contains_now (now : Z) (type : GoalType.t) :
  clockReading now ->
  exists start midnight,
    getStartOfPeriod tz (Some now) type = Some start
    /\ setHours0 tz (Some now) = Some midnight
    /\ start <= midnight <= now
    /\ now < start + Period.length type (LocalTime tz now) * msPerDay.
Proof.
  intros C. pose proof (clockReading_inRange now C) as R.
  rewrite (getStartOfPeriod_value now type R), (setHours0_value now R).
  do 2 eexists. split; [reflexivity |]. split; [reflexivity |].
  set (t := LocalTime tz now).
  pose proof (startDay_bounds type t) as B.
  assert (L : Day t < Period.startDay type t + Period.length type t).
  { destruct type; unfold Period.startDay, Period.length.
    - unfold WeekDay. zdiv.
    - pose proof (MonthFromTime_spec t) as MS.
      unfold DaysInMonth, DateFromTime, InLeapYear in *. lia. }
  assert (D : Day t * msPerDay <= t < Day t * msPerDay + msPerDay).
  { unfold Day, msPerDay. zdiv. }
  unfold UTC, MakeDate. subst t. unfold LocalTime in *.
  unfold msPerDay in *. nia.
Qed.


(** X3: the days elapsed since the start of the period and the days left,
    today included, add up to the length of the period: 7 days, or the days
    of the month. *)
Theorem period_elapsed_and_left (now : Z) (type : GoalType.t) :
  clockReading now -> Z.abs tz < msPerDay ->
  exists start n,
    getStartOfPeriod tz (Some now) type = Some start
    /\ daysLeft tz type now = Some n
    /\ (Day (LocalTime tz now) - Day (LocalTime tz start)) + n
       = Period.length type (LocalTime tz now).
Proof.
  intros C Htz. pose proof (clockReading_inRange now C) as R.
  rewrite (getStartOfPeriod_value now type R).
  set (t := LocalTime tz now).
  assert (Ds : Day (LocalTime tz
                 (UTC tz (MakeDate (Period.startDay type t) 0)))
               = Period.startDay type t).
  { rewrite LocalTime_UTC. apply Day_MakeDate. unfold msPerDay. lia. }
  destruct type.
  - destruct (daysLeft_weekly tz now) as (n & Hn & En & _). fold t in En.
    exists (UTC tz (MakeDate (Period.startDay GoalType.weekly t) 0)), n.
    split; [reflexivity |]. split; [exact Hn |].
    rewrite Ds, En. unfold Period.startDay, Period.length, Spec.isoWeekday.
    pose proof (WeekDay_range t).
    destruct (Z.eqb_spec (WeekDay t) 0); zdiv.
  - destruct (daysLeft_monthly tz now C Htz) as (n & Hn & En & _).
    fold t in En.
    exists (UTC tz (MakeDate (Period.startDay GoalType.monthly t) 0)), n.
    split; [reflexivity |]. split; [exact Hn |].
    rewrite Ds, En. unfold Period.startDay, Period.length,
      Spec.lastDayOfMonth. lia.
Qed.

End Period.

Lemma period_elapsed_and_left_witness :
  exists start n,
    getStartOfPeriod Sample.zone (Some Sample.noon) GoalType.monthly
    = Some start
    /\ daysLeft Sample.zone GoalType.monthly Sample.noon = Some n
    /\ (Day (LocalTime Sample.zone Sample.noon)
        - Day (LocalTime Sample.zone start)) + n
       = Period.length GoalType.monthly (LocalTime Sample.zone Sample.noon).
Proof.
  apply (period_elapsed_and_left Sample.zone Sample.noon GoalType.monthly).
  - unfold clockReading, Sample.noon, maxTime, msPerDay. lia.
  - vm_compute. reflexivity.
Defined.

Lemma period_contains_now_witness :
  exists start midnight,
    getStartOfPeriod Sample.zone (Some Sample.noon) GoalType.weekly
    = Some start
    /\ setHours0 Sample.zone (Some Sample.noon) = Some midnight
    /\ start <= midnight <= Sample.noon.
Proof.
  destruct (period_contains_now Sample.zone Sample.noon GoalType.weekly)
    as (start & midnight & H1 & H2 & H3 & _).
  - unfold clockReading, Sample.noon, maxTime, msPerDay. lia.
  - exists start, midnight. auto.
Defined.


End PeriodMore.

(* ================================================================== *)
(** ** More on the totals of today and of the period *)
(* ================================================================== *)

Module TotalsMore.

Import JSNumFacts DateFacts PeriodFacts IsoFacts SumFacts TodayFacts
  PeriodMore HistoryFacts DateStringFacts Engine Spec.
Open Scope Z_scope.

#[local] Arguments Qred : simpl never.

Lemma nonnegative_finite (l : list Transaction.t) :
  Log.nonnegativeAmounts l -> finiteAmounts l.
Proof.
  unfold Log.nonnegativeAmounts, finiteAmounts. apply Forall_impl.
  intros t (q & H & _). apply toQ_finite. eauto.
Qed.

Lemma nonnegative_value (a : number) :
  Log.nonnegative a -> (0 <= value a)%Q.
Proof. intros (q & H & P). now rewrite (toQ_value a q H). Qed.

(** The sum of the amounts that pass a filter is at most the sum of those
    that pass a weaker one, when no amount is negative. *)
Lemma total_filter_le (f g : Transaction.t -> bool)
    (l : list Transaction.t) :
  Log.nonnegativeAmounts l ->
  (forall t, In t l -> f t = true -> g t = true) ->
  (total (filter f l) <= total (filter g l))%Q.
Proof.
  unfold total. induction 1 as [| t l Ht Hl IH]; intros H; simpl.
  - lra.
  - assert (IH' : (sumQ (map (fun t => value (Transaction.amount t))
                           (filter f l))
                   <= sumQ (map (fun t => value (Transaction.amount t))
                              (filter g l)))%Q).
    { apply IH. intros t' Ht'. apply H. now right. }
    pose proof (nonnegative_value _ Ht) as P.
    specialize (H t (or_introl eq_refl)).
    destruct (f t) eqn:Ef, (g t) eqn:Eg; simpl; try lra.
    all: specialize (H eq_refl); discriminate.
Qed.

Lemma filter_none {A : Type} (l : list A) : filter (fun _ => false) l = [].
Proof. induction l; simpl; auto. Qed.

Lemma filter_all {A : Type} (l : list A) : filter (fun _ => true) l = l.
Proof. induction l; simpl; congruence. Qed.

Lemma geb_timeNumber (d s : Date) :
  geb (timeNumber d) (timeNumber s) = true
  <-> exists tv sv, d = Some tv /\ s = Some sv /\ sv <= tv.
Proof.
  destruct d as [tv |], s as [sv |]; cbn [timeNumber].
  - unfold geb, leb.
    rewrite (cmp_finite (ofZ sv) (ofZ tv) (inject_Z sv) (inject_Z tv)
               eq_refl eq_refl).
    destruct (Qcompare_spec (inject_Z sv) (inject_Z tv)) as [H | H | H];
      unfold Qeq, Qlt, inject_Z in H; cbn [Qnum Qden] in H; split;
      intros X; try discriminate; try reflexivity;
      try (exists tv, sv; repeat split; lia);
      destruct X as (a & b & Ea & Eb & L); inversion Ea; inversion Eb; lia.
  - split; [discriminate |].
    intros (a & b & _ & E & _). discriminate.
  - split; [discriminate |]. intros (a & b & E & _). discriminate.
  - split; [discriminate |]. intros (a & b & E & _). discriminate.
Qed.

Lemma ltb_leb (a b : string) : String.ltb a b = negb (String.leb b a).
Proof.
  unfold String.ltb, String.leb. rewrite (String.compare_antisym a b).
  destruct (String.compare b a); reflexivity.
Qed.

Section Totals.

Variable tz : Z.
Variable Date_parse : string -> Date.

(** X4: a transaction counts in the period exactly when its date and the
    start of the period are valid dates and its time is not before the
    start: a date that does not parse never counts, and with an invalid
    start nothing counts. *)
Theorem transactionsPeriod_In (transactions : list Transaction.t)
    (startOfPeriod : Date) (t : Transaction.t) :
  In t (transactionsPeriod Date_parse transactions startOfPeriod)
  <-> In t transactions
      /\ exists tv sv, Date_parse (Transaction.date t) = Some tv
                       /\ startOfPeriod = Some sv /\ sv <= tv.
Proof.
  unfold transactionsPeriod. rewrite filter_In, geb_timeNumber. reflexivity.
Qed.

(** The midnight of today, as the text [startOfDayStr] and as a time. *)
Lemma startOfDayStr_value (now : Z) :
  clockReading now -> YearFromTime now <= 9999 ->
  exists midnight,
    setHours0 tz (Some now) = Some midnight
    /\ startOfDayStr tz now = Some (isoString midnight)
    /\ 0 <= YearFromTime midnight <= 9999
    /\ LocalTime tz midnight = MakeDate (Day (LocalTime tz now)) 0
    /\ midnight <= now.
Proof.
  intros C Y.
  destruct (setHours0_spec tz now C) as (d & Hd & Ld & Rd).
  exists d. unfold startOfDayStr. rewrite Hd. repeat split; auto; try lia.
  - destruct C as [C0 C1]. pose proof (YearFromTime_epoch d). lia.
  - pose proof (YearFromTime_mono d now). lia.
Qed.

(** X5: with both readings of the clock on the same local day, every
    transaction that counts for today counts in the period, and when no
    amount is negative the gross of today is at most the total of the
    period. *)
Theorem today_within_period (now now1 : Z) (type : GoalType.t)
    (transactions : list Transaction.t) :
  clockReading now -> clockReading now1 -> YearFromTime now <= 9999 ->
  Day (LocalTime tz now1) = Day (LocalTime tz now) ->
  Log.stamped Date_parse now transactions ->
  exists start,
    startOfDayStr tz now = Some start
    /\ (forall t, In t (transactionsToday transactions start) ->
                  In t (transactionsPeriod Date_parse transactions
                          (getStartOfPeriod tz (Some now1) type)))
    /\ (Log.nonnegativeAmounts transactions ->
        exists g p : Q,
          toQ (grossToday transactions start) = Some g
          /\ toQ (periodTotal Date_parse transactions
                    (getStartOfPeriod tz (Some now1) type)) = Some p
          /\ (g <= p)%Q).
Proof.
  intros C C1 Y SameDay St.
  destruct (startOfDayStr_value now C Y) as (m & Hm & Hs & Ym & Lm & Rm).
  destruct (period_contains_now tz now1 type C1)
    as (sp & m1 & Hsp & Hm1 & (L1 & _) & _).
  assert (Em : m1 = m).
  { rewrite (setHours0_value tz now1 (clockReading_inRange now1 C1)) in Hm1.
    rewrite (setHours0_value tz now (clockReading_inRange now C)) in Hm.
    rewrite SameDay in Hm1. congruence. }
  subst m1. exists (isoString m). split; [exact Hs |].
  assert (Sub : forall t, In t transactions ->
            String.leb (isoString m) (Transaction.date t) = true ->
            geb (timeNumber (Date_parse (Transaction.date t)))
                (timeNumber (getStartOfPeriod tz (Some now1) type)) = true).
  { intros t Hin Hleb.
    unfold Log.stamped in St. rewrite Forall_forall in St.
    destruct (St t Hin) as (ts & Ed & Yt & _ & Hp).
    rewrite Ed, leb_isoString in Hleb by assumption.
    apply geb_timeNumber. exists ts, sp. repeat split; auto. lia. }
  split.
  - intros t Ht. apply transactionsToday_In in Ht. destruct Ht as [Hin Hleb].
    unfold transactionsPeriod. apply filter_In. split; auto.
  - intros NN.
    pose proof (nonnegative_finite _ NN) as F.
    destruct (sumAmounts_finite _
                (finiteAmounts_filter
                   (fun t => String.leb (isoString m) (Transaction.date t))
                   transactions F)) as (g & Hg & Eg).
    destruct (sumAmounts_finite _
                (finiteAmounts_filter
                   (fun t => geb (timeNumber
                                    (Date_parse (Transaction.date t)))
                               (timeNumber
                                  (getStartOfPeriod tz (Some now1) type)))
                   transactions F)) as (p & Hp & Ep).
    exists g, p. split; [exact Hg |]. split; [exact Hp |].
    rewrite Eg, Ep. now apply total_filter_le.
Qed.

(** X6: when no amount is negative the tips of today are at most the gross
    of today. *)
Theorem tips_at_most_gross (transactions : list Transaction.t)
    (start : string) :
  Log.nonnegativeAmounts transactions ->
  exists tp g : Q,
    toQ (tipsToday transactions start) = Some tp
    /\ toQ (grossToday transactions start) = Some g
    /\ (0 <= tp <= g)%Q.
Proof.
  intros NN. pose proof (nonnegative_finite _ NN) as F.
  set (today := transactionsToday transactions start).
  assert (NT : Log.nonnegativeAmounts today).
  { unfold Log.nonnegativeAmounts in *. rewrite Forall_forall in *.
    intros t Ht. apply NN. now apply transactionsToday_In in Ht. }
  pose proof (nonnegative_finite _ NT) as FT.
  destruct (sumAmounts_finite _ FT) as (g & Hg & Eg).
  destruct (sumAmounts_finite _ (finiteAmounts_filter isTip _ FT))
    as (tp & Htp & Etp).
  exists tp, g. unfold tipsToday, grossToday. fold today.
  split; [exact Htp |]. split; [exact Hg |].
  rewrite Etp, Eg. split.
  - pose proof (total_filter_le (fun _ => false) isTip today NT) as H.
    rewrite filter_none in H. apply H. intros t _ X. discriminate.
  - pose proof (total_filter_le isTip (fun _ => true) today NT) as H.
    rewrite filter_all in H. apply H. reflexivity.
Qed.

(** X7: a transaction appended by [handleTransaction] and stamped at or
    after the midnight of today counts for today at once: the gross of
    today grows by its amount, and the tips of today grow by it exactly when
    it was entered as a tip. *)
Theorem new_entry_counts (idClock dateClock midnight : Z)
    (modalType : PaymentType) (modalCategory : Category) (amount : number)
    (prev : AppData.t) :
  0 <= YearFromTime midnight <= 9999 ->
  0 <= YearFromTime dateClock <= 9999 ->
  midnight <= dateClock ->
  let next := handleTransaction idClock dateClock modalType modalCategory
                amount prev in
  let start := isoString midnight in
  grossToday (AppData.transactions next) start
  = add (grossToday (AppData.transactions prev) start) amount
  /\ tipsToday (AppData.transactions next) start
     = match modalCategory with
       | tip => add (tipsToday (AppData.transactions prev) start) amount
       | service => tipsToday (AppData.transactions prev) start
       end.
Proof.
  intros Ym Yd L next start. subst next start.
  unfold handleTransaction, grossToday, tipsToday, transactionsToday.
  cbn [AppData.transactions]. rewrite filter_app. cbn [filter Transaction.date].
  rewrite (proj2 (leb_isoString midnight dateClock Ym Yd) L).
  rewrite filter_app. cbn [filter]. unfold isTip at 2 4.
  cbn [Transaction.category].
  split; [apply sumAmounts_snoc |].
  destruct modalCategory.
  - now rewrite app_nil_r.
  - apply sumAmounts_snoc.
Qed.

End Totals.

Lemma today_within_period_witness :
  exists start,
    startOfDayStr Sample.zone Sample.noon = Some start
    /\ (forall t,
          In t (transactionsToday [Sample.haircut; Sample.gratuity] start) ->
          In t (transactionsPeriod parseISO
                  [Sample.haircut; Sample.gratuity]
                  (getStartOfPeriod Sample.zone (Some Sample.noon)
                     GoalType.weekly))).
Proof.
  assert (St : Log.stamped parseISO Sample.noon
                 [Sample.haircut; Sample.gratuity]).
  { constructor; [| constructor; [| constructor]].
    - exists 1709647200000. repeat split; vm_compute; congruence.
    - exists 1709650800000. repeat split; vm_compute; congruence. }
  assert (C : clockReading Sample.noon).
  { unfold clockReading, Sample.noon, maxTime, msPerDay. lia. }
  assert (Y : YearFromTime Sample.noon <= 9999)
    by (vm_compute; discriminate).
  pose proof (today_within_period Sample.zone parseISO Sample.noon
                Sample.noon GoalType.weekly
                [Sample.haircut; Sample.gratuity] C C Y eq_refl St) as H.
  destruct H as (start & H1 & H2 & _). exists start. split; assumption.
Defined.

Lemma tips_at_most_gross_witness :
  exists tp g : Q,
    toQ (tipsToday [Sample.haircut; Sample.gratuity]
           "2024-03-05T05:00:00.000Z") = Some tp
    /\ toQ (grossToday [Sample.haircut; Sample.gratuity]
              "2024-03-05T05:00:00.000Z") = Some g
    /\ (0 <= tp <= g)%Q.
Proof.
  apply (tips_at_most_gross [Sample.haircut; Sample.gratuity]
           "2024-03-05T05:00:00.000Z").
  constructor; [| constructor; [| constructor]].
  - exists (inject_Z 200). split; [reflexivity | vm_compute; discriminate].
  - exists (inject_Z 50). split; [reflexivity | vm_compute; discriminate].
Defined.

Lemma new_entry_counts_witness :
  grossToday
    (AppData.transactions
       (handleTransaction 1709658000000 1709658000000 cash tip (ofZ 5)
          emptyAppData))
    (isoString 1709614800000)
  = add (grossToday [] (isoString 1709614800000)) (ofZ 5).
Proof.
  apply (new_entry_counts 1709658000000 1709658000000 1709614800000 cash tip
           (ofZ 5) emptyAppData).
  - vm_compute. split; discriminate.
  - vm_compute. split; discriminate.
  - lia.
Defined.

End TotalsMore.

(* ================================================================== *)
(** ** Resetting the day, and today in the history *)
(* ================================================================== *)

Module DayFacts.

Import JSNumFacts DateFacts PeriodFacts IsoFacts SumFacts TodayFacts
  PeriodMore TotalsMore HistoryFacts DateStringFacts Engine Handlers Spec.
Open Scope Z_scope.

Section Day.

Variable tz : Z.
Variable Date_parse : string -> Date.

(** X8: a confirmed reset of the day removes from the log exactly the
    transactions that count for today and nothing else: afterwards nothing
    counts for today and the gross of today is 0, the user and the expenses
    are as before; a reset that is not confirmed changes nothing. *)
Theorem resetDay_clears_today (now : Z) (prev : AppData.t) :
  clockReading now ->
  exists start next,
    startOfDayStr tz now = Some start
    /\ resetDay tz true now prev = Some next
    /\ AppData.user next = AppData.user prev
    /\ AppData.expenses next = AppData.expenses prev
    /\ (forall t, In t (AppData.transactions next)
                  <-> In t (AppData.transactions prev)
                      /\ ~ In t (transactionsToday
                                   (AppData.transactions prev) start))
    /\ transactionsToday (AppData.transactions next) start = []
    /\ grossToday (AppData.transactions next) start = ofZ 0
    /\ resetDay tz false now prev = Some prev.
Proof.
  intros C. destruct (setHours0_spec tz now C) as (d & Hd & _).
  unfold startOfDayStr, resetDay. rewrite Hd. cbn [toISOString bind].
  do 2 eexists. split; [reflexivity |]. split; [reflexivity |].
  cbn [AppData.user AppData.expenses AppData.transactions].
  split; [reflexivity |]. split; [reflexivity |].
  assert (E : transactionsToday
                (filter (fun t => String.ltb (Transaction.date t)
                                    (isoString d))
                   (AppData.transactions prev)) (isoString d) = []).
  { unfold transactionsToday.
    induction (AppData.transactions prev) as [| t l IH]; simpl; auto.
    rewrite ltb_leb.
    destruct (String.leb (isoString d) (Transaction.date t)) eqn:L;
      simpl; auto.
    now rewrite L. }
  split; [| split; [exact E | split; [| reflexivity]]].
  - intros t. rewrite filter_In, transactionsToday_In, ltb_leb.
    destruct (String.leb (isoString d) (Transaction.date t)); simpl;
      intuition congruence.
  - unfold grossToday. rewrite E. reflexivity.
Qed.

(** The transactions of today are those that the history files under the
    day of [now], when no transaction is stamped after [now]. *)
Lemma today_is_onDay (now : Z) (transactions : list Transaction.t) :
  clockReading now -> YearFromTime now <= 9999 ->
  Log.stamped Date_parse now transactions ->
  exists start,
    startOfDayStr tz now = Some start
    /\ transactionsToday transactions start
       = onDay tz Date_parse (DateString (LocalTime tz now)) transactions.
Proof.
  intros C Y St.
  destruct (startOfDayStr_value tz now C Y) as (m & Hm & Hs & Ym & Lm & Rm).
  exists (isoString m). split; [exact Hs |].
  unfold transactionsToday, onDay. apply filter_ext_in.
  intros t Hin. unfold Log.stamped in St. rewrite Forall_forall in St.
  destruct (St t Hin) as (ts & Ed & Yt & Lt & Hp).
  unfold dayKey. rewrite Hp. cbn [toDateString]. rewrite Ed.
  assert (D : m <= ts <-> Day (LocalTime tz ts) = Day (LocalTime tz now)).
  { unfold LocalTime, MakeDate, Day, msPerDay in *. split; intros H; zdiv. }
  destruct (String.eqb_spec (DateString (LocalTime tz ts))
              (DateString (LocalTime tz now))) as [E | N].
  - apply leb_isoString; auto. apply D. now apply DateString_inj.
  - destruct (String.leb (isoString m) (isoString ts)) eqn:L; auto.
    exfalso. apply N. apply DateString_Day. apply D.
    now apply (leb_isoString m ts Ym Yt).
Qed.

(** X9: when no transaction is stamped after [now], the gross of today is
    the total of the entry of today in the history, and the transactions
    that count for today are as many as its count; without such an entry
    the gross of today is 0. *)
Theorem gross_is_history_of_today (now : Z)
    (transactions : list Transaction.t) :
  clockReading now -> YearFromTime now <= 9999 ->
  Log.stamped Date_parse now transactions ->
  exists start,
    startOfDayStr tz now = Some start
    /\ (forall e,
          In e (historyList tz Date_parse transactions) ->
          DaySummary.dateStr e = DateString (LocalTime tz now) ->
          DaySummary.total e = grossToday transactions start
          /\ DaySummary.count e
             = Z.of_nat (List.length (transactionsToday transactions start)))
    /\ ((forall e, In e (historyList tz Date_parse transactions) ->
                   DaySummary.dateStr e <> DateString (LocalTime tz now)) ->
        grossToday transactions start = ofZ 0).
Proof.
  intros C Y St.
  destruct (today_is_onDay now transactions C Y St) as (start & Hs & E).
  exists start. split; [exact Hs |].
  destruct (grouped_groupedFor tz Date_parse transactions) as (ND & HK & HS).
  split.
  - intros e He Hk. apply historyList_In in He. destruct He as (k & He).
    destruct (HS k e He) as (H1 & H2 & H3 & _).
    unfold grossToday. rewrite E, <- Hk, H1. auto.
  - intros Hno. unfold grossToday. rewrite E.
    destruct (onDay tz Date_parse (DateString (LocalTime tz now))
                transactions) as [| t l] eqn:O; [reflexivity |].
    exfalso.
    assert (Ht : In t (onDay tz Date_parse (DateString (LocalTime tz now))
                         transactions)) by (rewrite O; now left).
    unfold onDay in Ht. apply filter_In in Ht. destruct Ht as [Hin Hk].
    apply String.eqb_eq in Hk.
    assert (Hkey : In (DateString (LocalTime tz now))
                     (map fst (grouped tz Date_parse transactions))).
    { apply HK. eauto. }
    apply in_map_iff in Hkey. destruct Hkey as ([k e] & Ek & Hin').
    cbn in Ek. subst k.
    apply (Hno e).
    + apply historyList_In. eauto.
    + now destruct (HS _ _ Hin') as (H1 & _).
Qed.

End Day.

Lemma resetDay_clears_today_witness :
  exists start next,
    startOfDayStr Sample.zone Sample.noon = Some start
    /\ resetDay Sample.zone true Sample.noon
         (AppData.mk None [Sample.monday1; Sample.haircut] []) = Some next
    /\ transactionsToday (AppData.transactions next) start = [].
Proof.
  destruct (resetDay_clears_today Sample.zone Sample.noon
              (AppData.mk None [Sample.monday1; Sample.haircut] []))
    as (start & next & H1 & H2 & _ & _ & _ & H6 & _).
  - unfold clockReading, Sample.noon, maxTime, msPerDay. lia.
  - exists start, next. auto.
Defined.

Lemma gross_is_history_of_today_witness :
  exists start,
    startOfDayStr Sample.zone Sample.noon = Some start
    /\ (forall e,
          In e (historyList Sample.zone parseISO
                  [Sample.monday1; Sample.haircut; Sample.gratuity]) ->
          DaySummary.dateStr e
          = DateString (LocalTime Sample.zone Sample.noon) ->
          DaySummary.total e
          = grossToday [Sample.monday1; Sample.haircut; Sample.gratuity]
              start
          /\ DaySummary.count e
             = Z.of_nat
                 (List.length
                    (transactionsToday
                       [Sample.monday1; Sample.haircut; Sample.gratuity]
                       start))).
Proof.
  assert (St : Log.stamped parseISO Sample.noon
                 [Sample.monday1; Sample.haircut; Sample.gratuity]).
  { constructor; [| constructor; [| constructor; [| constructor]]].
    - exists 1709560800000. repeat split; vm_compute; congruence.
    - exists 1709647200000. repeat split; vm_compute; congruence.
    - exists 1709650800000. repeat split; vm_compute; congruence. }
  assert (C : clockReading Sample.noon).
  { unfold clockReading, Sample.noon, maxTime, msPerDay. lia. }
  assert (Y : YearFromTime Sample.noon <= 9999)
    by (vm_compute; discriminate).
  pose proof (gross_is_history_of_today Sample.zone parseISO Sample.noon
                [Sample.monday1; Sample.haircut; Sample.gratuity] C Y St)
    as H.
  destruct H as (start & H1 & H2 & _). exists start. split; assumption.
Defined.

End DayFacts.

(* ================================================================== *)
(** ** The handlers *)
(* ================================================================== *)

Module HandlersFacts.

Import JSNumFacts SumFacts Engine Handlers Shop Spec.
Open Scope Z_scope.

#[local] Arguments Qred : simpl never.

Lemma filter_id_absent (id : Z) (l : list Expense.t) :
  ~ In id (map Expense.id l) ->
  filter (fun e => negb (Expense.id e =? id)) l = l.
Proof.
  induction l as [| e l IH]; simpl; intros H; auto.
  destruct (Z.eqb_spec (Expense.id e) id) as [E | N]; simpl.
  - exfalso. apply H. now left.
  - rewrite IH; auto.
Qed.

(** X10: removing an expense removes every expense with that identifier
    and no other, in the order of the list; the user and the transactions
    stay; removing an identifier that no expense has, or removing twice,
    changes nothing more. *)
Theorem removeExpense_spec (id : Z) (prev : AppData.t) :
  (forall e, In e (AppData.expenses (removeExpense id prev))
             <-> In e (AppData.expenses prev) /\ Expense.id e <> id)
  /\ AppData.user (removeExpense id prev) = AppData.user prev
  /\ AppData.transactions (removeExpense id prev)
     = AppData.transactions prev
  /\ (~ In id (expenseIds prev) -> removeExpense id prev = prev)
  /\ removeExpense id (removeExpense id prev) = removeExpense id prev.
Proof.
  split; [| split; [| split; [| split]]]; try reflexivity.
  - intros e. unfold removeExpense. cbn [AppData.expenses].
    rewrite filter_In. destruct (Z.eqb_spec (Expense.id e) id); simpl;
      intuition congruence.
  - intros H. unfold removeExpense. rewrite filter_id_absent by exact H.
    now destruct prev.
  - unfold removeExpense. cbn [AppData.user AppData.transactions
                                AppData.expenses].
    f_equal. rewrite filter_id_absent; auto.
    intros Hin. apply in_map_iff in Hin. destruct Hin as (e & E & Hin).
    apply filter_In in Hin. destruct Hin as [_ Hn].
    rewrite E, Z.eqb_refl in Hn. discriminate.
Qed.

Lemma removeExpense_spec_witness :
  removeExpense 7 (AppData.mk None [] [Sample.chairRental; Sample.supplies])
  = AppData.mk None [] [Sample.chairRental; Sample.supplies].
Proof.
  pose proof (removeExpense_spec 7
                (AppData.mk None [] [Sample.chairRental; Sample.supplies]))
    as (_ & _ & _ & H & _).
  apply H. cbn. intros [E | [E | []]]; discriminate.
Defined.

Section Forms.

Variable parseFloat : string -> number.

#[local] Abbreviation addExpense := (addExpense parseFloat).
#[local] Abbreviation handleSubmit := (handleSubmit parseFloat).
#[local] Abbreviation saveChanges := (saveChanges parseFloat).
#[local] Abbreviation confirm := (confirm parseFloat).
#[local] Abbreviation act := (act parseFloat).
#[local] Abbreviation run := (run parseFloat).

Lemma isEmpty_false (s : string) : s <> ""%string -> isEmpty s = false.
Proof. intros H. unfold isEmpty. now destruct (String.eqb_spec s ""). Qed.

(** X11: an expense that is added with an identifier that no expense has
    yet is removed again by [removeExpense] of that identifier, which gives
    back the snapshot from before. *)
Theorem addExpense_removeExpense (clock : Z) (form : ExpenseForm.t)
    (prev : AppData.t) :
  ~ In clock (expenseIds prev) ->
  removeExpense clock (snd (addExpense clock form prev)) = prev.
Proof.
  intros H. unfold Handlers.addExpense.
  destruct (isEmpty (ExpenseForm.expName form)
            || isEmpty (ExpenseForm.expAmount form)); cbn [snd].
  - unfold removeExpense. rewrite filter_id_absent by exact H.
    now destruct prev.
  - unfold removeExpense. cbn [AppData.user AppData.transactions
                                AppData.expenses].
    rewrite filter_app, filter_id_absent by exact H.
    cbn [filter Expense.id]. rewrite Z.eqb_refl. cbn [negb].
    rewrite app_nil_r. now destruct prev.
Qed.



(** X13: the onboarding sets no user while the name or the amount is
    empty.  Otherwise it sets the user with the goal parsed from the amount
    and a simulator value of 0, and leaves the transactions and the expenses
    as they are; saving the settings with the same name, amount and type of
    goal right after it changes nothing. *)
Theorem handleSubmit_spec (name amount : string) (goalType : GoalType.t)
    (data : AppData.t) :
  (name = ""%string \/ amount = ""%string ->
   handleSubmit name amount goalType data = data)
  /\ (name <> ""%string -> amount <> ""%string ->
      let next := handleSubmit name amount goalType data in
      AppData.user next
      = Some (UserData.mk name goalType (parseFloat amount) (ofZ 0))
      /\ AppData.transactions next = AppData.transactions data
      /\ AppData.expenses next = AppData.expenses data
      /\ saveChanges name amount goalType next = Some (next, false)).
Proof.
  split.
  - intros H. unfold Handlers.handleSubmit.
    destruct H as [-> | ->]; cbn [isEmpty String.eqb orb];
      [| rewrite orb_true_r]; reflexivity.
  - intros Hn Ha next. subst next.
    unfold Handlers.handleSubmit, Handlers.saveChanges.
    rewrite (isEmpty_false _ Hn), (isEmpty_false _ Ha). cbn [orb].
    repeat split.
Qed.

(** X14: a button of the fast entry followed by the button of the entry
    form appends one transaction of the payment type and the category of
    the button (the service, unless it is the tip button), with the amount
    parsed from the text, and closes the form; the transaction counts as a
    tip exactly when it was entered through the tip button.  With an empty
    text nothing is appended and the form stays open. *)
Theorem confirm_spec (idClock dateClock : Z) (val : string)
    (type : PaymentType) (category : option Category) (prev : AppData.t) :
  let m := openTransactionModal type category in
  (val = ""%string -> confirm idClock dateClock val m prev = (m, prev))
  /\ (val <> ""%string ->
      let r := confirm idClock dateClock val m prev in
      exists newTx,
        AppData.transactions (snd r) = AppData.transactions prev ++ [newTx]
        /\ newTx
           = Transaction.mk idClock (parseFloat val) type
               (Some (match category with Some c => c | None => service end))
               (isoString dateClock)
        /\ isTip newTx
           = match category with Some tip => true | _ => false end
        /\ Modal.modalOpen (fst r) = false
        /\ AppData.user (snd r) = AppData.user prev
        /\ AppData.expenses (snd r) = AppData.expenses prev).
Proof.
  intros m. split.
  - intros ->. reflexivity.
  - intros Hv r. subst r m. unfold Handlers.confirm.
    rewrite (isEmpty_false _ Hv). cbn [negb fst snd].
    eexists. split; [reflexivity |]. split; [reflexivity |].
    destruct category as [[|] |]; repeat split.
Qed.

(** X15: saving the settings with a name and an amount sets the name, the
    type of the goal and its amount, parsed from the text, and closes the
    settings; the simulator value, the transactions and the expenses stay.
    The order of a save and a move of the simulator does not matter, and of
    two saves the last one wins.  With an empty name or amount nothing is
    saved and the settings stay open. *)
Theorem saveChanges_spec (name amount : string) (goalType : GoalType.t)
    (prev : AppData.t) (user : UserData.t) :
  AppData.user prev = Some user ->
  (name = ""%string \/ amount = ""%string ->
   saveChanges name amount goalType prev = Some (prev, true))
  /\ (name <> ""%string -> amount <> ""%string ->
      exists d,
        saveChanges name amount goalType prev = Some (d, false)
        /\ AppData.user d
           = Some (UserData.mk name goalType (parseFloat amount)
                     (UserData.simulatorValue user))
        /\ AppData.transactions d = AppData.transactions prev
        /\ AppData.expenses d = AppData.expenses prev
        /\ (forall val,
              handleSimulatorChange val d
              = bind (handleSimulatorChange val prev) (fun d' =>
                  bind (saveChanges name amount goalType d') (fun r =>
                    Some (fst r))))
        /\ (forall name' amount' goalType',
              name' <> ""%string -> amount' <> ""%string ->
              saveChanges name' amount' goalType' d
              = saveChanges name' amount' goalType' prev)).
Proof.
  intros U. split.
  - unfold Handlers.saveChanges.
    intros [-> | ->]; cbn [isEmpty String.eqb negb andb];
      [| rewrite andb_false_r]; reflexivity.
  - intros Hn Ha. eexists. split; [| split; [| split; [| split; [| split]]]].
    + unfold Handlers.saveChanges.
      rewrite (isEmpty_false _ Hn), (isEmpty_false _ Ha).
      cbn [negb andb]. unfold handleUpdateUser. rewrite U. reflexivity.
    + reflexivity.
    + reflexivity.
    + reflexivity.
    + intros val. unfold handleSimulatorChange, handleUpdateUser.
      rewrite U. cbn [AppData.user bind]. unfold Handlers.saveChanges.
      rewrite (isEmpty_false _ Hn), (isEmpty_false _ Ha).
      reflexivity.
    + intros name' amount' goalType' Hn' Ha'. unfold Handlers.saveChanges.
      rewrite (isEmpty_false _ Hn'), (isEmpty_false _ Ha').
      cbn [negb andb]. unfold handleUpdateUser. rewrite U. reflexivity.
Qed.

Lemma act_user (a : Action) (prev d : AppData.t) :
  act a prev = Some d -> AppData.user prev <> None ->
  AppData.user d <> None.
Proof.
  destruct a; cbn [Handlers.act]; intros H U.
  - injection H as <-. unfold Handlers.confirm.
    destruct (negb (isEmpty val)); exact U.
  - injection H as <-. unfold Handlers.addExpense.
    destruct (isEmpty _ || isEmpty _); exact U.
  - injection H as <-. exact U.
  - unfold resetDay in H. destruct confirmed.
    + destruct (toISOString _); cbn [bind] in H; [| discriminate].
      injection H as <-. exact U.
    + injection H as <-. exact U.
  - unfold Handlers.saveChanges, handleUpdateUser in H.
    destruct (negb (isEmpty name) && negb (isEmpty amount)).
    + destruct (AppData.user prev); [| contradiction].
      cbn [bind fst] in H. injection H as <-. discriminate.
    + cbn [bind fst] in H. injection H as <-. exact U.
  - unfold handleSimulatorChange, handleUpdateUser in H.
    destruct (AppData.user prev); [| contradiction].
    injection H as <-. discriminate.
Qed.

Lemma act_defined (a : Action) (prev : AppData.t) :
  AppData.user prev <> None ->
  match a with ResetDay _ _ now => Period.inRange now | _ => True end ->
  exists d, act a prev = Some d.
Proof.
  intros U R. destruct a; cbn [Handlers.act]; eauto.
  - unfold resetDay. destruct confirmed; eauto.
    rewrite (PeriodMore.setHours0_value tz now R). cbn [toISOString bind].
    eauto.
  - unfold Handlers.saveChanges, handleUpdateUser.
    destruct (negb (isEmpty name) && negb (isEmpty amount)).
    + destruct (AppData.user prev); [| contradiction]. cbn [bind]. eauto.
    + cbn [bind]. eauto.
  - unfold handleSimulatorChange, handleUpdateUser.
    destruct (AppData.user prev); [| contradiction]. eauto.
Qed.

(** X16: once a user is set, every run of actions of the dashboard gives a
    snapshot, in which a user is still set: the assertion [prev.user!] of
    the handlers never meets [null], and the only exception, that of
    [toISOString], is not raised while the clock gives time values from
    which a day can be stepped back. *)
Theorem run_keeps_user (actions : list Action) (prev : AppData.t) :
  AppData.user prev <> None -> resetsInRange actions ->
  exists d, run actions prev = Some d /\ AppData.user d <> None.
Proof.
  revert prev. induction actions as [| a rest IH]; intros prev U R.
  - exists prev. split; [reflexivity | exact U].
  - inversion R as [| ? ? Ra Rrest]; subst.
    destruct (act_defined a prev U Ra) as (d1 & E1).
    destruct (IH d1 (act_user a prev d1 E1 U) Rrest) as (d & E & Ud).
    exists d. cbn [Handlers.run]. rewrite E1. cbn [bind]. auto.
Qed.

Lemma act_transactions (a : Action) (prev d : AppData.t) :
  act a prev = Some d -> isReset a = false ->
  exists l,
    AppData.transactions d = AppData.transactions prev ++ l
    /\ List.length l = List.length (confirmsOf [a]).
Proof.
  destruct a; cbn [Handlers.act isReset confirmsOf filter]; intros H Rz.
  - injection H as <-. unfold Handlers.confirm.
    destruct (negb (isEmpty val)); cbn [snd].
    + eexists. split; [reflexivity | reflexivity].
    + exists []. now rewrite app_nil_r.
  - injection H as <-. exists []. rewrite app_nil_r.
    unfold Handlers.addExpense. now destruct (isEmpty _ || isEmpty _).
  - injection H as <-. exists []. now rewrite app_nil_r.
  - subst confirmed. injection H as <-. exists []. now rewrite app_nil_r.
  - exists []. rewrite app_nil_r.
    unfold Handlers.saveChanges, handleUpdateUser in H.
    destruct (negb (isEmpty name) && negb (isEmpty amount)).
    + destruct (AppData.user prev); cbn [bind fst] in H; [| discriminate].
      now injection H as <-.
    + cbn [bind fst] in H. now injection H as <-.
  - exists []. rewrite app_nil_r.
    unfold handleSimulatorChange, handleUpdateUser in H.
    destruct (AppData.user prev); [| discriminate]. now injection H as <-.
Qed.

(** X17: in a run without a confirmed reset of the day the log only grows
    at its end: the transactions from before stay at the front, in their
    order, and one transaction is added for each entry confirmed with a
    text that is not empty. *)
Theorem run_log_grows (actions : list Action) (prev d : AppData.t) :
  run actions prev = Some d ->
  forallb (fun a => negb (isReset a)) actions = true ->
  exists l,
    AppData.transactions d = AppData.transactions prev ++ l
    /\ List.length l = List.length (confirmsOf actions).
Proof.
  revert prev. induction actions as [| a rest IH]; intros prev H R.
  - injection H as <-. exists []. now rewrite app_nil_r.
  - cbn [forallb] in R. apply andb_true_iff in R. destruct R as [Ra Rr].
    apply negb_true_iff in Ra. cbn [Handlers.run] in H.
    destruct (act a prev) as [d1 |] eqn:E1; cbn [bind] in H;
      [| discriminate].
    destruct (act_transactions a prev d1 E1 Ra) as (l1 & T1 & L1).
    destruct (IH d1 H Rr) as (l & T & L).
    exists (l1 ++ l). split.
    + rewrite T, T1, app_assoc. reflexivity.
    + rewrite length_app, L1, L. unfold confirmsOf. cbn [filter].
      destruct a as [? ? val ? | | | | |]; try reflexivity.
      destruct (negb (isEmpty val)); reflexivity.
Qed.

Lemma act_expenses (a : Action) (prev d : AppData.t) (e : Expense.t) :
  act a prev = Some d -> In e (AppData.expenses d) ->
  In e (AppData.expenses prev)
  \/ exists clock form,
       a = AddExpense clock form
       /\ e = Expense.mk clock (ExpenseForm.expName form)
               (parseFloat (ExpenseForm.expAmount form))
               (ExpenseForm.expFreq form).
Proof.
  destruct a; cbn [Handlers.act]; intros H I.
  - injection H as <-. left. unfold Handlers.confirm in I.
    now destruct (negb (isEmpty val)).
  - injection H as <-. unfold Handlers.addExpense in I.
    destruct (isEmpty _ || isEmpty _); cbn [snd AppData.expenses] in I.
    + now left.
    + apply in_app_or in I. destruct I as [I | [<- | []]]; [now left |].
      right. eauto.
  - injection H as <-. left. cbn [removeExpense AppData.expenses] in I.
    apply filter_In in I. tauto.
  - left. unfold resetDay in H. destruct confirmed.
    + destruct (toISOString _); cbn [bind] in H; [| discriminate].
      now injection H as <-.
    + now injection H as <-.
  - left. unfold Handlers.saveChanges, handleUpdateUser in H.
    destruct (negb (isEmpty name) && negb (isEmpty amount)).
    + destruct (AppData.user prev); cbn [bind fst] in H; [| discriminate].
      now injection H as <-.
    + cbn [bind fst] in H. now injection H as <-.
  - left. unfold handleSimulatorChange, handleUpdateUser in H.
    destruct (AppData.user prev); [| discriminate]. now injection H as <-.
Qed.

(** X18: every fixed expense after a run was there before the run or was
    added by an action of the run, with that action's clock as identifier
    and the amount parsed from its form: no other action makes or changes
    an expense. *)
Theorem run_expenses (actions : list Action) (prev d : AppData.t)
    (e : Expense.t) :
  run actions prev = Some d -> In e (AppData.expenses d) ->
  In e (AppData.expenses prev)
  \/ exists clock form,
       In (AddExpense clock form) actions
       /\ e = Expense.mk clock (ExpenseForm.expName form)
               (parseFloat (ExpenseForm.expAmount form))
               (ExpenseForm.expFreq form).
Proof.
  revert prev. induction actions as [| a rest IH]; intros prev H I.
  - injection H as <-. now left.
  - cbn [Handlers.run] in H.
    destruct (act a prev) as [d1 |] eqn:E1; cbn [bind] in H;
      [| discriminate].
    destruct (IH d1 H I) as [I1 | (c & f & In1 & Ee)].
    + destruct (act_expenses a prev d1 e E1 I1) as [I0 | (c & f & -> & Ee)].
      * now left.
      * right. exists c, f. split; [now left | exact Ee].
    + right. exists c, f. split; [now right | exact Ee].
Qed.

End Forms.

Lemma addExpense_removeExpense_witness :
  removeExpense 3 (snd (addExpense parseWhole 3 waxForm twoExpenses))
  = twoExpenses.
Proof.
  apply (addExpense_removeExpense parseWhole 3 waxForm twoExpenses).
  cbn. intros [E | [E | []]]; discriminate.
Defined.


Lemma handleSubmit_spec_witness :
  AppData.user (handleSubmit parseWhole "Ana" "500" GoalType.weekly
                  emptyAppData)
  = Some (UserData.mk "Ana" GoalType.weekly (ofZ 500) (ofZ 0)).
Proof.
  pose proof (handleSubmit_spec parseWhole "Ana" "500" GoalType.weekly
                emptyAppData) as (_ & H).
  cbv zeta in H.
  destruct (H ltac:(discriminate) ltac:(discriminate)) as (E & _).
  exact E.
Defined.

Lemma saveChanges_spec_witness :
  exists d,
    saveChanges parseWhole "Ana" "650" GoalType.monthly ana = Some (d, false)
    /\ AppData.user d
       = Some (UserData.mk "Ana" GoalType.monthly (ofZ 650) (ofZ 0)).
Proof.
  pose proof (saveChanges_spec parseWhole "Ana" "650" GoalType.monthly ana
                (UserData.mk "Ana" GoalType.weekly (ofZ 500) (ofZ 0))
                eq_refl) as (_ & H).
  destruct (H ltac:(discriminate) ltac:(discriminate))
    as (d & E & U & _).
  exists d. exact (conj E U).
Defined.

Lemma confirm_spec_witness :
  exists newTx,
    AppData.transactions
      (snd (confirm parseWhole 1709658000003 1709658000004 "5" tipButton
              ana))
    = AppData.transactions ana ++ [newTx]
    /\ newTx
       = Transaction.mk 1709658000003 (ofZ 5) cash (Some tip)
           "2024-03-05T17:00:00.004Z"
    /\ isTip newTx = true.
Proof.
  pose proof (confirm_spec parseWhole 1709658000003 1709658000004 "5" cash
                (Some tip) ana) as H.
  cbv zeta in H. destruct H as (_ & H).
  destruct (H ltac:(discriminate)) as (newTx & T & E & I & _).
  exists newTx. exact (conj T (conj E I)).
Defined.

Lemma run_keeps_user_witness :
  exists d, run parseWhole morning ana = Some d /\ AppData.user d <> None.
Proof.
  apply (run_keeps_user parseWhole morning ana).
  - discriminate.
  - unfold resetsInRange, morning.
    repeat (apply Forall_cons; [try exact I |]); try apply Forall_nil.
    unfold Period.inRange, Sample.noon, maxTime, msPerDay. lia.
Defined.

Lemma run_log_grows_witness :
  exists l,
    AppData.transactions
      (AppData.mk
         (Some (UserData.mk "Ana" GoalType.monthly (ofZ 650) (ofZ 5)))
         [Sample.haircut;
          Transaction.mk 1709658000000 (ofZ 35) cash (Some service)
            "2024-03-05T17:00:00.001Z"]
         [Sample.chairRental;
          Expense.mk 1709658000002 "Wax" (ofZ 12) Frequency.daily])
    = AppData.transactions ana ++ l
    /\ List.length l = List.length (confirmsOf morning).
Proof.
  apply (run_log_grows parseWhole morning ana).
  - vm_compute. reflexivity.
  - reflexivity.
Defined.

Lemma run_expenses_witness :
  In (Expense.mk 1709658000002 "Wax" (ofZ 12) Frequency.daily)
    (AppData.expenses ana)
  \/ exists clock form,
       In (AddExpense clock form) morning
       /\ Expense.mk 1709658000002 "Wax" (ofZ 12) Frequency.daily
          = Expense.mk clock (ExpenseForm.expName form)
              (parseWhole (ExpenseForm.expAmount form))
              (ExpenseForm.expFreq form).
Proof.
  apply (run_expenses parseWhole morning ana
           (AppData.mk
              (Some (UserData.mk "Ana" GoalType.monthly (ofZ 650) (ofZ 5)))
              [Sample.haircut;
               Transaction.mk 1709658000000 (ofZ 35) cash (Some service)
                 "2024-03-05T17:00:00.001Z"]
              [Sample.chairRental;
               Expense.mk 1709658000002 "Wax" (ofZ 12) Frequency.daily])).
  - vm_compute. reflexivity.
  - cbn. right. left. reflexivity.
Defined.

End HandlersFacts.

(* ================================================================== *)
(** ** What the dashboard shows *)
(* ================================================================== *)

Module DisplayFacts.

Import JSNumFacts GoalFacts Engine Handlers Display Shop.
Open Scope Q_scope.

#[local] Arguments Qred : simpl never.

Lemma round_finite (a : number) (p : Q) :
  toQ a = Some p -> toQ (round a) = Some (inject_Z (Qfloor (p + (1 # 2)))).
Proof.
  destruct a; cbn [toQ round]; intros Ha; inversion Ha; subst;
    try reflexivity.
  cbv zeta. destruct (Z.eqb_spec (Qfloor (p + (1 # 2))) 0) as [E | E].
  - rewrite E. unfold zero. destruct (negative (Fin p)); reflexivity.
  - reflexivity.
Qed.

Lemma mul_not_NaN (a : number) (k : Z) :
  isNaN a = false -> (k <> 0)%Z -> isNaN (mul a (ofZ k)) = false.
Proof.
  intros Ha Hk.
  assert (isZero (ofZ k) = false) as Z0.
  { cbn [isZero ofZ].
    destruct (Qeq_bool_spec (inject_Z k) 0) as [E | E]; auto.
    exfalso. apply Hk. unfold Qeq in E. cbn in E. lia. }
  unfold mul. rewrite Ha, Z0.
  change (isNaN (ofZ k)) with false. change (isInf (ofZ k)) with false.
  rewrite !andb_false_r, orb_false_r. cbn [orb].
  destruct (isInf a).
  - unfold inf. destruct (xorb _ _); reflexivity.
  - unfold mkFin, zero. destruct (Qeq_bool _ _); [| reflexivity].
    destruct (xorb _ _); reflexivity.
Qed.

(** X23: the value of the raise simulator and the yearly profit that is
    shown for it are never [NaN], whatever number is stored for the
    simulator. *)
Theorem simulator_never_NaN (user : UserData.t) :
  isNaN (simValue user) = false
  /\ isNaN (extraYearlyProfit (simValue user)) = false.
Proof.
  assert (isNaN (simValue user) = false) as S.
  { unfold simValue, orZero.
    destruct (UserData.simulatorValue user) as [q | | | |]; cbn;
      try reflexivity.
    destruct (Qeq_bool q 0); reflexivity. }
  split; [exact S |].
  unfold extraYearlyProfit. apply mul_not_NaN; [| discriminate].
  apply mul_not_NaN; [exact S | discriminate].
Qed.

(** X24: after the slider of the simulator is moved to the whole number
    [v], the simulator shows [v] and a yearly profit of 1300 times [v]; the
    rest of the snapshot is as before. *)
Theorem simulator_slider (v : Z) (prev : AppData.t) (user : UserData.t) :
  AppData.user prev = Some user ->
  exists (d : AppData.t) (u : UserData.t) (q : Q),
    handleSimulatorChange (ofZ v) prev = Some d
    /\ AppData.user d = Some u
    /\ toQ (simValue u) = Some (inject_Z v)
    /\ toQ (extraYearlyProfit (simValue u)) = Some q
    /\ q == inject_Z (1300 * v)
    /\ UserData.name u = UserData.name user
    /\ UserData.goalType u = UserData.goalType user
    /\ UserData.goalAmount u = UserData.goalAmount user
    /\ AppData.transactions d = AppData.transactions prev
    /\ AppData.expenses d = AppData.expenses prev.
Proof.
  intros U. unfold handleSimulatorChange, handleUpdateUser. rewrite U.
  assert (toQ (simValue (mergeUser user
                           (UserUpdates.mk None None None (Some (ofZ v)))))
          = Some (inject_Z v)) as S.
  { unfold simValue, orZero. cbn [mergeUser UserData.simulatorValue orElse
                                   UserUpdates.simulatorValue isNaN ofZ orb
                                   isZero].
    destruct (Qeq_bool_spec (inject_Z v) 0) as [E | E]; [| reflexivity].
    cbn. f_equal. unfold Qeq in E. cbn in E.
    assert (v = 0%Z) as -> by lia. reflexivity. }
  destruct (mul_finite _ _ _ _ S (toQ_ofZ 5)) as (a & Ha & Ea).
  destruct (mul_finite _ _ _ _ Ha (toQ_ofZ 260)) as (b & Hb & Eb).
  eexists _, _, b. split; [reflexivity |]. split; [reflexivity |].
  split; [exact S |]. split; [exact Hb |].
  split; [| repeat split].
  rewrite Eb, Ea, <- !inject_Z_mult. f_equal.
  replace (1300 * v)%Z with (v * 5 * 260)%Z by lia. reflexivity.
Qed.

Lemma simulator_slider_witness :
  exists (d : AppData.t) (u : UserData.t) (q : Q),
    handleSimulatorChange (ofZ 5) ana = Some d
    /\ AppData.user d = Some u
    /\ toQ (simValue u) = Some (inject_Z 5)
    /\ toQ (extraYearlyProfit (simValue u)) = Some q
    /\ q == inject_Z (1300 * 5)
    /\ UserData.name u = "Ana"%string
    /\ UserData.goalType u = GoalType.weekly
    /\ UserData.goalAmount u = ofZ 500
    /\ AppData.transactions d = AppData.transactions ana
    /\ AppData.expenses d = AppData.expenses ana.
Proof.
  exact (simulator_slider 5 ana
           (UserData.mk "Ana" GoalType.weekly (ofZ 500) (ofZ 0)) eq_refl).
Defined.

End DisplayFacts.

(* ================================================================== *)
(** ** Loading a stored record *)
(* ================================================================== *)

Module LoadFacts.

Import Storage Records.

Lemma field_setField (k k' : string) (v : JSValue)
    (fs : list (string * JSValue)) :
  field k (setField k' v fs) = if String.eqb k' k then v else field k fs.
Proof.
  induction fs as [| [k0 w] fs IH]; cbn [setField field].
  - destruct (String.eqb k' k); reflexivity.
  - destruct (String.eqb_spec k0 k') as [-> | N]; cbn [field].
    + destruct (String.eqb k' k); reflexivity.
    + rewrite IH. destruct (String.eqb_spec k0 k) as [-> | N']; auto.
      destruct (String.eqb_spec k' k) as [-> | _]; [contradiction | auto].
Qed.

Section Load.

Variable JSON_parse : string -> option JSValue.

#[local] Abbreviation getInitialData := (getInitialData JSON_parse).

(** X25: a stored record whose user is an object is loaded as it is when
    the user has a simulator value; when it has none, the simulator value
    of the user is set to 0 and every other member of the user and of the
    record reads as it was stored. *)
Theorem getInitialData_simulator (s : string)
    (fs ufs : list (string * JSValue)) :
  s <> ""%string -> JSON_parse s = Some (JObject fs) ->
  field "user" fs = JObject ufs ->
  (isUndefined (field "simulatorValue" ufs) = false ->
   getInitialData true (Some s) = JObject fs)
  /\ (field "simulatorValue" ufs = JUndefined ->
      exists fs' ufs',
        getInitialData true (Some s) = JObject fs'
        /\ field "user" fs' = JObject ufs'
        /\ field "simulatorValue" ufs' = JNumber (ofZ 0)
        /\ (forall k, k <> "simulatorValue"%string ->
                      field k ufs' = field k ufs)
        /\ (forall k, k <> "user"%string -> field k fs' = field k fs)).
Proof.
  intros Hs P U.
  assert (forall r, tryParse JSON_parse s = Some r ->
                    getInitialData true (Some s) = r) as G.
  { intros r E. unfold Storage.getInitialData. cbn [negb].
    destruct (String.eqb_spec s "") as [-> | _]; [contradiction |].
    cbn [negb]. now rewrite E. }
  split.
  - intros D. apply G. unfold tryParse. rewrite P. cbn [bind getProp].
    rewrite U. cbn [truthy getProp bind]. now rewrite D.
  - intros D.
    exists (setField "user"
              (JObject (setField "simulatorValue" (JNumber (ofZ 0)) ufs))
              fs),
           (setField "simulatorValue" (JNumber (ofZ 0)) ufs).
    split; [| split; [| split; [| split]]].
    + apply G. unfold tryParse. rewrite P. cbn [bind getProp].
      rewrite U. cbn [truthy getProp bind]. rewrite D.
      reflexivity.
    + rewrite field_setField. reflexivity.
    + rewrite field_setField. reflexivity.
    + intros k N. rewrite field_setField.
      destruct (String.eqb_spec "simulatorValue" k) as [<- | _];
        [contradiction | reflexivity].
    + intros k N. rewrite field_setField.
      destruct (String.eqb_spec "user" k) as [<- | _];
        [contradiction | reflexivity].
Qed.

(** X26: a stored text that parses to [null], or to a value whose user is
    a boolean, a number or a string that counts as true, is loaded as the
    empty snapshot: the [TypeError] of the access is caught. *)
Theorem getInitialData_TypeError (s : string) (v : JSValue) :
  s <> ""%string -> JSON_parse s = Some v ->
  v = JNull
  \/ (exists u, getProp v "user" = Some u
                /\ truthy u = true /\ primitive u = true) ->
  getInitialData true (Some s) = emptyData.
Proof.
  intros Hs P C. unfold Storage.getInitialData. cbn [negb].
  destruct (String.eqb_spec s "") as [-> | _]; [contradiction |].
  cbn [negb]. unfold tryParse. rewrite P. cbn [bind].
  destruct C as [-> | (u & U & T & R)]; [reflexivity |].
  rewrite U. cbn [bind]. rewrite T.
  destruct u; try discriminate; reflexivity.
Qed.

End Load.

Lemma getInitialData_simulator_witness :
  exists fs' ufs',
    getInitialData parseJSON true (Some userWithoutSimulator) = JObject fs'
    /\ field "user" fs' = JObject ufs'
    /\ field "simulatorValue" ufs' = JNumber (ofZ 0)
    /\ (forall k, k <> "simulatorValue"%string ->
                  field k ufs' = field k [])
    /\ (forall k, k <> "user"%string ->
                  field k fs' = field k [("user"%string, JObject [])]).
Proof.
  apply (getInitialData_simulator parseJSON userWithoutSimulator
           [("user"%string, JObject [])] []).
  - discriminate.
  - vm_compute. reflexivity.
  - reflexivity.
  - reflexivity.
Defined.

Lemma getInitialData_TypeError_witness :
  getInitialData parseJSON true (Some "null"%string) = emptyData.
Proof.
  apply (getInitialData_TypeError parseJSON "null" JNull).
  - discriminate.
  - vm_compute. reflexivity.
  - left. reflexivity.
Defined.

End LoadFacts.

(* ================================================================== *)
(** ** More on the history *)
(* ================================================================== *)

Module HistoryMore.

Import JSNumFacts DateStringFacts HistoryFacts Engine Display Sample Shop.
Open Scope Z_scope.

Lemma daysCounted_cons (s : DaySummary.t) (a : list DaySummary.t) :
  daysCounted (s :: a) = DaySummary.count s + daysCounted a.
Proof. reflexivity. Qed.

Lemma daysCounted_app (a b : list DaySummary.t) :
  daysCounted (a ++ b) = daysCounted a + daysCounted b.
Proof.
  induction a as [| s a IH]; [reflexivity |].
  rewrite <- app_comm_cons, !daysCounted_cons, IH. lia.
Qed.

Lemma daysCounted_perm (a b : list DaySummary.t) :
  Permutation a b -> daysCounted a = daysCounted b.
Proof.
  induction 1; rewrite ?daysCounted_cons; lia || reflexivity.
Qed.

Lemma update_count (key : string) (f : DaySummary.t -> DaySummary.t)
    (g : Grouped) :
  (forall s, DaySummary.count (f s) = DaySummary.count s + 1) ->
  In key (map fst g) ->
  daysCounted (map snd (update key f g)) = daysCounted (map snd g) + 1.
Proof.
  intros F. induction g as [| [k v] g IH]; cbn [map fst In]; intros I.
  - contradiction.
  - cbn [update]. destruct (String.eqb_spec k key) as [-> | N];
      cbn [map snd]; rewrite !daysCounted_cons.
    + rewrite F. lia.
    + destruct I as [E | I]; [contradiction |]. rewrite (IH I). lia.
Qed.

Lemma DateString_valid (t : Z) : DateString t <> "Invalid Date"%string.
Proof.
  unfold DateString. cbv zeta. intros E.
  change "Invalid Date"%string with ("Inv" ++ "alid Date")%string in E.
  apply app_inj_length in E; [| apply length_weekDayName].
  destruct E as [_ E]. discriminate.
Qed.

Lemma NoDup_fst_eq {A B : Type} (g : list (A * B)) (k : A) (a b : B) :
  NoDup (map fst g) -> In (k, a) g -> In (k, b) g -> a = b.
Proof.
  induction g as [| [k0 v] g IH]; cbn [map fst In]; intros N Ia Ib.
  - contradiction.
  - inversion N as [| ? ? Hn N']; subst.
    destruct Ia as [Ea | Ia], Ib as [Eb | Ib].
    + congruence.
    + injection Ea as -> ->. exfalso. apply Hn.
      apply in_map_iff. exists (k, b). auto.
    + injection Eb as -> ->. exfalso. apply Hn.
      apply in_map_iff. exists (k, a). auto.
    + eauto.
Qed.

Section History.

Variable tz : Z.
Variable Date_parse : string -> Date.

#[local] Abbreviation dayKey := (dayKey tz Date_parse).
#[local] Abbreviation onDay := (onDay tz Date_parse).
#[local] Abbreviation groupStep := (groupStep tz Date_parse).
#[local] Abbreviation grouped := (grouped tz Date_parse).
#[local] Abbreviation historyList := (historyList tz Date_parse).

Lemma groupStep_count (g : Grouped) (t : Transaction.t) :
  daysCounted (map snd (groupStep g t)) = daysCounted (map snd g) + 1.
Proof.
  unfold Engine.groupStep. cbv zeta.
  set (key := toDateString tz (Date_parse (Transaction.date t))).
  destruct (lookup key g) as [v |] eqn:L.
  - apply update_count; [reflexivity |].
    apply lookup_Some in L. apply in_map_iff. exists (key, v). auto.
  - rewrite update_count; [| reflexivity |].
    + rewrite map_app, daysCounted_app. cbn. lia.
    + rewrite map_app. apply in_or_app. right. now left.
Qed.

Lemma fold_groupStep_count (l : list Transaction.t) (g : Grouped) :
  daysCounted (map snd (fold_left groupStep l g))
  = daysCounted (map snd g) + Z.of_nat (List.length l).
Proof.
  revert g. induction l as [| t l IH]; intros g; cbn [fold_left List.length].
  - lia.
  - rewrite IH, groupStep_count. lia.
Qed.

(** X27: whatever the dates of the log are, the counts of the entries of
    the history add up to the number of transactions of the log: none is
    left out and none is counted twice.  The history says that no day is
    recorded exactly when the log is empty. *)
Theorem history_counts_all (transactions : list Transaction.t) :
  daysCounted (historyList transactions)
  = Z.of_nat (List.length transactions)
  /\ (noDaysRecorded (historyList transactions) = true
      <-> transactions = []).
Proof.
  assert (daysCounted (historyList transactions)
          = Z.of_nat (List.length transactions)) as C.
  { unfold Engine.historyList.
    rewrite (daysCounted_perm _ _ (sort_perm _ _)).
    unfold Engine.grouped. rewrite fold_groupStep_count. cbn. lia. }
  split; [exact C |]. split.
  - intros H. destruct (historyList transactions); [| discriminate].
    cbn in C. destruct transactions; [reflexivity | discriminate].
  - intros ->. reflexivity.
Qed.

Lemma onDay_invalid (l : list Transaction.t) :
  onDay "Invalid Date" l
  = filter (fun t => isInvalid (Date_parse (Transaction.date t))) l.
Proof.
  unfold Engine.onDay. apply filter_ext. intros t.
  unfold Engine.dayKey, toDateString.
  destruct (Date_parse (Transaction.date t)) as [tv |]; cbn [isInvalid].
  - destruct (String.eqb_spec (DateString (LocalTime tz tv)) "Invalid Date")
      as [E | _]; [| reflexivity].
    now apply DateString_valid in E.
  - reflexivity.
Qed.

(** X28: the transactions whose date cannot be read are collected in one
    entry of the history, with the date string [Invalid Date]: it counts
    all of them and adds up their amounts, and no other entry has an
    invalid date. *)
Theorem history_invalid_dates (transactions : list Transaction.t) :
  let unread :=
    filter (fun t => isInvalid (Date_parse (Transaction.date t)))
      transactions in
  unread <> [] ->
  exists e,
    In e (historyList transactions)
    /\ DaySummary.dateStr e = "Invalid Date"%string
    /\ DaySummary.dateObj e = None
    /\ DaySummary.count e = Z.of_nat (List.length unread)
    /\ DaySummary.total e = sumAmounts unread
    /\ forall e', In e' (historyList transactions) ->
                  DaySummary.dateObj e' = None -> e' = e.
Proof.
  intros unread N.
  destruct (grouped_groupedFor tz Date_parse transactions)
    as (ND & K & S).
  assert (forall k s, In (k, s) (grouped transactions) ->
                      DaySummary.dateObj s = None ->
                      k = "Invalid Date"%string) as Inv.
  { intros k s I D. destruct (S k s I) as (_ & _ & _ & t0 & F & E).
    apply find_some in F. destruct F as [_ F].
    apply String.eqb_eq in F. rewrite <- F.
    unfold Engine.dayKey. rewrite <- E, D. reflexivity. }
  assert (exists t, In t transactions /\ dayKey t = "Invalid Date"%string)
    as T.
  { destruct unread as [| t u] eqn:U; [contradiction |].
    assert (In t unread) as I by (rewrite U; now left).
    apply filter_In in I. destruct I as [I B]. exists t. split; [exact I |].
    unfold Engine.dayKey.
    destruct (Date_parse (Transaction.date t)); [discriminate | reflexivity]. }
  apply K in T. apply in_map_iff in T. destruct T as ([k e] & Ek & I).
  cbn [fst] in Ek. subst k.
  destruct (S _ _ I) as (Sd & Sc & St & t0 & F & E).
  rewrite onDay_invalid in Sc, St.
  exists e. split; [| split; [| split; [| split; [| split]]]]; auto.
  - apply historyList_In. eauto.
  - apply find_some in F. destruct F as [_ F]. apply String.eqb_eq in F.
    rewrite E. unfold Engine.dayKey, toDateString in F.
    destruct (Date_parse (Transaction.date t0)) as [tv |]; [| reflexivity].
    now apply DateString_valid in F.
  - intros e' I' D'. apply historyList_In in I'. destruct I' as (k' & I').
    pose proof (Inv _ _ I' D') as ->.
    exact (NoDup_fst_eq _ _ _ _ ND I' I).
Qed.

(** X29: after an entry is confirmed at a reading of the clock that
    [Date.parse] reads back, the history has an entry for the local
    calendar day of that reading, which counts the new transaction with
    those of the log from before that fall on that day. *)
Theorem new_entry_in_history (idClock dateClock : Z)
    (modalType : PaymentType) (modalCategory : Category) (amount : number)
    (prev : AppData.t) :
  Date_parse (isoString dateClock) = Some dateClock ->
  let next := handleTransaction idClock dateClock modalType modalCategory
                amount prev in
  let key := DateString (LocalTime tz dateClock) in
  exists e,
    In e (historyList (AppData.transactions next))
    /\ DaySummary.dateStr e = key
    /\ DaySummary.count e
       = Z.of_nat (List.length (onDay key (AppData.transactions prev))) + 1
    /\ DaySummary.total e
       = add (sumAmounts (onDay key (AppData.transactions prev))) amount.
Proof.
  intros P next key.
  set (newTx := Transaction.mk idClock amount modalType (Some modalCategory)
                  (isoString dateClock)).
  assert (AppData.transactions next = AppData.transactions prev ++ [newTx])
    as Tn by reflexivity.
  assert (dayKey newTx = key) as Kn.
  { unfold Engine.dayKey, newTx. cbn [Transaction.date]. rewrite P.
    reflexivity. }
  destruct (grouped_groupedFor tz Date_parse (AppData.transactions next))
    as (ND & K & S).
  assert (In key (map fst (grouped (AppData.transactions next)))) as I.
  { apply K. exists newTx. split; [| exact Kn].
    rewrite Tn. apply in_or_app. right. now left. }
  apply in_map_iff in I. destruct I as ([k e] & Ek & I).
  cbn [fst] in Ek. subst k.
  destruct (S _ _ I) as (Sd & Sc & St & _).
  rewrite Tn, onDay_snoc, Kn, String.eqb_refl in Sc, St.
  exists e. split; [| split; [| split]].
  - apply historyList_In. eauto.
  - exact Sd.
  - rewrite Sc, length_app. cbn [List.length]. lia.
  - rewrite St, sumAmounts_snoc. reflexivity.
Qed.

End History.

Lemma history_invalid_dates_witness :
  exists e,
    In e (historyList zone parseISO
            [haircut; Transaction.mk 7 (ofZ 20) cash None "yesterday"])
    /\ DaySummary.dateStr e = "Invalid Date"%string
    /\ DaySummary.dateObj e = None
    /\ DaySummary.count e = 1
    /\ DaySummary.total e = ofZ 20.
Proof.
  pose proof (history_invalid_dates zone parseISO
                [haircut; Transaction.mk 7 (ofZ 20) cash None "yesterday"])
    as H.
  cbv zeta in H.
  destruct H as (e & I & D & O & C & T & _).
  - vm_compute. discriminate.
  - exists e. exact (conj I (conj D (conj O (conj C T)))).
Defined.

Lemma new_entry_in_history_witness :
  exists e,
    In e (historyList zone parseISO
            (AppData.transactions
               (handleTransaction 1709658000003 1709658000004 cash tip
                  (ofZ 5) ana)))
    /\ DaySummary.dateStr e = DateString (LocalTime zone 1709658000004)
    /\ DaySummary.count e
       = Z.of_nat
           (List.length
              (onDay zone parseISO
                 (DateString (LocalTime zone 1709658000004))
                 (AppData.transactions ana))) + 1.
Proof.
  pose proof (new_entry_in_history zone parseISO 1709658000003
                1709658000004 cash tip (ofZ 5) ana) as H.
  cbv zeta in H.
  destruct H as (e & I & D & C & _).
  - vm_compute. reflexivity.
  - exists e. exact (conj I (conj D C)).
Defined.

End HistoryMore.

(* ================================================================== *)
(** ** Facts about the rounding to binary64 *)
(* ================================================================== *)

Module Binary64Facts.

Import JSNumFacts Binary64.
Open Scope Q_scope.

#[local] Arguments Qred : simpl never.

(** *** Powers of two *)


Lemma two_pos (z : Z) : 0 < two z.
Proof. unfold two. apply Qpower_0_lt. reflexivity. Qed.

Lemma two_plus (x y : Z) : two (x + y) == two x * two y.
Proof. unfold two. apply Qpower_plus. discriminate. Qed.

Lemma two_lt (x y : Z) : (x < y)%Z -> two x < two y.
Proof. intros H. unfold two. apply Qpower_lt_compat_l; [exact H | reflexivity]. Qed.

Lemma two_le (x y : Z) : (x <= y)%Z -> two x <= two y.
Proof.
  intros H. unfold two. apply Qpower_le_compat_l; [exact H | discriminate].
Qed.

Lemma two_lt_inv (x y : Z) : two x < two y -> (x < y)%Z.
Proof. intros H. apply (Qpower_lt_compat_l_inv 2); [exact H | reflexivity]. Qed.

Lemma two_Z (z : Z) : (0 <= z)%Z -> two z == inject_Z (2 ^ z).
Proof. intros H. unfold two. rewrite Zpower_Qpower by exact H. reflexivity. Qed.

Lemma two_succ (z : Z) : two (z + 1) == 2 * two z.
Proof. rewrite two_plus. change (two 1) with 2. ring. Qed.

(** *** The binary logarithm *)

Lemma ilog2_spec (a : Q) : 0 < a -> two (ilog2 a) <= a /\ a < two (ilog2 a + 1).
Proof.
  intros Ha. destruct a as [n d]. unfold ilog2. cbn [Qnum Qden].
  assert (0 < n)%Z as Hn by (unfold Qlt in Ha; cbn in Ha; lia).
  pose proof (Z.log2_spec n Hn) as [Ln Un].
  pose proof (Z.log2_spec (Zpos d) eq_refl) as [Ld Ud].
  pose proof (Z.log2_nonneg n) as Nn.
  pose proof (Z.log2_nonneg (Zpos d)) as Nd.
  set (ln := Z.log2 n) in *. set (ld := Z.log2 (Zpos d)) in *.
  assert (0 < inject_Z (Zpos d)) as Dp by reflexivity.
  assert ((n # d) * inject_Z (Zpos d) == inject_Z n) as E.
  { rewrite (Qmake_Qdiv n d). field. intros X. rewrite X in Dp.
    discriminate. }
  rewrite Zle_Qle, <- two_Z in Ln by lia.
  rewrite Zlt_Qlt, <- two_Z in Un by lia.
  rewrite Zle_Qle, <- two_Z in Ld by lia.
  rewrite Zlt_Qlt, <- two_Z in Ud by lia.
  replace (Z.succ ln) with (ln - ld + 1 + ld)%Z in Un by lia.
  replace ln with (ln - ld - 1 + (ld + 1))%Z in Ln at 1 by lia.
  replace (Z.succ ld) with (ld + 1)%Z in Ud by lia.
  rewrite two_plus in Ln, Un.
  pose proof (two_pos (ln - ld - 1)) as P1.
  pose proof (two_pos (ln - ld + 1)) as P3.
  pose proof (two_pos ld) as P2.
  assert (two (ln - ld - 1 + 1) == two (ln - ld)) as A3 by (f_equiv; lia).
  destruct (Qle_bool (two (ln - ld)) (n # d)) eqn:B.
  - apply Qle_bool_iff in B. split; [exact B |].
    clear B A3 P1 Ln Ud.
    revert E Un Ld P3 P2 Dp.
    generalize (n # d) (inject_Z (Zpos d)) (inject_Z n)
      (two (ln - ld + 1)) (two ld).
    intros a D N X Y E Un Ld P3 P2 Dp. nra.
  - assert (n # d < two (ln - ld)) as B'.
    { apply Qnot_le_lt. intros X. apply Qle_bool_iff in X. congruence. }
    rewrite A3. split; [| exact B'].
    clear B B' A3 P3 Un Ld.
    revert E Ln Ud P1 Dp.
    generalize (n # d) (inject_Z (Zpos d)) (inject_Z n)
      (two (ln - ld - 1)) (two (ld + 1)).
    intros a D N X Y E Ln Ud P1 Dp. nra.
Qed.

Lemma ilog2_unique (a : Q) (k : Z) :
  two k <= a -> a < two (k + 1) -> ilog2 a = k.
Proof.
  intros L U. assert (0 < a) as Ha by (pose proof (two_pos k); lra).
  destruct (ilog2_spec a Ha) as [L' U'].
  assert (two k < two (ilog2 a + 1)) as A by lra.
  assert (two (ilog2 a) < two (k + 1)) as B by lra.
  apply two_lt_inv in A, B. lia.
Qed.

Lemma ilog2_comp (a b : Q) : 0 < a -> a == b -> ilog2 a = ilog2 b.
Proof.
  intros Ha E. symmetry. destruct (ilog2_spec a Ha) as [L U].
  apply ilog2_unique; rewrite <- E; assumption.
Qed.

Lemma ilog2_mono (a b : Q) : 0 < a -> a <= b -> (ilog2 a <= ilog2 b)%Z.
Proof.
  intros Ha H. destruct (ilog2_spec a Ha) as [L _].
  assert (0 < b) as Hb by lra.
  destruct (ilog2_spec b Hb) as [_ U].
  assert (two (ilog2 a) < two (ilog2 b + 1)) as A by lra.
  apply two_lt_inv in A. lia.
Qed.

(** *** Rounding to the nearest integer, ties to even *)

Lemma rne_cases (m : Q) :
  (rne m = Qfloor m /\ m - inject_Z (Qfloor m) <= 1 # 2)
  \/ (rne m = (Qfloor m + 1)%Z /\ 1 # 2 <= m - inject_Z (Qfloor m)).
Proof.
  unfold rne. cbv zeta.
  destruct (Qcompare_spec (m - inject_Z (Qfloor m)) (1 # 2)) as [E | L | G].
  - destruct (Z.even (Qfloor m)); [left | right]; split; auto; lra.
  - left. split; auto. lra.
  - right. split; auto. lra.
Qed.

Lemma rne_comp (m m' : Q) : m == m' -> rne m = rne m'.
Proof.
  intros E. unfold rne. cbv zeta. rewrite (Qfloor_comp _ _ E).
  assert (m - inject_Z (Qfloor m') == m' - inject_Z (Qfloor m')) as E'
    by (rewrite E; reflexivity).
  rewrite (Qcompare_comp _ _ E' _ _ (Qeq_refl (1 # 2))). reflexivity.
Qed.

Lemma rne_Z (z : Z) : rne (inject_Z z) = z.
Proof.
  unfold rne. cbv zeta. rewrite Qfloor_Z.
  destruct (Qcompare_spec (inject_Z z - inject_Z z) (1 # 2)) as [E | L | G];
    auto; lra.
Qed.

Lemma rne_error (m : Q) :
  inject_Z (rne m) - (1 # 2) <= m /\ m <= inject_Z (rne m) + (1 # 2).
Proof.
  pose proof (Qfloor_le m) as L. pose proof (Qlt_floor m) as U.
  rewrite inject_Z_plus in U. change (inject_Z 1) with 1 in U.
  destruct (rne_cases m) as [[-> H] | [-> H]].
  - lra.
  - rewrite inject_Z_plus. change (inject_Z 1) with 1. lra.
Qed.

Lemma rne_mono (m m' : Q) : m <= m' -> (rne m <= rne m')%Z.
Proof.
  intros H. pose proof (Qfloor_resp_le _ _ H) as F.
  destruct (Z.eq_dec (Qfloor m) (Qfloor m')) as [E | N].
  - unfold rne. cbv zeta. rewrite <- E.
    destruct (Qcompare_spec (m - inject_Z (Qfloor m)) (1 # 2)) as [A | A | A];
      destruct (Qcompare_spec (m' - inject_Z (Qfloor m)) (1 # 2))
        as [B | B | B];
      destruct (Z.even (Qfloor m)); try lia; lra.
  - destruct (rne_cases m) as [[-> _] | [-> _]];
      destruct (rne_cases m') as [[-> _] | [-> _]]; lia.
Qed.

(** *** Rounding a positive rational *)

Lemma exponent_mono (a b : Q) : 0 < a -> a <= b -> (exponent a <= exponent b)%Z.
Proof.
  intros Ha H. unfold exponent. pose proof (ilog2_mono a b Ha H). lia.
Qed.

Lemma scaled (a : Q) (e : Z) : a / two e * two e == a.
Proof. pose proof (two_pos e). field. lra. Qed.

Lemma roundPos_comp (a b : Q) : 0 < a -> a == b -> roundPos a == roundPos b.
Proof.
  intros Ha E. unfold roundPos, exponent. rewrite <- (ilog2_comp a b Ha E).
  generalize (two (Z.max (ilog2 a - 52) (-1074))). intros t.
  rewrite (rne_comp (a / t) (b / t)); [reflexivity |].
  rewrite E. reflexivity.
Qed.

Lemma roundPos_mono (a b : Q) : 0 < a -> a <= b -> roundPos a <= roundPos b.
Proof.
  intros Ha H. assert (0 < b) as Hb by lra.
  pose proof (exponent_mono a b Ha H) as He.
  unfold roundPos.
  destruct (Z.eq_dec (exponent a) (exponent b)) as [E | N].
  - rewrite <- E. pose proof (two_pos (exponent a)) as P.
    assert (a / two (exponent a) <= b / two (exponent a)) as M.
    { apply Qmult_le_compat_r; [exact H |].
      apply Qlt_le_weak, Qinv_lt_0_compat, P. }
    apply rne_mono in M. rewrite Zle_Qle in M. nra.
  - assert (exponent a + 1 <= exponent b)%Z as Hlt by lia.
    assert (exponent b = ilog2 b - 52)%Z as Eb
      by (unfold exponent in *; lia).
    assert (ilog2 a - 52 <= exponent a)%Z as Ea by (unfold exponent; lia).
    destruct (ilog2_spec a Ha) as [_ Ua]. destruct (ilog2_spec b Hb) as [Lb _].
    pose proof (two_pos (exponent a)) as Pa.
    pose proof (two_pos (exponent b)) as Pb.
    (* the scaled value of [a] is below 2^53, that of [b] at least 2^52 *)
    assert (a / two (exponent a) <= inject_Z (2 ^ 53)) as Ma.
    { rewrite <- two_Z by lia. apply Qle_shift_div_r; [exact Pa |].
      rewrite <- two_plus.
      pose proof (two_le (ilog2 a + 1) (53 + exponent a) ltac:(lia)). lra. }
    assert (inject_Z (2 ^ 52) <= b / two (exponent b)) as Mb.
    { rewrite <- two_Z by lia. apply Qle_shift_div_l; [exact Pb |].
      rewrite <- two_plus.
      pose proof (two_le (52 + exponent b) (ilog2 b) ltac:(lia)). lra. }
    apply rne_mono in Ma, Mb. rewrite rne_Z in Ma, Mb.
    rewrite Zle_Qle in Ma, Mb. rewrite <- two_Z in Ma, Mb by lia.
    assert (two 53 * two (exponent a) <= two 52 * two (exponent b)) as K.
    { rewrite <- !two_plus. apply two_le. lia. }
    pose proof (two_pos 53). pose proof (two_pos 52).
    assert (0 <= inject_Z (rne (a / two (exponent a)))) as Na.
    { assert (0 <= a / two (exponent a)) as Z0.
      { apply Qle_shift_div_l; [exact Pa | lra]. }
      apply rne_mono in Z0. change 0 with (inject_Z 0) in Z0 at 1.
      rewrite rne_Z in Z0. rewrite Zle_Qle in Z0. exact Z0. }
    nra.
Qed.

Lemma roundPos_fix (m e : Z) :
  (0 < m < 2 ^ 53)%Z -> (-1074 <= e)%Z ->
  roundPos (inject_Z m * two e) == inject_Z m * two e.
Proof.
  intros Hm He. pose proof (two_pos e) as Pe.
  assert (0 < inject_Z m) as Pm.
  { change 0 with (inject_Z 0). rewrite <- Zlt_Qlt. lia. }
  assert (0 < inject_Z m * two e) as Pa by nra.
  pose proof (Z.log2_spec m ltac:(lia)) as [Lm Um].
  pose proof (Z.log2_nonneg m) as Nm.
  assert (Z.log2 m < 53)%Z as L53.
  { apply Z.log2_lt_pow2; lia. }
  assert (ilog2 (inject_Z m * two e) = Z.log2 m + e)%Z as El.
  { apply ilog2_unique.
    - rewrite two_plus, (two_Z (Z.log2 m)) by lia.
      rewrite Zle_Qle in Lm. nra.
    - replace (Z.log2 m + e + 1)%Z with (Z.succ (Z.log2 m) + e)%Z by lia.
      rewrite two_plus, (two_Z (Z.succ (Z.log2 m))) by lia.
      rewrite Zlt_Qlt in Um. nra. }
  unfold roundPos, exponent. rewrite El.
  set (x := Z.max (Z.log2 m + e - 52) (-1074)).
  assert (x <= e)%Z as Hx by lia.
  assert (inject_Z m * two e / two x == inject_Z (m * 2 ^ (e - x))) as Es.
  { rewrite inject_Z_mult, <- (two_Z (e - x)) by lia.
    replace e with ((e - x) + x)%Z at 1 by lia. rewrite two_plus.
    pose proof (two_pos x). field. lra. }
  rewrite (rne_comp _ _ Es), rne_Z, inject_Z_mult, <- (two_Z (e - x)) by lia.
  replace e with ((e - x) + x)%Z at 2 by lia. rewrite two_plus. ring.
Qed.

Lemma roundPos_nonneg (a : Q) : 0 < a -> 0 <= roundPos a.
Proof.
  intros Ha. unfold roundPos. pose proof (two_pos (exponent a)) as P.
  assert (0 <= a / two (exponent a)) as Z0.
  { apply Qle_shift_div_l; [exact P | lra]. }
  apply rne_mono in Z0. change 0 with (inject_Z 0) in Z0 at 1.
  rewrite rne_Z in Z0. rewrite Zle_Qle in Z0.
  change (inject_Z 0) with 0 in Z0. nra.
Qed.

Lemma roundPos_error (a : Q) :
  0 < a -> Qabs (roundPos a - a) <= a * two (-53) + two (-1075).
Proof.
  intros Ha. unfold roundPos.
  pose proof (two_pos (exponent a)) as P.
  destruct (rne_error (a / two (exponent a))) as [L U].
  pose proof (scaled a (exponent a)) as S.
  destruct (ilog2_spec a Ha) as [La _].
  assert (two (exponent a) <= 2 * (a * two (-53) + two (-1075))) as B.
  { unfold exponent.
    destruct (Z.max_spec (ilog2 a - 52) (-1074)) as [[_ ->] | [_ ->]].
    - change (-1074)%Z with (1 + -1075)%Z. rewrite two_plus.
      change (two 1) with 2. pose proof (two_pos (-53)). nra.
    - replace (ilog2 a - 52)%Z with (1 + (ilog2 a + -53))%Z by lia.
      rewrite !two_plus. change (two 1) with 2.
      pose proof (two_pos (-53)). pose proof (two_pos (-1075)). nra. }
  revert L U S B P. generalize (two (exponent a)) (a / two (exponent a))
    (inject_Z (rne (a / two (exponent a)))) (a * two (-53) + two (-1075)).
  intros t s n b L U S B P. apply Qabs_Qle_condition. split; nra.
Qed.

(** *** Rounding a rational *)

Lemma rnd_0 : rnd 0 = 0.
Proof. reflexivity. Qed.

Lemma rnd_pos (q : Q) : 0 < q -> rnd q = roundPos q.
Proof.
  intros H. unfold rnd. destruct (Qcompare_spec q 0); auto; lra.
Qed.

Lemma rnd_neg (q : Q) : q < 0 -> rnd q = - roundPos (- q).
Proof.
  intros H. unfold rnd. destruct (Qcompare_spec q 0); auto; lra.
Qed.

Lemma rnd_zero (q : Q) : q == 0 -> rnd q = 0.
Proof.
  intros H. unfold rnd. destruct (Qcompare_spec q 0); auto; lra.
Qed.

Lemma rnd_comp (p q : Q) : p == q -> rnd p == rnd q.
Proof.
  intros E. destruct (Qlt_le_dec 0 p) as [P | P].
  - rewrite !rnd_pos by lra. now apply roundPos_comp.
  - destruct (Qlt_le_dec p 0) as [N | N].
    + rewrite !rnd_neg by lra. apply Qopp_comp, roundPos_comp; [lra |].
      rewrite E. reflexivity.
    + rewrite !rnd_zero by lra. reflexivity.
Qed.

Lemma rnd_opp (q : Q) : rnd (- q) == - rnd q.
Proof.
  destruct (Qlt_le_dec 0 q) as [P | P].
  - rewrite rnd_neg, rnd_pos by lra. apply Qopp_comp, roundPos_comp; [lra|].
    ring.
  - destruct (Qlt_le_dec q 0) as [N | N].
    + rewrite rnd_pos, rnd_neg by lra. ring.
    + rewrite !rnd_zero by lra. reflexivity.
Qed.

Lemma rnd_mono (p q : Q) : p <= q -> rnd p <= rnd q.
Proof.
  intros H. destruct (Qlt_le_dec 0 p) as [P | P].
  - rewrite !rnd_pos by lra. now apply roundPos_mono.
  - destruct (Qlt_le_dec p 0) as [N | N].
    + rewrite (rnd_neg p N). pose proof (roundPos_nonneg (- p)) as A.
      destruct (Qlt_le_dec 0 q) as [Pq | Pq].
      * rewrite rnd_pos by exact Pq. pose proof (roundPos_nonneg q Pq). lra.
      * destruct (Qlt_le_dec q 0) as [Nq | Nq].
        -- rewrite (rnd_neg q Nq).
           pose proof (roundPos_mono (- q) (- p)). lra.
        -- rewrite rnd_zero by lra. lra.
    + rewrite (rnd_zero p) by lra.
      destruct (Qlt_le_dec 0 q) as [Pq | Pq].
      * rewrite rnd_pos by exact Pq. now apply roundPos_nonneg.
      * rewrite rnd_zero by lra. lra.
Qed.

Lemma rnd_dyadic (m e : Z) :
  (Z.abs m < 2 ^ 53)%Z -> (-1074 <= e)%Z ->
  rnd (inject_Z m * two e) == inject_Z m * two e.
Proof.
  intros Hm He. pose proof (two_pos e) as P.
  destruct (Z.lt_trichotomy m 0) as [N | [-> | Pm]].
  - assert (inject_Z m < 0) as Q0.
    { change 0 with (inject_Z 0). rewrite <- Zlt_Qlt. exact N. }
    rewrite rnd_neg by nra.
    rewrite (roundPos_comp _ (inject_Z (- m) * two e)).
    + rewrite roundPos_fix by lia. rewrite inject_Z_opp. ring.
    + nra.
    + rewrite inject_Z_opp. ring.
  - rewrite rnd_zero; [| change (inject_Z 0) with 0; ring].
    change (inject_Z 0) with 0. ring.
  - assert (0 < inject_Z m) as Q0.
    { change 0 with (inject_Z 0). rewrite <- Zlt_Qlt. exact Pm. }
    rewrite rnd_pos by nra. apply roundPos_fix; lia.
Qed.

Lemma rnd_Z (z : Z) : (Z.abs z < 2 ^ 53)%Z -> rnd (inject_Z z) == inject_Z z.
Proof.
  intros H. pose proof (rnd_dyadic z 0 H ltac:(lia)) as E.
  change (two 0) with 1 in E. rewrite <- (Qmult_1_r (inject_Z z)) at 2.
  rewrite <- E. apply rnd_comp. ring.
Qed.

Lemma rnd_two (e : Z) : (-1074 <= e)%Z -> rnd (two e) == two e.
Proof.
  intros H. pose proof (rnd_dyadic 1 e ltac:(lia) H) as E.
  change (inject_Z 1) with 1 in E. rewrite <- (Qmult_1_l (two e)) at 2.
  rewrite <- E. apply rnd_comp. ring.
Qed.

Lemma rnd_error (q : Q) :
  Qabs (rnd q - q) <= Qabs q * two (-53) + two (-1075).
Proof.
  pose proof (two_pos (-1075)) as T.
  destruct (Qlt_le_dec 0 q) as [P | P].
  - rewrite rnd_pos by exact P. rewrite (Qabs_pos q) by lra.
    now apply roundPos_error.
  - destruct (Qlt_le_dec q 0) as [N | N].
    + rewrite rnd_neg by exact N. rewrite (Qabs_neg q) by lra.
      pose proof (roundPos_error (- q) ltac:(lra)) as E.
      rewrite <- Qabs_opp.
      assert (- (- roundPos (- q) - q) == roundPos (- q) - - q) as -> by ring.
      exact E.
    + rewrite rnd_zero by lra.
      assert (0 - q == 0) as -> by lra.
      assert (Qabs q == 0) as -> by (rewrite (Qabs_pos q) by lra; lra).
      change (Qabs 0) with 0. lra.
Qed.


Lemma rnd_nonneg (q : Q) : 0 <= q -> 0 <= rnd q.
Proof. intros H. apply rnd_mono in H. exact H. Qed.

Lemma rnd_bound (q : Q) (e : Z) :
  (-1074 <= e)%Z -> Qabs q <= two e -> Qabs (rnd q) <= two e.
Proof.
  intros He H. apply Qabs_Qle_condition in H. destruct H as [L U].
  apply Qabs_Qle_condition. apply rnd_mono in L, U.
  rewrite rnd_opp in L. rewrite (rnd_two e He) in L, U. split; assumption.
Qed.

(** *** The rounded operations on finite numbers *)

Lemma round64_finite (a : number) (q : Q) :
  toQ a = Some q -> Qabs q <= two 1023 ->
  exists r, toQ (round a) = Some r /\ r == rnd q.
Proof.
  intros Ha B. pose proof (rnd_bound q 1023 ltac:(lia) B) as R.
  pose proof (two_lt 1023 1024 ltac:(lia)) as T.
  destruct a as [p | | | |]; cbn [toQ] in Ha; inversion Ha; subst.
  - cbn [round]. cbv zeta.
    destruct (Qle_bool (two 1024) (Qabs (rnd q))) eqn:O.
    + apply Qle_bool_iff in O. lra.
    + apply toQ_mkFin.
  - exists 0. split; reflexivity.
Qed.

Lemma add64_finite (a b : number) (p q : Q) :
  toQ a = Some p -> toQ b = Some q -> Qabs (p + q) <= two 1023 ->
  exists r, toQ (add a b) = Some r /\ r == rnd (p + q).
Proof.
  intros Ha Hb B. destruct (add_finite a b p q Ha Hb) as (s & Hs & Es).
  rewrite <- Es in B.
  destruct (round64_finite _ s Hs B) as (r & Hr & Er).
  exists r. split; [exact Hr |]. rewrite Er. apply rnd_comp, Es.
Qed.

Lemma sub64_finite (a b : number) (p q : Q) :
  toQ a = Some p -> toQ b = Some q -> Qabs (p - q) <= two 1023 ->
  exists r, toQ (sub a b) = Some r /\ r == rnd (p - q).
Proof.
  intros Ha Hb B. destruct (sub_finite a b p q Ha Hb) as (s & Hs & Es).
  rewrite <- Es in B.
  destruct (round64_finite _ s Hs B) as (r & Hr & Er).
  exists r. split; [exact Hr |]. rewrite Er. apply rnd_comp, Es.
Qed.

Lemma mul64_finite (a b : number) (p q : Q) :
  toQ a = Some p -> toQ b = Some q -> Qabs (p * q) <= two 1023 ->
  exists r, toQ (mul a b) = Some r /\ r == rnd (p * q).
Proof.
  intros Ha Hb B. destruct (mul_finite a b p q Ha Hb) as (s & Hs & Es).
  rewrite <- Es in B.
  destruct (round64_finite _ s Hs B) as (r & Hr & Er).
  exists r. split; [exact Hr |]. rewrite Er. apply rnd_comp, Es.
Qed.

Lemma div64_finite (a b : number) (p q : Q) :
  toQ a = Some p -> toQ b = Some q -> ~ q == 0 ->
  Qabs (p / q) <= two 1023 ->
  exists r, toQ (div a b) = Some r /\ r == rnd (p / q).
Proof.
  intros Ha Hb N B. destruct (div_finite a b p q Ha Hb N) as (s & Hs & Es).
  rewrite <- Es in B.
  destruct (round64_finite _ s Hs B) as (r & Hr & Er).
  exists r. split; [exact Hr |]. rewrite Er. apply rnd_comp, Es.
Qed.

(** The cases that the rounding decides: 0.1 is not a tenth, three
    sevenths of 29, 31 and 31 add up to more than 13, 115 over 200 times 100
    is less than 57.5, 35.1 - 0.1 is 35, and the least positive number
    over 35 is 0. *)
Example rounding_cases :
  lit (1 # 10) = Fin (3602879701896397 # 36028797018963968)
  /\ add (add (add (ofZ 0) (div (ofZ 29) (ofZ 7))) (div (ofZ 31) (ofZ 7)))
         (div (ofZ 31) (ofZ 7))
     = Fin (7318349394477057 # 562949953421312)
  /\ mul (div (ofZ 115) (ofZ 200)) (ofZ 100)
     = Fin (8092405580431359 # 140737488355328)
  /\ sub (lit (351 # 10)) (lit (1 # 10)) = ofZ 35
  /\ div (Fin (two (-1074))) (ofZ 35) = ofZ 0.
Proof. vm_compute. repeat split. Qed.

End Binary64Facts.

(* ================================================================== *)
(** ** The figures of the dashboard, as the platform computes them *)
(* ================================================================== *)

Module FiguresFacts.

Import JSNumFacts GoalFacts Binary64 Binary64Facts Figures.
Open Scope Q_scope.

#[local] Arguments Qred : simpl never.

Lemma inject_Z_pos (z : Z) : (0 < z)%Z -> 0 < inject_Z z.
Proof. intros H. change 0 with (inject_Z 0). now rewrite <- Zlt_Qlt. Qed.

Lemma inject_Z_ge1 (z : Z) : (1 <= z)%Z -> 1 <= inject_Z z.
Proof. intros H. change 1 with (inject_Z 1). now rewrite <- Zle_Qle. Qed.

Lemma rnd_max0 (D : Q) : Qmax 0 (rnd D) == rnd (Qmax 0 D).
Proof.
  destruct (Qlt_le_dec 0 D) as [P | N].
  - rewrite (rnd_comp (Qmax 0 D) D) by (apply Q.max_r; lra).
    apply Q.max_r. apply rnd_nonneg. lra.
  - rewrite (rnd_comp (Qmax 0 D) 0) by (apply Q.max_l; lra). rewrite rnd_0.
    apply Q.max_l. apply rnd_mono in N. exact N.
Qed.

Lemma rnd_div_comp (a b c : Q) : a == b -> rnd (a / c) == rnd (b / c).
Proof. intros E. apply rnd_comp. rewrite E. reflexivity. Qed.

Lemma max0_zero (x : number) (r : Q) :
  toQ (max (ofZ 0) x) = Some r -> r == 0 -> max (ofZ 0) x = ofZ 0.
Proof.
  intros H Z. unfold max in *.
  destruct x as [s | | | |]; cbn [cmp ofZ value] in *.
  - destruct (Qcompare_spec (inject_Z 0) s) as [E | L | G].
    + reflexivity.
    + cbn [toQ] in H. injection H as ->. change (inject_Z 0) with 0 in L.
      lra.
    + reflexivity.
  - reflexivity.
  - discriminate H.
  - reflexivity.
  - discriminate H.
Qed.

Lemma zero_over_days (days : Z) :
  (1 <= days)%Z -> div (div (ofZ 0) AVG_CUT_PRICE) (ofZ days) = ofZ 0.
Proof.
  intros Hd. change (div (ofZ 0) AVG_CUT_PRICE) with (ofZ 0).
  pose proof (inject_Z_ge1 days Hd) as D1.
  assert (~ inject_Z days == 0) as Nd by lra.
  assert (Qabs (0 / inject_Z days) <= two 1023) as B.
  { assert (0 / inject_Z days == 0) as -> by (field; exact Nd).
    change (Qabs 0) with 0. pose proof (two_pos 1023). lra. }
  unfold div, JSNum.div.
  cbn [isNaN isInf isZero ofZ orb andb value].
  destruct (Qeq_bool_spec (inject_Z days) 0) as [E | _]; [contradiction |].
  change (Qeq_bool (inject_Z 0) 0) with true. cbn [orb andb].
  unfold mkFin at 1.
  destruct (Qeq_bool_spec (inject_Z 0 / inject_Z days) 0) as [_ | N].
  - assert (negative (ofZ days) = false) as ->.
    { cbn [negative ofZ]. destruct (Qcompare_spec (inject_Z days) 0);
        try reflexivity. lra. }
    reflexivity.
  - exfalso. apply N. change (inject_Z 0) with 0. field. exact Nd.
Qed.

(** *** The goal projection *)

(** The three roundings of the projection. *)
Lemma cuts_chain (periodTotal goalAmount : number) (p g : Q) (days : Z) :
  toQ periodTotal = Some p -> toQ goalAmount = Some g -> (1 <= days)%Z ->
  Qabs (g - p) <= two 1023 ->
  exists r u y,
    toQ (remainingGoal periodTotal goalAmount) = Some r
    /\ r == Qmax 0 (rnd (g - p))
    /\ toQ (cutsNeededTotal periodTotal goalAmount) = Some u
    /\ u == rnd (r / 35)
    /\ y == rnd (u / inject_Z days)
    /\ toQ (cutsPerDay periodTotal goalAmount (ofZ days))
       = Some (inject_Z (Qceiling y)).
Proof.
  intros Hp Hg Hd B.
  pose proof (two_pos 1023) as T.
  destruct (sub64_finite _ _ g p Hg Hp B) as (s & Hs & Es).
  pose proof (rnd_bound _ 1023 ltac:(lia) B) as Bs. rewrite <- Es in Bs.
  destruct (max_finite (ofZ 0) _ 0 s (toQ_ofZ 0) Hs) as (r & Hr & Er).
  assert (0 <= r /\ r <= two 1023) as [R0 R1].
  { rewrite Er. apply Qabs_Qle_condition in Bs.
    destruct (Q.max_spec 0 s) as [[? ->] | [? ->]]; lra. }
  assert (~ inject_Z 35 == 0) as N35 by discriminate.
  assert (0 <= r / 35 /\ r / 35 <= two 1023) as [U0 U1].
  { split.
    - apply Qle_shift_div_l; [reflexivity | lra].
    - apply Qle_shift_div_r; [reflexivity | lra]. }
  assert (Qabs (r / inject_Z 35) <= two 1023) as B35.
  { change (inject_Z 35) with 35. apply Qabs_Qle_condition. lra. }
  destruct (div64_finite _ _ r (inject_Z 35) Hr (toQ_ofZ 35) N35 B35)
    as (u & Hu & Eu).
  change (inject_Z 35) with 35 in Eu.
  pose proof (inject_Z_ge1 days Hd) as D1.
  assert (~ inject_Z days == 0) as Nd by lra.
  assert (0 <= u /\ u <= two 1023) as [V0 V1].
  { rewrite Eu. split; [apply rnd_nonneg; exact U0 |].
    apply rnd_mono in U1. rewrite (rnd_two 1023) in U1 by lia. exact U1. }
  assert (Qabs (u / inject_Z days) <= two 1023) as Bd.
  { apply Qabs_Qle_condition. split.
    - assert (0 <= u / inject_Z days)
        by (apply Qle_shift_div_l; lra). lra.
    - apply Qle_shift_div_r; [lra | nra]. }
  destruct (div64_finite _ _ u (inject_Z days) Hu (toQ_ofZ days) Nd Bd)
    as (y & Hy & Ey).
  exists r, u, y. unfold cutsPerDay, cutsNeededTotal, remainingGoal,
    AVG_CUT_PRICE.
  split; [exact Hr |]. split; [rewrite Er, Es; reflexivity |].
  split; [exact Hu |]. split; [exact Eu |]. split; [exact Ey |].
  apply ceil_finite. exact Hy.
Qed.

(** The cuts that the three roundings give are the exact number of cuts, or
    one less. *)
Lemma cuts_bracket (D : Q) (days : Z) :
  (1 <= days <= 31)%Z -> D <= two 52 ->
  (Qceiling (Qmax 0 D / 35 / inject_Z days) - 1
   <= Qceiling (rnd (rnd (Qmax 0 (rnd D) / 35) / inject_Z days))
   <= Qceiling (Qmax 0 D / 35 / inject_Z days))%Z.
Proof.
  intros Hd HD.
  rewrite (Qceiling_comp
             (rnd (rnd (Qmax 0 (rnd D) / 35) / inject_Z days))
             (rnd (rnd (rnd (Qmax 0 D) / 35) / inject_Z days)))
    by (apply rnd_div_comp, rnd_div_comp, rnd_max0).
  set (M := Qmax 0 D).
  assert (0 <= M) as M0 by apply Q.le_max_l.
  assert (M <= two 52) as M1.
  { pose proof (two_pos 52). apply Q.max_lub; lra. }
  rewrite (two_Z 52) in M1 by lia.
  pose proof (inject_Z_ge1 days ltac:(lia)) as D1.
  assert (inject_Z days <= 31) as D31.
  { change 31 with (inject_Z 31). rewrite <- Zle_Qle. lia. }
  set (dq := inject_Z days) in *.
  set (x := M / 35 / dq).
  assert (x * dq * 35 == M) as Ex by (unfold x; field; lra).
  pose proof (Qle_ceiling x) as Cu. pose proof (Qceiling_lt x) as Cl.
  set (n := Qceiling x) in *.
  assert (inject_Z (n - 1) == inject_Z n - 1) as En.
  { unfold Z.sub. rewrite inject_Z_plus. reflexivity. }
  rewrite En in Cl.
  set (U := (35 * n * days)%Z). set (L := (35 * (n - 1) * days)%Z).
  assert (inject_Z U == 35 * inject_Z n * dq) as EU.
  { unfold U. rewrite !inject_Z_mult. reflexivity. }
  assert (inject_Z L == 35 * (inject_Z n - 1) * dq) as EL.
  { unfold L. rewrite !inject_Z_mult, En. reflexivity. }
  assert (M <= inject_Z U) as MU by (rewrite EU; nra).
  assert (inject_Z L <= M) as LM by (rewrite EL; nra).
  assert (inject_Z U < inject_Z (2 ^ 52 + 1086)) as UB.
  { rewrite inject_Z_plus, EU. change (inject_Z 1086) with 1086. nra. }
  assert (inject_Z (- 1086) < inject_Z L) as LB.
  { rewrite EL. change (inject_Z (- 1086)) with (- 1086). 
    assert (0 <= x) as X0.
    { unfold x. apply Qle_shift_div_l; [lra |].
      apply Qle_shift_div_l; [reflexivity | lra]. }
    nra. }
  rewrite <- Zlt_Qlt in UB, LB.
  assert (inject_Z L <= inject_Z U) as LU by lra.
  rewrite <- Zle_Qle in LU.
  assert (Z.abs U < 2 ^ 53)%Z as AU by lia.
  assert (Z.abs L < 2 ^ 53)%Z as AL by lia.
  assert (Z.abs (n * days) < 2 ^ 53)%Z as An.
  { unfold U in AU. lia. }
  assert (Z.abs ((n - 1) * days) < 2 ^ 53)%Z as An'.
  { unfold L in AL. lia. }
  assert (Z.abs n < 2 ^ 53)%Z as An0 by nia.
  assert (Z.abs (n - 1) < 2 ^ 53)%Z as An1 by nia.
  (* the remaining amount *)
  pose proof (rnd_mono _ _ MU) as R1. rewrite (rnd_Z U AU) in R1.
  pose proof (rnd_mono _ _ LM) as R0. rewrite (rnd_Z L AL) in R0.
  set (r := rnd M) in *.
  (* the cuts needed *)
  assert (r / 35 <= inject_Z (n * days)) as V1.
  { rewrite inject_Z_mult. apply Qle_shift_div_r; [reflexivity |].
    fold dq. lra. }
  assert (inject_Z ((n - 1) * days) <= r / 35) as V0.
  { rewrite inject_Z_mult, En. apply Qle_shift_div_l; [reflexivity |].
    fold dq. lra. }
  apply rnd_mono in V1, V0.
  rewrite (rnd_Z _ An) in V1. rewrite (rnd_Z _ An') in V0.
  rewrite inject_Z_mult in V1, V0. rewrite En in V0. fold dq in V1, V0.
  set (u := rnd (r / 35)) in *.
  (* the cuts of a day *)
  assert (u / dq <= inject_Z n) as Y1.
  { apply Qle_shift_div_r; lra. }
  assert (inject_Z (n - 1) <= u / dq) as Y0.
  { rewrite En. apply Qle_shift_div_l; lra. }
  apply rnd_mono in Y1, Y0.
  rewrite (rnd_Z _ An0) in Y1. rewrite (rnd_Z _ An1) in Y0.
  apply Qceiling_resp_le in Y1, Y0. rewrite Qceiling_Z in Y1, Y0.
  split; assumption.
Qed.

(** C6: the remaining amount is [max(0, goalAmount - periodTotal)], the
    cuts needed are the remaining amount over the reference price 35, and
    the cuts per day are the ceiling of the cuts needed over the days left,
    0 when nothing remains, each computed in binary64: the difference and
    the two quotients are rounded to the nearest double, so that the
    remaining amount is within half a unit in the last place of the exact
    one and, for a goal that is ahead by at most 2^52 and at most 31 days
    left, the cuts per day are the exact ceiling or one less.  With a goal
    of 1000, a total of 250 and 5 days left these are 750,
    21.428571428571427 and 5. *)
Theorem goal_projection :
  (forall (periodTotal goalAmount : number) (p g : Q) (days : Z),
     toQ periodTotal = Some p -> toQ goalAmount = Some g ->
     (1 <= days)%Z -> Qabs (g - p) <= two 1023 ->
     exists (r u : Q) (c : Z),
       toQ (remainingGoal periodTotal goalAmount) = Some r
       /\ r == Qmax 0 (rnd (g - p))
       /\ Qabs (r - Qmax 0 (g - p))
          <= Qabs (g - p) * two (-53) + two (-1075)
       /\ toQ (cutsNeededTotal periodTotal goalAmount) = Some u
       /\ u == rnd (r / 35)
       /\ toQ (cutsPerDay periodTotal goalAmount (ofZ days))
          = Some (inject_Z c)
       /\ c = Qceiling (rnd (u / inject_Z days))
       /\ (r == 0 -> cutsPerDay periodTotal goalAmount (ofZ days) = ofZ 0)
       /\ ((days <= 31)%Z -> g - p <= two 52 ->
           (Qceiling (Qmax 0 (g - p) / 35 / inject_Z days) - 1 <= c
            <= Qceiling (Qmax 0 (g - p) / 35 / inject_Z days))%Z))
  /\ remainingGoal (ofZ 250) (ofZ 1000) = ofZ 750
  /\ cutsNeededTotal (ofZ 250) (ofZ 1000)
     = Fin (6031606643799771 # 281474976710656)
  /\ cutsPerDay (ofZ 250) (ofZ 1000) (ofZ 5) = ofZ 5.
Proof.
  split; [| vm_compute; repeat split].
  intros periodTotal goalAmount p g days Hp Hg Hd B.
  destruct (cuts_chain _ _ p g days Hp Hg Hd B)
    as (r & u & y & Hr & Er & Hu & Eu & Ey & Hc).
  exists r, u, (Qceiling y).
  assert (Qceiling y
          = Qceiling (rnd (rnd (Qmax 0 (rnd (g - p)) / 35) / inject_Z days)))
    as Ec.
  { apply Qceiling_comp. rewrite Ey. apply rnd_div_comp. rewrite Eu.
    apply rnd_div_comp. exact Er. }
  split; [exact Hr |]. split; [exact Er |]. split.
  { rewrite Er.
    destruct (Qlt_le_dec 0 (g - p)) as [P | N].
    - rewrite (Q.max_r 0 (g - p)) by lra.
      rewrite (Q.max_r 0 (rnd (g - p))) by (apply rnd_nonneg; lra).
      apply rnd_error.
    - rewrite (Q.max_l 0 (g - p)) by lra.
      rewrite (Q.max_l 0 (rnd (g - p)))
        by (apply rnd_mono in N; exact N).
      assert (0 - 0 == 0) as -> by ring. change (Qabs 0) with 0.
      pose proof (Qabs_nonneg (g - p)). pose proof (two_pos (-53)).
      pose proof (two_pos (-1075)). nra. }
  split; [exact Hu |]. split; [exact Eu |]. split; [exact Hc |].
  split; [apply Qceiling_comp; exact Ey |].
  split.
  - intros Zr. unfold cutsPerDay, cutsNeededTotal.
    unfold remainingGoal in *. rewrite (max0_zero _ r Hr Zr).
    rewrite zero_over_days by lia. reflexivity.
  - intros Hd' BU. rewrite Ec. apply cuts_bracket; [lia | exact BU].
Qed.

(** X20: when the total of the period has reached the goal the dashboard
    says that the goal is crushed, and the cuts are 0; when the goal is
    ahead of the total by at least 2^-1000 it does not, and the number of
    cuts that it shows is a whole number of at least 1.  Below that the
    quotients underflow: with a goal of 5e-324, the least positive number,
    and a total of 0 the dashboard says that the goal is crushed. *)
Theorem goalCrushed_spec :
  (forall (periodTotal goalAmount : number) (p g : Q) (days : Z),
     toQ periodTotal = Some p -> toQ goalAmount = Some g ->
     (1 <= days <= 31)%Z -> Qabs (g - p) <= two 1023 ->
     (g <= p ->
      goalCrushed (cutsPerDay periodTotal goalAmount (ofZ days)) = true
      /\ cutsPerDay periodTotal goalAmount (ofZ days) = ofZ 0)
     /\ (two (-1000) <= g - p ->
         goalCrushed (cutsPerDay periodTotal goalAmount (ofZ days)) = false
         /\ exists n : Z,
              toQ (cutsPerDay periodTotal goalAmount (ofZ days))
              = Some (inject_Z n)
              /\ (1 <= n)%Z))
  /\ goalCrushed (cutsPerDay (ofZ 0) (Fin (two (-1074))) (ofZ 1)) = true.
Proof.
  split; [| vm_compute; reflexivity].
  intros periodTotal goalAmount p g days Hp Hg Hd B.
  destruct (cuts_chain _ _ p g days Hp Hg ltac:(lia) B)
    as (r & u & y & Hr & Er & Hu & Eu & Ey & Hc).
  split.
  - intros Le.
    assert (r == 0) as Zr.
    { rewrite Er. apply Q.max_l.
      assert (g - p <= 0) as N by lra. apply rnd_mono in N. exact N. }
    assert (cutsPerDay periodTotal goalAmount (ofZ days) = ofZ 0) as ->.
    { unfold cutsPerDay, cutsNeededTotal, remainingGoal in *.
      rewrite (max0_zero _ r Hr Zr), zero_over_days by lia. reflexivity. }
    split; reflexivity.
  - intros Far.
    pose proof (inject_Z_ge1 days ltac:(lia)) as D1.
    assert (inject_Z days <= 31) as D31.
    { change 31 with (inject_Z 31). rewrite <- Zle_Qle. lia. }
    pose proof (two_pos (-1011)) as T0.
    assert (two (-1006) == 32 * two (-1011)) as T1.
    { change (-1006)%Z with (5 + -1011)%Z. rewrite two_plus. reflexivity. }
    assert (two (-1000) == 64 * two (-1006)) as T2.
    { change (-1000)%Z with (6 + -1006)%Z. rewrite two_plus. reflexivity. }
    assert (two (-1000) <= r) as R.
    { rewrite Er. apply rnd_mono in Far.
      rewrite (rnd_two (-1000)) in Far by lia.
      pose proof (Q.le_max_r 0 (rnd (g - p))). lra. }
    assert (two (-1006) <= r / 35) as U.
    { apply Qle_shift_div_l; [reflexivity | lra]. }
    apply rnd_mono in U. rewrite (rnd_two (-1006)) in U by lia.
    rewrite <- Eu in U.
    assert (two (-1011) <= u / inject_Z days) as Y.
    { apply Qle_shift_div_l; [lra | nra]. }
    apply rnd_mono in Y. rewrite (rnd_two (-1011)) in Y by lia.
    rewrite <- Ey in Y.
    pose proof (Qle_ceiling y) as C.
    assert (inject_Z 0 < inject_Z (Qceiling y)) as P
      by (change (inject_Z 0) with 0; lra).
    rewrite <- Zlt_Qlt in P.
    split.
    + unfold goalCrushed, leb.
      rewrite (cmp_finite _ _ _ _ Hc (toQ_ofZ 0)).
      destruct (Qcompare_spec (inject_Z (Qceiling y)) (inject_Z 0))
        as [E | L | G]; try reflexivity.
      * change (inject_Z 0) with 0 in E. lra.
      * change (inject_Z 0) with 0 in L. lra.
    + exists (Qceiling y). split; [exact Hc | lia].
Qed.

(** X22: one cut a day less than the dashboard shows never brings in what
    is left of the goal, at the average price and over the days left, and
    one more always does.  The number shown itself can fall short: with the
    doubles 35.1 for the goal and 0.1 for the total, whose difference is
    more than 35, the dashboard shows 1 cut for the one day left. *)
Theorem cutsPerDay_brackets :
  (forall (periodTotal goalAmount : number) (p g : Q) (days : Z),
     toQ periodTotal = Some p -> toQ goalAmount = Some g ->
     (1 <= days <= 31)%Z -> - two 1023 <= g - p <= two 52 ->
     exists c : Z,
       toQ (cutsPerDay periodTotal goalAmount (ofZ days))
       = Some (inject_Z c)
       /\ inject_Z (c - 1) * inject_Z days * 35 < Qmax 0 (g - p)
       /\ Qmax 0 (g - p) <= inject_Z (c + 1) * inject_Z days * 35)
  /\ (cutsPerDay (lit (1 # 10)) (lit (351 # 10)) (ofZ 1) = ofZ 1
      /\ 1 * 1 * 35 < value (lit (351 # 10)) - value (lit (1 # 10))).
Proof.
  split; [| split; vm_compute; reflexivity].
  intros periodTotal goalAmount p g days Hp Hg Hd [BL BU].
  pose proof (two_le 52 1023 ltac:(lia)) as T.
  assert (Qabs (g - p) <= two 1023) as B
    by (apply Qabs_Qle_condition; lra).
  destruct (cuts_chain _ _ p g days Hp Hg ltac:(lia) B)
    as (r & u & y & Hr & Er & Hu & Eu & Ey & Hc).
  pose proof (cuts_bracket (g - p) days Hd BU) as [K0 K1].
  assert (Qceiling y
          = Qceiling (rnd (rnd (Qmax 0 (rnd (g - p)) / 35) / inject_Z days)))
    as Ec.
  { apply Qceiling_comp. rewrite Ey. apply rnd_div_comp. rewrite Eu.
    apply rnd_div_comp. exact Er. }
  rewrite <- Ec in K0, K1.
  exists (Qceiling y). split; [exact Hc |].
  pose proof (inject_Z_ge1 days ltac:(lia)) as D1.
  assert (0 <= Qmax 0 (g - p)) as M0 by apply Q.le_max_l.
  set (M := Qmax 0 (g - p)) in *. set (dq := inject_Z days) in *.
  set (x := M / 35 / dq) in *.
  assert (x * dq * 35 == M) as Ex by (unfold x; field; lra).
  pose proof (Qle_ceiling x) as Cu. pose proof (Qceiling_lt x) as Cl.
  set (n := Qceiling x) in *.
  assert (inject_Z (Qceiling y - 1) <= inject_Z (n - 1)) as A0.
  { rewrite <- Zle_Qle. lia. }
  assert (inject_Z n <= inject_Z (Qceiling y + 1)) as A1.
  { rewrite <- Zle_Qle. lia. }
  split; nra.
Qed.

(** *** The progress *)

Lemma progress_value (periodTotal goalAmount : number) (p g : Q) :
  toQ periodTotal = Some p -> toQ goalAmount = Some g ->
  0 < g -> Qabs p <= two 1000 * g ->
  exists q,
    toQ (goalProgress periodTotal goalAmount) = Some q
    /\ q == Qmin 100 (rnd (rnd (p / g) * 100)).
Proof.
  intros Hp Hg G B. assert (~ g == 0) as Gn by lra.
  pose proof (two_pos 1000) as T0.
  pose proof (two_le 1000 1023 ltac:(lia)) as T1.
  assert (two 1007 == 128 * two 1000) as T2.
  { change 1007%Z with (7 + 1000)%Z. rewrite two_plus. reflexivity. }
  pose proof (two_le 1007 1023 ltac:(lia)) as T3.
  assert (Qabs (p / g) <= two 1000) as B1.
  { apply Qabs_Qle_condition in B. destruct B as [L U].
    apply Qabs_Qle_condition. split.
    - apply Qle_shift_div_l; [exact G | lra].
    - apply Qle_shift_div_r; [exact G | lra]. }
  assert (Qabs (p / g) <= two 1023) as B2 by lra.
  destruct (div64_finite _ _ p g Hp Hg Gn B2) as (d & Hd & Ed).
  pose proof (rnd_bound _ 1000 ltac:(lia) B1) as B3. rewrite <- Ed in B3.
  assert (Qabs (d * inject_Z 100) <= two 1023) as B4.
  { change (inject_Z 100) with 100. apply Qabs_Qle_condition in B3.
    apply Qabs_Qle_condition. lra. }
  destruct (mul64_finite _ _ d (inject_Z 100) Hd (toQ_ofZ 100) B4)
    as (m & Hm & Em).
  destruct (min_finite _ _ _ m (toQ_ofZ 100) Hm) as (q & Hq & Eq).
  exists q. split; [exact Hq |].
  rewrite Eq, Em.
  rewrite (rnd_comp (d * inject_Z 100) (rnd (p / g) * 100));
    [reflexivity |].
  rewrite Ed. reflexivity.
Qed.

Lemma progressAt_near (j : Z) :
  (0 <= j <= 100)%Z ->
  inject_Z j - (1 # 4) <= progressAt j <= inject_Z j + (1 # 4).
Proof.
  intros Hj.
  assert (forallb (fun i =>
            Qle_bool (inject_Z i - (1 # 4)) (progressAt i)
            && Qle_bool (progressAt i) (inject_Z i + (1 # 4)))
            (map Z.of_nat (seq 0 101)) = true) as C
    by (vm_compute; reflexivity).
  rewrite forallb_forall in C. specialize (C j).
  apply andb_true_iff in C.
  - destruct C as [L U]. split; now apply Qle_bool_iff.
  - apply in_map_iff. exists (Z.to_nat j). split; [lia |].
    apply in_seq. lia.
Qed.

(** The percentage that the two roundings give is the exact progress
    rounded down, or one more. *)
Lemma percent_bracket (t : Q) :
  0 <= t ->
  let X := Qmin 100 (t * 100) in
  let n := Qfloor (Qmin 100 (rnd (rnd t * 100)) + (1 # 2)) in
  (0 <= n <= 100)%Z /\ (Qfloor X <= n <= Qfloor X + 1)%Z
  /\ (1 <= t -> n = 100%Z).
Proof.
  intros T0 X n.
  assert (1 <= t -> Qmin 100 (rnd (rnd t * 100)) == 100) as Full.
  { intros T1. apply rnd_mono in T1. rewrite (rnd_Z 1) in T1 by (cbn; lia).
    change (inject_Z 1) with 1 in T1.
    assert (inject_Z 100 <= rnd t * 100) as H
      by (change (inject_Z 100) with 100; lra).
    apply rnd_mono in H. rewrite (rnd_Z 100) in H by (cbn; lia).
    change (inject_Z 100) with 100 in H. apply Q.min_l. exact H. }
  destruct (Qlt_le_dec (t * 100) 100) as [Lt | Ge].
  - assert (X == t * 100) as EX by (apply Q.min_r; lra).
    pose proof (Qfloor_le X) as FL. pose proof (Qlt_floor X) as FU.
    set (k := Qfloor X) in *.
    assert (0 <= k)%Z as K0.
    { assert (0 <= X) as X0 by (rewrite EX; lra).
      apply Qfloor_resp_le in X0. exact X0. }
    assert (k <= 99)%Z as K1.
    { assert (inject_Z k < inject_Z 100) as H
        by (change (inject_Z 100) with 100; lra).
      rewrite <- Zlt_Qlt in H. lia. }
    rewrite inject_Z_plus in FU. change (inject_Z 1) with 1 in FU.
    assert (inject_Z k / 100 <= t) as A0.
    { apply Qle_shift_div_r; [reflexivity | lra]. }
    assert (t <= inject_Z (k + 1) / 100) as A1.
    { apply Qle_shift_div_l; [reflexivity |].
      rewrite inject_Z_plus. change (inject_Z 1) with 1. lra. }
    apply rnd_mono in A0, A1.
    assert (rnd (inject_Z k / 100) * 100 <= rnd t * 100) as B0 by lra.
    assert (rnd t * 100 <= rnd (inject_Z (k + 1) / 100) * 100) as B1 by lra.
    apply rnd_mono in B0, B1.
    fold (progressAt k) in B0. fold (progressAt (k + 1)) in B1.
    destruct (progressAt_near k ltac:(lia)) as [N0 _].
    destruct (progressAt_near (k + 1) ltac:(lia)) as [_ N1].
    rewrite inject_Z_plus in N1. change (inject_Z 1) with 1 in N1.
    set (q' := rnd (rnd t * 100)) in *.
    assert (inject_Z k <= Qmin 100 q' + (1 # 2)) as L.
    { assert (inject_Z k <= 99).
      { change 99 with (inject_Z 99). rewrite <- Zle_Qle. exact K1. }
      destruct (Q.min_spec 100 q') as [[? ->] | [? ->]]; lra. }
    assert (Qmin 100 q' + (1 # 2) < inject_Z (k + 2)) as U.
    { rewrite inject_Z_plus. change (inject_Z 2) with 2.
      destruct (Q.min_spec 100 q') as [[? ->] | [? ->]]; lra. }
    apply Qfloor_resp_le in L. rewrite Qfloor_Z in L.
    pose proof (Qfloor_le (Qmin 100 q' + (1 # 2))) as F.
    fold n in L, F.
    assert (inject_Z n < inject_Z (k + 2)) as U' by lra.
    rewrite <- Zlt_Qlt in U'.
    split; [lia |]. split; [lia |].
    intros T1. lra.
  - assert (1 <= t) as T1 by lra.
    assert (n = 100%Z) as ->.
    { unfold n. rewrite (Qfloor_comp _ ((201 # 2))).
      - reflexivity.
      - rewrite (Full T1). reflexivity. }
    assert (Qfloor X = 100%Z) as ->.
    { unfold X. rewrite (Qfloor_comp _ 100); [reflexivity |].
      apply Q.min_l. exact Ge. }
    split; [lia |]. split; [lia | reflexivity].
Qed.

(** X19: for a goal above 0 and a total of at least 0 the percentage
    beside the goal is a whole number from 0 to 100: the exact progress
    rounded down, or one more, and 100 once the total has reached the goal.
    It is not always the nearest: with a total of 115 and a goal of 200 the
    progress is 57.49999999999999 and the dashboard shows 57. *)
Theorem percentDisplay_spec :
  (forall (periodTotal goalAmount : number) (p g : Q),
     toQ periodTotal = Some p -> toQ goalAmount = Some g ->
     0 < g -> 0 <= p -> p <= two 1000 * g ->
     exists n : Z,
       toQ (percentDisplay (goalProgress periodTotal goalAmount))
       = Some (inject_Z n)
       /\ (0 <= n <= 100)%Z
       /\ (Qfloor (Qmin 100 (p / g * 100)) <= n
           <= Qfloor (Qmin 100 (p / g * 100)) + 1)%Z
       /\ (g <= p -> n = 100%Z))
  /\ percentDisplay (goalProgress (ofZ 115) (ofZ 200)) = ofZ 57.
Proof.
  split; [| vm_compute; reflexivity].
  intros periodTotal goalAmount p g Hp Hg G P B.
  assert (Qabs p <= two 1000 * g) as B' by (rewrite Qabs_pos; assumption).
  destruct (progress_value _ _ p g Hp Hg G B') as (q & Hq & Eq).
  assert (0 <= p / g) as T0 by (apply Qle_shift_div_l; lra).
  destruct (percent_bracket (p / g) T0) as (N0 & N1 & N2).
  cbv zeta in N0, N1, N2.
  exists (Qfloor (q + (1 # 2))). unfold percentDisplay.
  rewrite (DisplayFacts.round_finite _ q Hq).
  assert (Qfloor (q + (1 # 2))
          = Qfloor (Qmin 100 (rnd (rnd (p / g) * 100)) + (1 # 2))) as ->.
  { apply Qfloor_comp. rewrite Eq. reflexivity. }
  split; [reflexivity |]. split; [exact N0 |]. split; [exact N1 |].
  intros Le. apply N2. apply Qle_shift_div_l; lra.
Qed.

(** X21: when the total has reached a goal above 0 the bar of the progress
    is full, at 100, and the dashboard says that the goal is crushed; while
    the total is at most 99 hundredths of the goal the bar is at most at
    99.  The message does not need a full bar: with a goal of 5e-324 and a
    total of 0 the progress is 0 and the dashboard says that the goal is
    crushed. *)
Theorem full_bar_when_reached :
  (forall (periodTotal goalAmount : number) (p g : Q) (days : Z),
     toQ periodTotal = Some p -> toQ goalAmount = Some g ->
     0 < g -> Qabs p <= two 1000 * g -> Qabs (g - p) <= two 1023 ->
     (1 <= days <= 31)%Z ->
     exists q,
       toQ (goalProgress periodTotal goalAmount) = Some q
       /\ (g <= p ->
           q == 100
           /\ goalCrushed (cutsPerDay periodTotal goalAmount (ofZ days))
              = true)
       /\ (100 * p <= 99 * g -> q <= 99))
  /\ (goalProgress (ofZ 0) (Fin (two (-1074))) = ofZ 0
      /\ goalCrushed (cutsPerDay (ofZ 0) (Fin (two (-1074))) (ofZ 1))
         = true).
Proof.
  split; [| split; vm_compute; reflexivity].
  intros periodTotal goalAmount p g days Hp Hg G B B' Hd.
  destruct (progress_value _ _ p g Hp Hg G B) as (q & Hq & Eq).
  exists q. split; [exact Hq |]. split.
  - intros Le. split.
    + rewrite Eq. assert (1 <= p / g) as T1.
      { apply Qle_shift_div_l; lra. }
      apply rnd_mono in T1. rewrite (rnd_Z 1) in T1 by (cbn; lia).
      change (inject_Z 1) with 1 in T1.
      assert (inject_Z 100 <= rnd (p / g) * 100) as H
        by (change (inject_Z 100) with 100; lra).
      apply rnd_mono in H. rewrite (rnd_Z 100) in H by (cbn; lia).
      change (inject_Z 100) with 100 in H. apply Q.min_l. exact H.
    + destruct (cuts_chain _ _ p g days Hp Hg ltac:(lia) B')
        as (r & u & y & Hr & Er & Hu & Eu & Ey & Hc).
      assert (r == 0) as Zr.
      { rewrite Er. apply Q.max_l.
        assert (g - p <= 0) as N by lra. apply rnd_mono in N. exact N. }
      unfold cutsPerDay, cutsNeededTotal, remainingGoal in *.
      rewrite (max0_zero _ r Hr Zr), zero_over_days by lia. reflexivity.
  - intros Le. rewrite Eq.
    assert (p / g <= inject_Z 99 / 100) as T.
    { apply Qle_shift_div_r; [exact G |].
      assert (inject_Z 99 / 100 == 99 # 100) as -> by reflexivity. lra. }
    apply rnd_mono in T.
    assert (rnd (p / g) * 100 <= rnd (inject_Z 99 / 100) * 100) as H by lra.
    apply rnd_mono in H. fold (progressAt 99) in H.
    assert (progressAt 99 <= 99) as N
      by (apply Qle_bool_iff; vm_compute; reflexivity).
    pose proof (Q.le_min_r 100 (rnd (rnd (p / g) * 100))). lra.
Qed.


(** *** The daily burn *)

Lemma dailyExpenses_shares (expenses : list Expense.t) (acc : number) :
  fold_left (fun sum exp =>
      match Expense.frequency exp with
      | Frequency.daily => add sum (Expense.amount exp)
      | _ => add sum (div (Expense.amount exp) (ofZ 7))
      end) expenses acc
  = fold_left add (map share expenses) acc.
Proof.
  revert acc. induction expenses as [| e l IH]; intros acc; [reflexivity |].
  cbn [fold_left map]. rewrite IH. unfold share.
  destruct (Expense.frequency e); reflexivity.
Qed.

Lemma unit_roundoff :
  0 < two (-53) /\ two (-53) <= 1 # 2
  /\ 0 < two (-1075) /\ 4 * two (-1075) <= two (-53)
  /\ two (-53) * two 53 == 1.
Proof.
  pose proof (two_pos (-53)) as P. pose proof (two_pos (-1075)) as P'.
  pose proof (two_le (-53) (-1) ltac:(lia)) as A.
  change (two (-1)) with (1 # 2) in A.
  pose proof (two_le (-1075) (-55) ltac:(lia)) as C.
  assert (two (-53) == 4 * two (-55)) as E.
  { change (-53)%Z with (2 + -55)%Z. rewrite two_plus. reflexivity. }
  assert (two (-53) * two 53 == 1) as F.
  { rewrite <- two_plus. reflexivity. }
  split; [exact P |]. split; [exact A |]. split; [exact P' |].
  split; [lra | exact F].
Qed.

(** One step of the sum: the error of the sum so far, that of the
    contribution and that of the addition. *)
Lemma step_bound (c S0 E0 sg s c' A B u t : Q) :
  0 <= S0 -> 0 <= s <= A -> S0 + A <= B -> 0 <= E0 <= 1 ->
  Qabs (c - S0) <= E0 -> Qabs (sg - s) <= A * u + t ->
  0 < u <= 1 # 2 -> 0 < t -> 4 * t <= u ->
  Qabs (c + sg) <= B + 1 + A * u + t
  /\ (Qabs (c' - (c + sg)) <= Qabs (c + sg) * u + t ->
      Qabs (c' - (S0 + s)) <= E0 + 3 * (B + 1) * u).
Proof.
  intros HS Hs HB HE Hc Hsg Hu Ht Htu.
  apply Qabs_Qle_condition in Hc, Hsg.
  assert (Qabs (c + sg) <= B + 1 + A * u + t) as W.
  { apply Qabs_Qle_condition. split; nra. }
  split; [exact W |]. intros Hc'.
  pose proof (Qabs_nonneg (c + sg)) as W0.
  revert W W0 Hc'. generalize (Qabs (c + sg)). intros w W W0 Hc'.
  apply Qabs_Qle_condition in Hc'. apply Qabs_Qle_condition.
  assert (0 <= A * u) as P0 by nra.
  assert (w * u <= (B + 1 + A * u + t) * u) as P1 by nra.
  assert (A * u * u <= A * u * (1 # 2)) as P2.
  { revert P0. generalize (A * u). intros v P0. nra. }
  assert (t * u <= t) as P3 by nra.
  assert ((B + 1 + A * u + t) * u
          == (B + 1) * u + A * u * u + t * u) as P4 by ring.
  assert (A * u <= B * u) as P5 by nra.
  split; lra.
Qed.

Lemma share_error (e : Expense.t) (a A : Q) :
  toQ (Expense.amount e) = Some a -> 0 <= a <= A -> A <= two 1000 ->
  exists sg,
    toQ (share e) = Some sg
    /\ Qabs (sg - Spec.dailyShare e) <= A * two (-53) + two (-1075)
    /\ 0 <= Spec.dailyShare e <= A.
Proof.
  intros Ha [A0 A1] AB.
  destruct unit_roundoff as (U0 & U1 & T0 & T1 & _).
  pose proof (toQ_value _ _ Ha) as V.
  unfold share, Spec.dailyShare. destruct (Expense.frequency e).
  - exists a. split; [exact Ha |]. rewrite V. split; [| lra].
    assert (a - a == 0) as -> by ring. change (Qabs 0) with 0. nra.
  - assert (0 <= a / 7 /\ a / 7 <= A) as [S0 S1].
    { split; [apply Qle_shift_div_l | apply Qle_shift_div_r];
        try reflexivity; lra. }
    pose proof (two_le 1000 1023 ltac:(lia)) as T.
    assert (Qabs (a / inject_Z 7) <= two 1023) as B.
    { change (inject_Z 7) with 7. apply Qabs_Qle_condition. lra. }
    destruct (div64_finite _ _ a (inject_Z 7) Ha (toQ_ofZ 7)
                ltac:(discriminate) B) as (sg & Hsg & Esg).
    change (inject_Z 7) with 7 in Esg.
    exists sg. split; [exact Hsg |]. rewrite V. split; [| lra].
    rewrite Esg. pose proof (rnd_error (a / 7)) as R.
    rewrite (Qabs_pos (a / 7)) in R by exact S0. nra.
Qed.

Lemma sum_error (A B : Q) (l : list Expense.t) :
  0 <= A -> B + 1 <= two 53 ->
  forall (acc : number) (c S0 E0 : Q),
    toQ acc = Some c -> amountsWithin A l ->
    0 <= S0 -> Qabs (c - S0) <= E0 -> 0 <= E0 ->
    S0 + inject_Z (Z.of_nat (List.length l)) * A <= B ->
    E0 + inject_Z (Z.of_nat (List.length l)) * (3 * (B + 1) * two (-53))
    <= 1 ->
    exists d,
      toQ (fold_left add (map share l) acc) = Some d
      /\ Qabs (d - (S0 + Spec.dailyEquivalent l))
         <= E0 + inject_Z (Z.of_nat (List.length l))
                 * (3 * (B + 1) * two (-53)).
Proof.
  intros A0 HB.
  destruct unit_roundoff as (U0 & U1 & T0 & T1 & U53).
  pose proof (two_le 53 1000 ltac:(lia)) as T53.
  assert (two 55 == 4 * two 53) as T55.
  { change 55%Z with (2 + 53)%Z. rewrite two_plus. reflexivity. }
  pose proof (two_le 55 1023 ltac:(lia)) as T1023.
  pose proof (two_pos 53) as P53.
  induction l as [| e l IH]; intros acc c S0 E0 Hc Hl HS Hcs HE HSB HEB.
  - exists c. split; [exact Hc |].
    cbn [List.length Z.of_nat]. change (inject_Z 0) with 0.
    unfold Spec.dailyEquivalent. cbn [map Spec.sumQ fold_right].
    assert (c - (S0 + 0) == c - S0) as -> by ring. lra.
  - inversion Hl as [| ? ? (a & Ha & Hra) Hl']; subst.
    cbn [List.length] in HSB, HEB |- *.
    rewrite Nat2Z.inj_succ in HSB, HEB |- *. unfold Z.succ in *.
    rewrite inject_Z_plus in HSB, HEB |- *.
    change (inject_Z 1) with 1 in *.
    pose proof (Nat2Z.is_nonneg (List.length l)) as K0.
    rewrite Zle_Qle in K0. change (inject_Z 0) with 0 in K0.
    set (k := inject_Z (Z.of_nat (List.length l))) in *.
    assert (0 <= k * A) as KA by nra.
    assert (0 <= B) as B0 by lra.
    assert (A <= B) as AB by lra.
    assert (A <= two 1000) as AT by lra.
    destruct (share_error e a A Ha Hra AT) as (sg & Hsg & Esg & Hs).
    set (s := Spec.dailyShare e) in *.
    assert (0 <= 3 * (B + 1) * two (-53)) as Eta0 by nra.
    assert (0 <= k * (3 * (B + 1) * two (-53))) as KEta.
    { revert Eta0. generalize (3 * (B + 1) * two (-53)). intros v V. nra. }
    assert (0 <= E0 <= 1) as HE1 by lra.
    destruct (step_bound c S0 E0 sg s 0 A B (two (-53)) (two (-1075))
                HS Hs ltac:(lra) HE1 Hcs Esg ltac:(lra) T0 T1) as [W _].
    assert (Qabs (c + sg) <= two 1023) as Bz.
    { assert (A * two (-53) <= A) by nra. lra. }
    destruct (add64_finite _ _ c sg Hc Hsg Bz) as (c' & Hc' & Ec').
    destruct (step_bound c S0 E0 sg s c' A B (two (-53)) (two (-1075))
                HS Hs ltac:(lra) HE1 Hcs Esg ltac:(lra) T0 T1) as [_ Step].
    assert (Qabs (c' - (S0 + s)) <= E0 + 3 * (B + 1) * two (-53)) as Hstep.
    { apply Step. rewrite Ec'. apply rnd_error. }
    cbn [map fold_left].
    destruct (IH (add acc (share e)) c' (S0 + s)
                (E0 + 3 * (B + 1) * two (-53)) Hc' Hl' ltac:(lra) Hstep
                ltac:(lra) ltac:(lra) ltac:(lra)) as (d & Hd & Ed).
    exists d. split; [exact Hd |].
    unfold Spec.dailyEquivalent in *. cbn [map Spec.sumQ fold_right].
    fold s. fold (Spec.sumQ (map Spec.dailyShare l)).
    assert (d - (S0 + (s + Spec.sumQ (map Spec.dailyShare l)))
            == d - (S0 + s + Spec.sumQ (map Spec.dailyShare l))) as ->
      by ring.
    lra.
Qed.

Lemma dailyEquivalent_bounds (A : Q) (l : list Expense.t) :
  0 <= A -> amountsWithin A l ->
  0 <= Spec.dailyEquivalent l
  /\ Spec.dailyEquivalent l <= inject_Z (Z.of_nat (List.length l)) * A.
Proof.
  intros A0 HA. unfold Spec.dailyEquivalent.
  induction HA as [| e l (a & Ha & Hra) Hl IH].
  - cbn [List.length Z.of_nat map Spec.sumQ fold_right].
    change (inject_Z 0) with 0. lra.
  - cbn [List.length]. rewrite Nat2Z.inj_succ. unfold Z.succ.
    rewrite inject_Z_plus. change (inject_Z 1) with 1.
    cbn [map Spec.sumQ fold_right].
    fold (Spec.sumQ (map Spec.dailyShare l)).
    assert (0 <= Spec.dailyShare e <= A) as Hs.
    { pose proof (toQ_value _ _ Ha) as V. unfold Spec.dailyShare.
      destruct (Expense.frequency e); rewrite V; [lra |].
      split; [apply Qle_shift_div_l | apply Qle_shift_div_r];
        try reflexivity; lra. }
    lra.
Qed.

Lemma inject_Z_pred (z : Z) : inject_Z (z - 1) == inject_Z z - 1.
Proof. unfold Z.sub. rewrite inject_Z_plus. reflexivity. Qed.

Lemma ceiling_near (x y : Q) :
  Qabs (x - y) <= 1 -> (Qceiling y - 1 <= Qceiling x <= Qceiling y + 1)%Z.
Proof.
  intros H. apply Qabs_Qle_condition in H.
  pose proof (Qle_ceiling x) as Xu. pose proof (Qceiling_lt x) as Xl.
  pose proof (Qle_ceiling y) as Yu. pose proof (Qceiling_lt y) as Yl.
  rewrite inject_Z_pred in Xl, Yl.
  assert (inject_Z (Qceiling x) < inject_Z (Qceiling y + 2)) as A.
  { rewrite inject_Z_plus. change (inject_Z 2) with 2. lra. }
  assert (inject_Z (Qceiling y) < inject_Z (Qceiling x + 2)) as B.
  { rewrite inject_Z_plus. change (inject_Z 2) with 2. lra. }
  rewrite <- Zlt_Qlt in A, B. lia.
Qed.

Lemma floor_near (x y : Q) :
  Qabs (x - y) <= 1 -> (Qfloor y - 1 <= Qfloor x <= Qfloor y + 1)%Z.
Proof.
  intros H. apply Qabs_Qle_condition in H.
  pose proof (Qfloor_le x) as Xl. pose proof (Qlt_floor x) as Xu.
  pose proof (Qfloor_le y) as Yl. pose proof (Qlt_floor y) as Yu.
  rewrite inject_Z_plus in Xu, Yu. change (inject_Z 1) with 1 in *.
  assert (inject_Z (Qfloor x) < inject_Z (Qfloor y + 2)) as A.
  { rewrite inject_Z_plus. change (inject_Z 2) with 2. lra. }
  assert (inject_Z (Qfloor y) < inject_Z (Qfloor x + 2)) as B.
  { rewrite inject_Z_plus. change (inject_Z 2) with 2. lra. }
  rewrite <- Zlt_Qlt in A, B. lia.
Qed.

(** C7: the daily equivalent is the sum, in the order of the list, of the
    amounts of the daily expenses and of the sevenths of the weekly ones,
    and no whole number is made of it before the balance grid: the net of
    today is the gross minus it, and the grid shows the ceiling of the
    former and the floor of the latter.  The sevenths, the sum and the
    difference are computed in binary64, each rounded to the nearest
    double: for amounts from 0 to [A] and a gross of at most [B] the daily
    equivalent and the net differ from the exact ones by at most
    [3 (K + 1) (B + 1) / 2^53], and the two figures shown by at most 1.
    Three weekly expenses of 29, 31 and 31, which are 13 a day, give
    13.000000000000002: the grid shows a burn of 14 and, with no gross, a
    net of -14. *)
Theorem dailyExpenses_unrounded :
  (forall expenses : list Expense.t,
     dailyExpenses expenses = dailyEquivalent expenses)
  /\ (forall (expenses : list Expense.t) (grossToday : number) (g A B : Q),
        amountsWithin A expenses -> toQ grossToday = Some g ->
        0 <= A -> Qabs g <= B ->
        let K := inject_Z (Z.of_nat (List.length expenses)) in
        let E := 3 * (K + 1) * (B + 1) * two (-53) in
        K * A <= B -> E <= 1 ->
        exists d n,
          toQ (dailyExpenses expenses) = Some d
          /\ Qabs (d - Spec.dailyEquivalent expenses) <= E
          /\ toQ (netToday grossToday (dailyExpenses expenses)) = Some n
          /\ n == rnd (g - d)
          /\ Qabs (n - (g - Spec.dailyEquivalent expenses)) <= E
          /\ toQ (burnRateDisplay (dailyExpenses expenses))
             = Some (inject_Z (Qceiling d))
          /\ toQ (netTodayDisplay
                    (netToday grossToday (dailyExpenses expenses)))
             = Some (inject_Z (Qfloor n))
          /\ (Qceiling (Spec.dailyEquivalent expenses) - 1 <= Qceiling d
              <= Qceiling (Spec.dailyEquivalent expenses) + 1)%Z
          /\ (Qfloor (g - Spec.dailyEquivalent expenses) - 1 <= Qfloor n
              <= Qfloor (g - Spec.dailyEquivalent expenses) + 1)%Z)
  /\ (Spec.dailyEquivalent threeWeekly == 13
      /\ dailyExpenses threeWeekly
         = Fin (7318349394477057 # 562949953421312)
      /\ burnRateDisplay (dailyExpenses threeWeekly) = ofZ 14
      /\ netTodayDisplay (netToday (ofZ 0) (dailyExpenses threeWeekly))
         = ofZ (-14)).
Proof.
  split; [| split].
  - intros expenses. apply dailyExpenses_shares.
  - intros expenses grossToday g A B HA Hg A0 HgB K E HK HE.
    destruct unit_roundoff as (U0 & U1 & T0 & T1 & U53).
    pose proof (Nat2Z.is_nonneg (List.length expenses)) as K0.
    rewrite Zle_Qle in K0. change (inject_Z 0) with 0 in K0. fold K in K0.
    pose proof (Qabs_nonneg g) as G0.
    assert (0 <= B) as B0 by lra.
    assert (3 * (B + 1) * two (-53) <= 1) as HE1 by (unfold E in HE; nra).
    assert (B + 1 <= two 53) as HB by nra.
    assert (K * (3 * (B + 1) * two (-53)) <= E) as HKE
      by (unfold E; nra).
    destruct (sum_error A B expenses A0 HB (ofZ 0) 0 0 0 (toQ_ofZ 0) HA
                ltac:(lra) ltac:(change (Qabs (0 - 0)) with 0; lra)
                ltac:(lra) ltac:(fold K; lra) ltac:(fold K; lra))
      as (d & Hd & Ed).
    fold K in Ed. set (S := Spec.dailyEquivalent expenses) in *.
    assert (d - (0 + S) == d - S) as X by ring. rewrite X in Ed.
    apply Qabs_Qle_condition in Ed.
    assert (- E <= d - S <= E) as EdS by lra.
    assert (toQ (dailyExpenses expenses) = Some d) as Hd'.
    { unfold dailyExpenses. rewrite dailyExpenses_shares. exact Hd. }
    pose proof (dailyEquivalent_bounds A expenses A0 HA) as [S0 S1].
    fold K in S1. fold S in S0, S1.
    pose proof HgB as HgB'. apply Qabs_Qle_condition in HgB'.
    pose proof (two_le 53 1022 ltac:(lia)) as T53.
    assert (two 1023 == 2 * two 1022) as T1023.
    { change 1023%Z with (1 + 1022)%Z. rewrite two_plus. reflexivity. }
    pose proof (two_pos 53) as P53.
    assert (Qabs (g - d) <= 2 * B + 1) as Bgd.
    { apply Qabs_Qle_condition. split; lra. }
    assert (Qabs (g - d) <= two 1023) as Bn by lra.
    destruct (sub64_finite _ _ g d Hg Hd' Bn) as (n & Hn & En).
    exists d, n. unfold netToday, burnRateDisplay, netTodayDisplay.
    assert (Qabs (n - (g - S)) <= E) as EnS.
    { pose proof (rnd_error (g - d)) as R. rewrite <- En in R.
      apply Qabs_Qle_condition in R.
      pose proof (Qabs_nonneg (g - d)) as W0.
      revert R Bgd W0. generalize (Qabs (g - d)). intros w R Bgd W0.
      assert (w * two (-53) <= (2 * B + 1) * two (-53)) as P1 by nra.
      apply Qabs_Qle_condition. unfold E. split; lra. }
    split; [exact Hd' |].
    split; [apply Qabs_Qle_condition; exact EdS |].
    split; [exact Hn |]. split; [exact En |]. split; [exact EnS |].
    split; [apply ceil_finite; exact Hd' |].
    split; [apply floor_finite; exact Hn |].
    split.
    + apply ceiling_near. apply Qabs_Qle_condition. lra.
    + apply floor_near. lra.
  - vm_compute. repeat split.
Qed.


Lemma goal_projection_witness :
  exists (r u : Q) (c : Z),
    toQ (remainingGoal (ofZ 250) (ofZ 1000)) = Some r
    /\ r == Qmax 0 (rnd (1000 - 250))
    /\ toQ (cutsNeededTotal (ofZ 250) (ofZ 1000)) = Some u
    /\ u == rnd (r / 35)
    /\ toQ (cutsPerDay (ofZ 250) (ofZ 1000) (ofZ 5)) = Some (inject_Z c)
    /\ c = Qceiling (rnd (u / inject_Z 5)).
Proof.
  assert (Qabs (1000 - 250) <= two 1023) as B
    by (apply Qle_bool_iff; vm_compute; reflexivity).
  destruct (proj1 goal_projection (ofZ 250) (ofZ 1000) 250 1000 5%Z
              eq_refl eq_refl ltac:(lia) B)
    as (r & u & c & Hr & Er & _ & Hu & Eu & Hc & Ec & _).
  exists r, u, c.
  exact (conj Hr (conj Er (conj Hu (conj Eu (conj Hc Ec))))).
Defined.

Lemma goalCrushed_spec_witness :
  goalCrushed (cutsPerDay (ofZ 250) (ofZ 1000) (ofZ 5)) = false
  /\ exists n : Z,
       toQ (cutsPerDay (ofZ 250) (ofZ 1000) (ofZ 5)) = Some (inject_Z n)
       /\ (1 <= n)%Z.
Proof.
  assert (Qabs (1000 - 250) <= two 1023) as B
    by (apply Qle_bool_iff; vm_compute; reflexivity).
  assert (two (-1000) <= 1000 - 250) as F
    by (apply Qle_bool_iff; vm_compute; reflexivity).
  destruct (proj1 goalCrushed_spec (ofZ 250) (ofZ 1000) 250 1000 5%Z
              eq_refl eq_refl ltac:(lia) B) as (_ & H).
  exact (H F).
Defined.

Lemma cutsPerDay_brackets_witness :
  exists c : Z,
    toQ (cutsPerDay (ofZ 250) (ofZ 1000) (ofZ 5)) = Some (inject_Z c)
    /\ inject_Z (c - 1) * inject_Z 5 * 35 < Qmax 0 (1000 - 250)
    /\ Qmax 0 (1000 - 250) <= inject_Z (c + 1) * inject_Z 5 * 35.
Proof.
  assert (- two 1023 <= 1000 - 250 <= two 52) as B
    by (split; apply Qle_bool_iff; vm_compute; reflexivity).
  exact (proj1 cutsPerDay_brackets (ofZ 250) (ofZ 1000) 250 1000 5%Z
           eq_refl eq_refl ltac:(lia) B).
Defined.

Lemma percentDisplay_spec_witness :
  exists n : Z,
    toQ (percentDisplay (goalProgress (ofZ 250) (ofZ 1000)))
    = Some (inject_Z n)
    /\ (0 <= n <= 100)%Z
    /\ (Qfloor (Qmin 100 (250 / 1000 * 100)) <= n
        <= Qfloor (Qmin 100 (250 / 1000 * 100)) + 1)%Z
    /\ (1000 <= 250 -> n = 100%Z).
Proof.
  assert (250 <= two 1000 * 1000) as B
    by (apply Qle_bool_iff; vm_compute; reflexivity).
  exact (proj1 percentDisplay_spec (ofZ 250) (ofZ 1000) 250 1000
           eq_refl eq_refl ltac:(reflexivity) ltac:(discriminate) B).
Defined.

Lemma full_bar_when_reached_witness :
  exists q,
    toQ (goalProgress (ofZ 1200) (ofZ 1000)) = Some q
    /\ q == 100
    /\ goalCrushed (cutsPerDay (ofZ 1200) (ofZ 1000) (ofZ 5)) = true.
Proof.
  assert (Qabs 1200 <= two 1000 * 1000) as B
    by (apply Qle_bool_iff; vm_compute; reflexivity).
  assert (Qabs (1000 - 1200) <= two 1023) as B'
    by (apply Qle_bool_iff; vm_compute; reflexivity).
  destruct (proj1 full_bar_when_reached (ofZ 1200) (ofZ 1000) 1200 1000
              5%Z eq_refl eq_refl ltac:(reflexivity) B B' ltac:(lia))
    as (q & Hq & H & _).
  destruct (H ltac:(discriminate)) as [E C].
  exists q. exact (conj Hq (conj E C)).
Defined.

Lemma dailyExpenses_unrounded_witness :
  exists d n,
    toQ (dailyExpenses [Sample.chairRental; Sample.supplies]) = Some d
    /\ toQ (netToday (ofZ 250)
              (dailyExpenses [Sample.chairRental; Sample.supplies]))
       = Some n
    /\ n == rnd (250 - d)
    /\ (Qceiling
          (Spec.dailyEquivalent [Sample.chairRental; Sample.supplies]) - 1
        <= Qceiling d
        <= Qceiling
             (Spec.dailyEquivalent [Sample.chairRental; Sample.supplies])
           + 1)%Z.
Proof.
  assert (amountsWithin 70 [Sample.chairRental; Sample.supplies]) as HA.
  { constructor; [| constructor; [| constructor]].
    - exists 70. split; [reflexivity | split; discriminate].
    - exists (21 # 2). split; [reflexivity | split; discriminate]. }
  pose proof (proj1 (proj2 dailyExpenses_unrounded)
                [Sample.chairRental; Sample.supplies] (ofZ 250) 250 70 250
                HA eq_refl ltac:(discriminate) ltac:(discriminate)) as H.
  cbv zeta in H.
  destruct H as (d & n & Hd & _ & Hn & En & _ & _ & _ & Hc & _).
  - apply Qle_bool_iff. vm_compute. reflexivity.
  - apply Qle_bool_iff. vm_compute. reflexivity.
  - exists d, n. exact (conj Hd (conj Hn (conj En Hc))).
Defined.


End FiguresFacts.
